(** * nsplitter: the splitting core ([src/core.py]) in Rocq

    A shallow embedding of [split_file] and [collect_files] together with
    the parts of the Python runtime they rely on: integer true division
    and [math.ceil], [os.path], buffered file objects, [os.makedirs] and
    [os.walk]. *)

From Stdlib Require Import ZArith Lia Strings.Byte Ascii String DecimalString.
From Stdlib Require DecimalPos DecimalZ.
From Stdlib Require Floats.SpecFloat.
From stdpp Require Import base numbers list strings gmap.

Local Open Scope Z_scope.

(** ** Module constants (core.py, lines 15-20) *)

Definition ONE_KB : Z := 2 ^ 10.
Definition THIRTY_TWO_KB : Z := 32 * ONE_KB.
Definition SIXTY_FOUR_KB : Z := 64 * ONE_KB.
Definition ONE_MB : Z := 2 ^ 20.
Definition FOUR_GB : Z := 4 * 2 ^ 30.
Definition MAX_SPLIT_SIZE : Z := FOUR_GB - SIXTY_FOUR_KB.

(** ** Exceptions and results *)

Inductive exn :=
  | ZeroDivisionError
  | OverflowError
  | FileNotFoundError
  | FileExistsError
  | IsADirectoryError.

(** A run returns, raises, or exhausts the step budget of a [while]
    loop of the model ([OutOfFuel] is shown below never to happen). *)
Inductive result (A : Type) :=
  | Ok (a : A)
  | Raise (e : exn)
  | OutOfFuel.
Arguments Ok {A} a.
Arguments Raise {A} e.
Arguments OutOfFuel {A}.

(** ** Python numbers

    [int] is [Z].  A finite [float] (IEEE-754 binary64) is kept as the
    pair of an integer significand and a binary exponent, standing for
    [fmant * 2 ^ fexp]; the sign of a zero is not recorded. *)

Module PyNum.

Record float := Float { fmant : Z; fexp : Z }.

Definition mant_bits : Z := 53.
Definition min_exp : Z := -1074.
Definition huge : Z := 2 ^ 1024.

(** [pow2 k] is [2 ^ k] for [k >= 0] and [1] below. *)
Definition pow2 (k : Z) : Z := 2 ^ Z.max 0 k.

(** Nearest integer to [n / d], ties to the even one ([0 < d], [0 <= n]). *)
Definition round_half_even (n d : Z) : Z :=
  let q := n / d in
  match 2 * (n mod d) ?= d with
  | Lt => q
  | Gt => q + 1
  | Eq => if Z.even q then q else q + 1
  end.

(** [floor (log2 (a / b))] for positive [a] and [b]. *)
Definition quot_log2 (a b : Z) : Z :=
  let d := Z.log2 a - Z.log2 b in
  if b * pow2 d <=? a * pow2 (- d) then d else d - 1.

(** [a / b] on two [int]s: the quotient correctly rounded to a float
    (CPython's [long_true_divide]). *)
Definition truediv (a b : Z) : result float :=
  if b =? 0 then Raise ZeroDivisionError
  else if a =? 0 then Ok (Float 0 0)
  else
    let e := Z.max min_exp (quot_log2 (Z.abs a) (Z.abs b) - (mant_bits - 1)) in
    let m := round_half_even (Z.abs a * pow2 (- e)) (Z.abs b * pow2 e) in
    if huge <=? m * pow2 e then Raise OverflowError
    else Ok (Float (Z.sgn a * Z.sgn b * m) e).

(** The same quotient by the IEEE-754 division of the standard library
    at binary64, applied to the two integers as they are: a second
    opinion on [truediv] for positive operands. *)
Definition ieee_div (a b : positive) : SpecFloat.spec_float :=
  SpecFloat.SFdiv 53 1024
    (SpecFloat.S754_finite false a 0) (SpecFloat.S754_finite false b 0).

(** [math.ceil] on a float: the least integer not below it. *)
Definition math_ceil (x : float) : Z :=
  if 0 <=? fexp x then fmant x * 2 ^ fexp x
  else - ((- fmant x) / 2 ^ (- fexp x)).

(** The exact ceiling of [a / b] in integer arithmetic. *)
Definition ceil_div (a b : Z) : Z := (a + b - 1) / b.

End PyNum.

(** [num_splits = math.ceil(filesize / MAX_SPLIT_SIZE)] (core.py, line 59),
    first for any threshold, then for the module's. *)
Definition num_splits_at (max_split_size filesize : Z) : result Z :=
  match PyNum.truediv filesize max_split_size with
  | Ok x => Ok (PyNum.math_ceil x)
  | Raise e => Raise e
  | OutOfFuel => OutOfFuel
  end.

Definition num_splits (filesize : Z) : result Z :=
  num_splits_at MAX_SPLIT_SIZE filesize.


(** ** Python strings *)

Module PyStr.

(** [c in s] *)
Fixpoint contains (c : ascii) (s : string) : bool :=
  match s with
  | "" => false
  | String a s' => Ascii.eqb a c || contains c s'
  end.

(** The text before and the text after the last [c] of [s]
    ([s[:i]] and [s[i+1:]] for [i = s.rfind(c)]); [None] when [c] does
    not occur. *)
Fixpoint rsplit (c : ascii) (s : string) : option (string * string) :=
  match s with
  | "" => None
  | String a s' =>
      match rsplit c s' with
      | Some (h, t) => Some (String a h, t)
      | None => if Ascii.eqb a c then Some ("", s') else None
      end
  end.

(** [s == c * len(s)] *)
Fixpoint all_char (c : ascii) (s : string) : bool :=
  match s with
  | "" => true
  | String a s' => Ascii.eqb a c && all_char c s'
  end.

(** [s.lstrip(c)] and [s.rstrip(c)] for a one-character [c]. *)
Fixpoint lstrip (c : ascii) (s : string) : string :=
  match s with
  | "" => ""
  | String a s' => if Ascii.eqb a c then lstrip c s' else s
  end.

Fixpoint rstrip (c : ascii) (s : string) : string :=
  match s with
  | "" => ""
  | String a s' =>
      match rstrip c s' with
      | "" => if Ascii.eqb a c then "" else String a ""
      | r => String a r
      end
  end.

(** [s.startswith(pre)] and [s.endswith(suf)]: plain prefix and suffix
    tests on the characters. *)
Fixpoint startswith (s pre : string) : bool :=
  match pre with
  | "" => true
  | String b pre' =>
      match s with
      | "" => false
      | String a s' => Ascii.eqb a b && startswith s' pre'
      end
  end.

Fixpoint endswith (s suf : string) : bool :=
  String.eqb s suf ||
  match s with
  | "" => false
  | String _ s' => endswith s' suf
  end.

(** [str(n)] for an [int], and [int(s)] on optional sign and digits. *)
Definition str (n : Z) : string := NilZero.string_of_int (Z.to_int n).

Definition parse_int (s : string) : option Z :=
  option_map Z.of_int (NilZero.int_of_string s).

(** [format(n, "02")]: the decimal text of [n], filled with a zero on the
    left up to two characters. *)
Definition format_02 (n : Z) : string :=
  let s := str n in
  if (String.length s <? 2)%nat then "0" +:+ s else s.

End PyStr.

(** ** [os.path] (posixpath) *)

Module OsPath.
Import PyStr.

Definition sep : ascii := "/"%char.
Definition extsep : ascii := "."%char.

(** [p[:i]] for [i = p.rfind("/") + 1]: everything up to and including
    the last slash. *)
Definition head (p : string) : string :=
  match rsplit sep p with
  | Some (h, _) => h +:+ "/"
  | None => ""
  end.

(** [os.path.basename]: [p[i:]]. *)
Definition basename (p : string) : string :=
  match rsplit sep p with
  | Some (_, t) => t
  | None => p
  end.

(** [os.path.dirname]: the head, without its trailing slashes unless it
    consists of slashes only. *)
Definition dirname (p : string) : string :=
  let h := head p in
  if negb (String.eqb h "") && negb (all_char sep h) then rstrip sep h else h.

(** [os.path.splitext]: split at the last dot of the last component,
    unless that component has only dots before it. *)
Definition splitext (p : string) : string * string :=
  match rsplit extsep (basename p) with
  | Some (pre, post) =>
      if all_char extsep pre then (p, "")
      else (head p +:+ pre, String extsep post)
  | None => (p, "")
  end.

(** [os.path.join(a, b)] *)
Definition join (a b : string) : string :=
  if startswith b "/" then b
  else if String.eqb a "" || endswith a "/" then a +:+ b
  else a +:+ "/" +:+ b.

End OsPath.

(** ** The world: files, console, clock

    Files are kept in a store keyed by the path string as the program
    spells it (no symbolic links, no normalisation of paths); a
    directory is recorded under its own path, the directories above it
    are not tracked.  The console collects the data of each progress
    line.  The clock is an
    oracle: [clock k] is what the [k]-th call of [time.time()] returns,
    in microseconds. *)

Inductive node :=
  | File (data : list byte)
  | Dir.

Record report := Report {
  rep_elapsed : string;         (* format_elapsed_time(start_time) *)
  rep_index : Z;                (* split + 1 *)
  rep_num_splits : Z;           (* num_splits *)
  rep_progress : PyNum.float;   (* total_bytes_written / filesize *)
  rep_bytes : Z;                (* total_bytes_written *)
  rep_filesize : Z;             (* filesize *)
  rep_filename : string;        (* filename *)
  rep_end : string              (* end= of the print call *)
}.

Record world := World {
  fs : gmap string node;
  stdout : list report;
  clock : nat -> Z;
  clock_reads : nat
}.

Definition set_fs (m : gmap string node) (w : world) : world :=
  World m (stdout w) (clock w) (clock_reads w).

(** ** The monad of effects: state and exceptions *)

Definition M (A : Type) : Type := world -> result A * world.

Definition ret {A} (a : A) : M A := fun w => (Ok a, w).

Definition bind {A B} (c : M A) (k : A -> M B) : M B :=
  fun w =>
    match c w with
    | (Ok a, w') => k a w'
    | (Raise e, w') => (Raise e, w')
    | (OutOfFuel, w') => (OutOfFuel, w')
    end.

Definition out_of_fuel {A} : M A := fun w => (OutOfFuel, w).

Definition lift {A} (r : result A) : M A := fun w => (r, w).

Notation "'do' x <- c ; k" := (bind c (fun x => k))
  (at level 10, x pattern, c at level 100, k at level 200).
Notation "c ;; k" := (bind c (fun _ => k))
  (at level 100, k at level 200, right associativity).

(** ** Runtime operations *)

Module Runtime.

(** [time.time()] *)
Definition time_time : M Z :=
  fun w => (Ok (clock w (clock_reads w)),
            World (fs w) (stdout w) (clock w) (S (clock_reads w))).

(** [os.makedirs(path, exist_ok=True)] *)
Definition os_makedirs (path : string) : M unit :=
  fun w =>
    match fs w !! path with
    | Some Dir => (Ok tt, w)
    | Some (File _) => (Raise FileExistsError, w)
    | None => (Ok tt, set_fs (<[path := Dir]> (fs w)) w)
    end.

(** [open(path, "rb")] *)
Definition open_rb (path : string) : M unit :=
  fun w =>
    match fs w !! path with
    | Some (File _) => (Ok tt, w)
    | Some Dir => (Raise IsADirectoryError, w)
    | None => (Raise FileNotFoundError, w)
    end.

(** [open(path, "wb")]: create the file, or truncate it. *)
Definition open_wb (path : string) : M unit :=
  fun w =>
    match fs w !! path with
    | Some Dir => (Raise IsADirectoryError, w)
    | _ => (Ok tt, set_fs (<[path := File []]> (fs w)) w)
    end.

(** The bytes of the file at [path] as they are now. *)
Definition contents (m : gmap string node) (path : string) : list byte :=
  match m !! path with
  | Some (File data) => data
  | _ => []
  end.

(** [infile.read(n)] with the read position at [pos]: up to [n] bytes,
    everything that is left for a negative [n]. *)
Definition file_read (path : string) (pos : nat) (n : Z) : M (list byte) :=
  fun w =>
    let rest := drop pos (contents (fs w) path) in
    (Ok (if n <? 0 then rest else take (Z.to_nat n) rest), w).

(** [outfile.write(chunk)]: append at the end of the file. *)
Definition file_write (path : string) (chunk : list byte) : M unit :=
  fun w =>
    (Ok tt, set_fs (<[path := File (contents (fs w) path ++ chunk)]> (fs w)) w).

(** [print(...)] of one progress line. *)
Definition print (r : report) : M unit :=
  fun w => (Ok tt, World (fs w) (stdout w ++ [r]) (clock w) (clock_reads w)).

(** [len(chunk)] *)
Definition len (chunk : list byte) : Z := Z.of_nat (length chunk).

(** Bytes of the file at [path] behind position [pos]: bounds the number
    of non-empty reads that can follow. *)
Definition bytes_left (path : string) (pos : nat) : M nat :=
  fun w => (Ok (length (contents (fs w) path) - pos)%nat, w).

End Runtime.

(** ** core.py *)

Import PyStr OsPath Runtime.

(** [time.strftime("%H:%M:%S", time.gmtime(seconds))] *)
Definition strftime_HMS (seconds : Z) : string :=
  format_02 (seconds / 3600 mod 24) +:+ ":" +:+
  format_02 (seconds / 60 mod 60) +:+ ":" +:+
  format_02 (seconds mod 60).

(** core.py, lines 23-34 *)
Definition format_elapsed_time (start_time : Z) : M string :=
  do now <- time_time;
  let elapsed_seconds := (now - start_time) / 1000000 in
  ret (strftime_HMS elapsed_seconds).

(** The split directory (core.py, lines 63-68) and the path of fragment
    [split] (line 81). *)
Definition split_dir_of (filepath : string) : string :=
  let parent_dir := dirname filepath in
  let file_extension := lstrip "." (splitext filepath).2 in
  let filename_without_extension := (splitext (basename filepath)).1 in
  join parent_dir (filename_without_extension +:+ ".split." +:+ file_extension).

Definition split_path_of (split_dir : string) (split : Z) : string :=
  join split_dir (format_02 split).

Definition CR : string := String "013"%char "".
Definition LF : string := String "010"%char "".

Section Splitter.

(** The module constant [MAX_SPLIT_SIZE], kept as a variable so that the
    loops can also be run with a small threshold. *)
Variable max_split_size : Z.

(** The [while] loop of one fragment (core.py, lines 86-97).  [pos] is
    the read position of [infile]; the loop returns the new position and
    the new [total_bytes_written]. *)
Fixpoint copy_loop (fuel : nat) (infile : string) (pos : nat)
    (outfile : string) (buf_size bytes_written total_bytes_written : Z)
    : M (nat * Z) :=
  if bytes_written <? max_split_size then
    match fuel with
    | O => out_of_fuel
    | S fuel' =>
        do chunk <- file_read infile pos buf_size;
        match chunk with
        | [] => ret (pos, total_bytes_written)
        | _ :: _ =>
            file_write outfile chunk ;;
            copy_loop fuel' infile (pos + length chunk)%nat outfile buf_size
              (bytes_written + len chunk) (total_bytes_written + len chunk)
        end
    end
  else ret (pos, total_bytes_written).

(** The [for split in range(num_splits)] loop (core.py, lines 79-107),
    with [n] iterations to go. *)
Fixpoint split_loop (n : nat) (split : Z) (filepath filename split_dir : string)
    (filesize buf_size num_splits start_time : Z) (pos : nat)
    (total_bytes_written : Z) : M unit :=
  match n with
  | O => ret tt
  | S n' =>
      let split_path := split_path_of split_dir split in
      open_wb split_path ;;
      do remaining <- bytes_left filepath pos;
      do (pos', total_bytes_written') <-
        copy_loop (S remaining) filepath pos split_path buf_size 0
          total_bytes_written;
      do elapsed_time <- format_elapsed_time start_time;
      do progress <- lift (PyNum.truediv total_bytes_written' filesize);
      print (Report elapsed_time (split + 1) num_splits progress
               total_bytes_written' filesize filename
               (if total_bytes_written' <? filesize then CR else LF)) ;;
      split_loop n' (split + 1) filepath filename split_dir filesize buf_size
        num_splits start_time pos' total_bytes_written'
  end.

(** core.py, lines 37-113 *)
Definition split_file_at (filepath : string) (filesize buf_size : Z)
    : M string :=
  let filename := basename filepath in
  do num_splits <- lift (num_splits_at max_split_size filesize);
  let split_dir := split_dir_of filepath in
  os_makedirs split_dir ;;
  do start_time <- time_time;
  let total_bytes_written := 0 in
  open_rb filepath ;;
  split_loop (Z.to_nat num_splits) 0 filepath filename split_dir filesize
    buf_size num_splits start_time 0%nat total_bytes_written ;;
  ret split_dir.

End Splitter.

Definition split_file : string -> Z -> Z -> M string :=
  split_file_at MAX_SPLIT_SIZE.

(** ** Directory trees and [os.walk]

    What [os.scandir] finds below a path: a file, or a directory with its
    entries in listing order. *)

#[warnings="-register-all"]
Inductive tree :=
  | FileNode
  | DirNode (entries : list (string * tree)).

(** The disk as [os.walk] sees it: the tree found at a path, if any. *)
Definition disk : Type := string -> option tree.

Definition is_dir (t : tree) : bool :=
  match t with DirNode _ => true | FileNode => false end.

(** The [dirs] and [files] (non-directories) of one listing. *)
Definition dirs_of (entries : list (string * tree)) : list string :=
  map fst (filter (fun e => is_dir (snd e) = true) entries).

Definition files_of (entries : list (string * tree)) : list string :=
  map fst (filter (fun e => is_dir (snd e) = false) entries).

(** [os.walk(top)], top-down, [onerror=None], [followlinks=False]: a
    path that cannot be listed yields nothing. *)
Fixpoint walk_tree (top : string) (t : tree)
    : list (string * list string * list string) :=
  match t with
  | FileNode => []
  | DirNode entries =>
      (top, dirs_of entries, files_of entries) ::
      (fix walk_dirs (es : list (string * tree)) :=
         match es with
         | [] => []
         | (name, t') :: es' =>
             (if is_dir t' then walk_tree (join top name) t' else []) ++
             walk_dirs es'
         end) entries
  end.

Definition os_walk (d : disk) (top : string)
    : list (string * list string * list string) :=
  match d top with
  | Some t => walk_tree top t
  | None => []
  end.

(** The inner [for file in files] loop (core.py, lines 129-131). *)
Fixpoint collect_in (root extension : string) (files : list string)
    (collected_files : list string) : list string :=
  match files with
  | [] => collected_files
  | file :: files' =>
      collect_in root extension files'
        (if endswith file extension
         then collected_files ++ [join root file]
         else collected_files)
  end.

(** The outer loop over the steps of the walk, with its [break]
    (core.py, lines 128-133). *)
Fixpoint collect_walk (steps : list (string * list string * list string))
    (extension : string) (recursive : bool) (collected_files : list string)
    : list string :=
  match steps with
  | [] => collected_files
  | (root, _, files) :: steps' =>
      let collected_files := collect_in root extension files collected_files in
      if negb recursive then collected_files
      else collect_walk steps' extension recursive collected_files
  end.

(** core.py, lines 115-134 *)
Definition collect_files (d : disk) (directory extension : string)
    (recursive : bool) : result (list string) :=
  Ok (collect_walk (os_walk d directory) extension recursive []).

(** ** Vocabulary of the statements *)

Module Layout.

(** What [dirname] returns: nothing, slashes only, or a path that does
    not end in a slash. *)
Definition tidy (d : string) : Prop :=
  d = "" \/ all_char sep d = true \/ endswith d "/" = false.

(** Stem and extension (without its dot) of the file name of a path, and
    the name of its split directory. *)
Definition stem_of (filepath : string) : string :=
  (splitext (basename filepath)).1.

Definition ext_of (filepath : string) : string :=
  lstrip "." (splitext (basename filepath)).2.

Definition split_name (filepath : string) : string :=
  stem_of filepath +:+ ".split." +:+ ext_of filepath.

End Layout.

Module Chunks.

(** Bytes that the loop of one fragment still takes from an endless
    input once [bytes_written] are written: whole reads of [buf_size]
    until [max_split_size] is reached. *)
Definition fragment_span (max_split_size buf_size bytes_written : Z) : Z :=
  buf_size * Z.max 0 (PyNum.ceil_div (max_split_size - bytes_written) buf_size).

(** The same with only [avail] bytes left in the input. *)
Definition taken (max_split_size buf_size bytes_written : Z) (avail : nat)
    : nat :=
  Z.to_nat (Z.min (Z.of_nat avail)
              (fragment_span max_split_size buf_size bytes_written)).

(** Bytes per fragment of a long input, and fragment [i] of [data] cut
    at that stride. *)
Definition stride (max_split_size buf_size : Z) : nat :=
  Z.to_nat (fragment_span max_split_size buf_size 0).

Definition chunk (T : nat) (data : list byte) (i : nat) : list byte :=
  take T (drop (i * T) data).

(** The fragments [0 .. n-1] of a split directory read back and put
    together in ascending order of their index. *)
Definition reassemble (m : gmap string node) (split_dir : string) (n : nat)
    : list byte :=
  concat (map (fun i => contents m (split_path_of split_dir (Z.of_nat i)))
            (seq 0 n)).

(** The float of a progress line. *)
Definition progress_of (total_bytes_written filesize : Z) : PyNum.float :=
  match PyNum.truediv total_bytes_written filesize with
  | Ok x => x
  | _ => PyNum.Float 0 0
  end.

Section Expected.

Variables (max_split_size buf_size : Z) (data : list byte).
Variables (split_dir filename : string) (filesize num_splits start_time : Z).
Variable clock : nat -> Z.

(** The store after [n] more fragments, the next one having index
    [split] and starting at byte [pos] of [data]. *)
Fixpoint fragments_written (n : nat) (split : Z) (pos : nat)
    (m : gmap string node) : gmap string node :=
  match n with
  | O => m
  | S n' =>
      let c := taken max_split_size buf_size 0 (length data - pos) in
      fragments_written n' (split + 1) (pos + c)
        (<[split_path_of split_dir split := File (take c (drop pos data))]> m)
  end.

(** The progress lines of these [n] fragments, with [total] bytes
    written before them and [reads] clock readings taken. *)
Fixpoint reports_printed (n : nat) (split : Z) (pos : nat) (total : Z)
    (reads : nat) : list report :=
  match n with
  | O => []
  | S n' =>
      let c := taken max_split_size buf_size 0 (length data - pos) in
      let total' := total + Z.of_nat c in
      Report (strftime_HMS ((clock reads - start_time) / 1000000))
        (split + 1) num_splits (progress_of total' filesize) total' filesize
        filename (if total' <? filesize then CR else LF)
      :: reports_printed n' (split + 1) (pos + c) total' (S reads)
  end.

End Expected.

End Chunks.

Module Listing.



(** The paths of the files of one listing with the wanted suffix. *)
Definition matches (root extension : string) (files : list string)
    : list string :=
  map (join root) (filter (fun file => endswith file extension = true) files).

(** A disk with a directory ["top"]: two files, and a subdirectory
    holding a third. *)
Definition sample_disk : disk :=
  fun p =>
    if String.eqb p "top"
    then Some (DirNode [("a.txt", FileNode); ("b.mp4", FileNode);
                        ("sub", DirNode [("c.mp4", FileNode)])])
    else None.

End Listing.

(** ** Two inputs of interest *)

Module Inputs.

(** A file of [2^22] full fragments and one byte more (16 PiB and a bit),
    all zero bytes. *)
Definition big_filesize : Z := 2 ^ 22 * MAX_SPLIT_SIZE + 1.
Definition big_data : list byte := repeat x00 (Z.to_nat big_filesize).
Definition big_world : world :=
  World {[ "big.bin" := File big_data ]} [] (fun _ => 0) 0.

(** A file one byte longer than a fragment, to be split with a buffer
    of [ONE_MB]. *)
Definition over_filesize : Z := MAX_SPLIT_SIZE + 1.
Definition over_data : list byte := repeat x00 (Z.to_nat over_filesize).
Definition over_world : world :=
  World {[ "in.bin" := File over_data ]} [] (fun _ => 0) 0.

(** A file of eleven bytes, to be split at a threshold of four. *)
Definition eleven_world : world :=
  World {[ "d/a.bin" :=
             File [x01; x02; x03; x04; x05; x06; x07; x08; x09; x0a; x0b] ]}
    [] (fun k => Z.of_nat k * 3700000000) 0.

(** Small stores: a file of three bytes, an empty file, nothing. *)
Definition small_world : world :=
  World {[ "d/a.bin" := File [x01; x02; x03] ]} [] (fun _ => 0) 0.
Definition bare_world : world := World ∅ [] (fun _ => 0) 0.

End Inputs.

(** ** Stores with something in the way *)

Module Obstacles.

(** A regular file at the path of the split directory of ["d/a.bin"]. *)
Definition taken_world : world :=
  World {[ "d/a.bin" := File [x01; x02; x03];
           "d/a.split.bin" := File [] ]} [] (fun _ => 0) 0.

(** A directory where the input should be. *)
Definition dir_world : world :=
  World {[ "d/a.bin" := Dir ]} [] (fun _ => 0) 0.

(** A directory at the path of fragment [00]. *)
Definition blocked_world : world :=
  World {[ "d/a.bin" := File [x01; x02; x03];
           "d/a.split.bin/00" := Dir ]} [] (fun _ => 0) 0.

(** Eleven bytes to be split at a threshold of four, with a directory
    at the path of fragment [01]. *)
Definition blocked_eleven_world : world :=
  World {[ "d/a.bin" :=
             File [x01; x02; x03; x04; x05; x06; x07; x08; x09; x0a; x0b];
           "d/a.split.bin/01" := Dir ]} [] (fun _ => 0) 0.

End Obstacles.

(** * Properties *)

(** ** Arithmetic of the split count *)

Module PyNumFacts.
Import PyNum.

Lemma pow2_nonneg k : 0 <= k -> pow2 k = 2 ^ k.
Proof. intros H. unfold pow2. now rewrite Z.max_r. Qed.

Lemma pow2_neg k : k <= 0 -> pow2 k = 1.
Proof. intros H. unfold pow2. now rewrite Z.max_l. Qed.

Lemma pow2_pos k : 0 < pow2 k.
Proof. unfold pow2. apply Z.pow_pos_nonneg; lia. Qed.

Lemma pow2_succ k : 0 <= k -> pow2 (k + 1) = 2 * pow2 k.
Proof.
  intros H. rewrite !pow2_nonneg by lia.
  rewrite Z.pow_add_r by lia. lia.
Qed.

(** [quot_log2 a b] brackets the quotient: [2^L <= a / b < 2^(L+1)],
    written without fractions. *)
Lemma quot_log2_spec a b :
  0 < a -> 0 < b ->
  b * pow2 (quot_log2 a b) <= a * pow2 (- quot_log2 a b) /\
  a * pow2 (- quot_log2 a b) < 2 * (b * pow2 (quot_log2 a b)).
Proof.
  intros Ha Hb. unfold quot_log2.
  destruct (Z.log2_spec a Ha) as [Ha1 Ha2].
  destruct (Z.log2_spec b Hb) as [Hb1 Hb2].
  pose proof (Z.log2_nonneg a) as Hla. pose proof (Z.log2_nonneg b) as Hlb.
  set (la := Z.log2 a) in *. set (lb := Z.log2 b) in *. clearbody la lb.
  rewrite Z.pow_succ_r in Ha2, Hb2 by lia.
  destruct (Z.leb_spec (b * pow2 (la - lb)) (a * pow2 (- (la - lb)))) as [Hc|Hc].
  - split; [exact Hc|].
    destruct (Z.le_gt_cases 0 (la - lb)) as [Hd|Hd].
    + rewrite pow2_neg in * by lia. rewrite pow2_nonneg in * by lia.
      assert (E : 2 ^ la = 2 ^ (la - lb) * 2 ^ lb)
        by (rewrite <- Z.pow_add_r by lia; f_equal; lia).
      assert (0 < 2 ^ (la - lb)) by (apply Z.pow_pos_nonneg; lia).
      nia.
    + rewrite (pow2_neg (la - lb)) in * by lia.
      rewrite pow2_nonneg in * by lia.
      assert (E : 2 ^ lb = 2 ^ (- (la - lb)) * 2 ^ la)
        by (rewrite <- Z.pow_add_r by lia; f_equal; lia).
      assert (0 < 2 ^ (- (la - lb))) by (apply Z.pow_pos_nonneg; lia).
      nia.
  - destruct (Z.lt_trichotomy 0 (la - lb)) as [Hd|[Hd|Hd]].
    + rewrite (pow2_neg (- (la - lb))) in Hc by lia.
      rewrite (pow2_neg (- (la - lb - 1))) by lia.
      rewrite pow2_nonneg in Hc by lia. rewrite pow2_nonneg by lia.
      assert (E : 2 ^ la = 2 * 2 ^ (la - lb - 1) * 2 ^ lb).
      { rewrite <- Z.pow_succ_r by lia. rewrite <- Z.pow_add_r by lia.
        f_equal; lia. }
      assert (E2 : 2 ^ (la - lb) = 2 * 2 ^ (la - lb - 1)).
      { rewrite <- Z.pow_succ_r by lia. f_equal; lia. }
      assert (0 < 2 ^ (la - lb - 1)) by (apply Z.pow_pos_nonneg; lia).
      nia.
    + rewrite <- Hd in *. change (pow2 0) with 1 in Hc.
      change (pow2 (- 0)) with 1 in Hc.
      change (pow2 (0 - 1)) with 1. change (pow2 (- (0 - 1))) with 2.
      assert (la = lb) by lia. subst lb. lia.
    + rewrite (pow2_neg (la - lb)) in Hc by lia.
      rewrite (pow2_neg (la - lb - 1)) by lia.
      rewrite pow2_nonneg in Hc by lia. rewrite pow2_nonneg by lia.
      assert (E : 2 ^ lb = 2 ^ (- (la - lb)) * 2 ^ la)
        by (rewrite <- Z.pow_add_r by lia; f_equal; lia).
      assert (E2 : 2 ^ (- (la - lb - 1)) = 2 * 2 ^ (- (la - lb))).
      { rewrite <- Z.pow_succ_r by lia. f_equal; lia. }
      assert (0 < 2 ^ (- (la - lb))) by (apply Z.pow_pos_nonneg; lia).
      nia.
Qed.

Lemma round_half_even_divmod n d q r :
  0 < d -> n = d * q + r -> 0 <= r < d ->
  round_half_even n d =
    match 2 * r ?= d with
    | Lt => q
    | Gt => q + 1
    | Eq => if Z.even q then q else q + 1
    end.
Proof.
  intros Hd Hn Hr. unfold round_half_even.
  rewrite <- (Z.div_unique n d q r) by (auto; lia).
  rewrite <- (Z.mod_unique n d q r) by (auto; lia).
  reflexivity.
Qed.

Lemma ceil_div_divmod a b k r :
  0 < b -> a = b * k + r -> 0 <= r < b ->
  ceil_div a b = if r =? 0 then k else k + 1.
Proof.
  intros Hb Ha Hr. unfold ceil_div.
  destruct (Z.eqb_spec r 0) as [->|Hne].
  - symmetry. apply (Z.div_unique _ _ _ (b - 1)); lia.
  - symmetry. apply (Z.div_unique _ _ _ (r - 1)); lia.
Qed.

(** Up to [2^22] full fragments the rounded quotient still has the right
    ceiling: the float carries at least 31 fractional bits there, and a
    remainder of one byte is worth more than [2^-32]. *)
Lemma num_splits_exact a :
  0 <= a <= 2 ^ 22 * MAX_SPLIT_SIZE ->
  num_splits a = Ok (ceil_div a MAX_SPLIT_SIZE).
Proof.
  intros [H0 H1].
  destruct (Z.eq_dec a 0) as [->|Hne]; [reflexivity|].
  unfold num_splits, num_splits_at, truediv.
  change MAX_SPLIT_SIZE with 4294901760 in *.
  change (4294901760 =? 0) with false; cbv iota.
  destruct (Z.eqb_spec a 0); [lia|].
  rewrite (Z.abs_eq a) by lia. change (Z.abs 4294901760) with 4294901760.
  destruct (quot_log2_spec a 4294901760) as [HL1 HL2]; [lia|lia|].
  set (L := quot_log2 a 4294901760) in *. clearbody L.
  assert (HL : -32 <= L <= 22).
  { split.
    - destruct (Z.le_gt_cases (-32) L); [done|]. exfalso.
      rewrite (pow2_neg L) in HL2 by lia. rewrite pow2_nonneg in HL2 by lia.
      assert (2 ^ 33 <= 2 ^ (- L)) by (apply Z.pow_le_mono_r; lia). nia.
    - destruct (Z.le_gt_cases L 22); [done|]. exfalso.
      rewrite (pow2_neg (- L)) in HL1 by lia. rewrite pow2_nonneg in HL1 by lia.
      assert (2 ^ 23 <= 2 ^ L) by (apply Z.pow_le_mono_r; lia). nia. }
  change (mant_bits - 1) with 52. unfold min_exp.
  rewrite Z.max_r by lia.
  rewrite (pow2_neg (L - 52)) by lia. rewrite pow2_nonneg by lia.
  pose proof (Z.div_mod a 4294901760 ltac:(lia)) as Ha.
  pose proof (Z.mod_pos_bound a 4294901760 ltac:(lia)) as Hr.
  set (k := a / 4294901760) in *. set (r := a mod 4294901760) in *.
  clearbody k r.
  assert (Hk : 0 <= k) by lia.
  assert (Hfull : r <> 0 -> 2 ^ 31 <= 2 ^ (- (L - 52))).
  { intros Hr0. apply Z.pow_le_mono_r; [lia|].
    destruct (Z.eq_dec L 22) as [->|]; [|lia]. exfalso.
    change (pow2 22) with 4194304 in HL1.
    change (pow2 (Z.opp 22)) with 1 in HL1.
    change (2 ^ 22) with 4194304 in H1. lia. }
  assert (HS : 2 ^ 30 <= 2 ^ (- (L - 52)) <= 2 ^ 84)
    by (split; apply Z.pow_le_mono_r; lia).
  set (S := 2 ^ (- (L - 52))) in *.
  assert (HLneg : (0 <=? L - 52) = false) by (apply Z.leb_gt; lia).
  assert (HSdef : 2 ^ (- (L - 52)) = S) by reflexivity.
  clearbody S.
  pose proof (Z.div_mod (r * S) 4294901760 ltac:(lia)) as Hq.
  pose proof (Z.mod_pos_bound (r * S) 4294901760 ltac:(lia)) as Hq'.
  set (q := r * S / 4294901760) in *. set (t := (r * S) mod 4294901760) in *.
  clearbody q t.
  assert (Hq0 : 0 <= q < S) by nia.
  rewrite !Z.mul_1_r.
  rewrite (round_half_even_divmod (a * S) 4294901760 (k * S + q) t)
    by (try lia; nia).
  rewrite (ceil_div_divmod a 4294901760 k r) by lia.
  rewrite Z.sgn_pos by lia.
  set (m := match 2 * t ?= 4294901760 with
            | Eq => if Z.even (k * S + q) then k * S + q else k * S + q + 1
            | Lt => k * S + q
            | Gt => k * S + q + 1
            end).
  assert (Hm : if r =? 0 then m = k * S else k * S < m <= (k + 1) * S).
  { subst m. destruct (Z.eqb_spec r 0) as [->|Hr0].
    - assert (q = 0) by nia. assert (t = 0) by nia. subst q t.
      simpl. lia.
    - specialize (Hfull Hr0). change (2 ^ 31) with 2147483648 in Hfull.
      destruct (Z.compare_spec (2 * t) 4294901760) as [Hc|Hc|Hc].
      + assert (1 <= q) by nia. destruct (Z.even (k * S + q)); lia.
      + assert (1 <= q) by nia. lia.
      + lia. }
  assert (Hhuge : (huge <=? m) = false).
  { apply Z.leb_gt. unfold huge.
    assert (m <= (k + 1) * S) by (destruct (r =? 0); lia).
    assert (k <= 2 ^ 22) by lia.
    assert ((k + 1) * S <= (2 ^ 22 + 1) * 2 ^ 84) by (apply Z.mul_le_mono_nonneg; lia).
    assert ((2 ^ 22 + 1) * 2 ^ 84 < 2 ^ 1024) by (vm_compute; reflexivity).
    lia. }
  rewrite Hhuge. f_equal. unfold math_ceil. cbn [fexp fmant].
  rewrite HLneg. rewrite !Z.mul_1_l. rewrite HSdef.
  destruct (Z.eqb_spec r 0) as [->|Hr0].
  - rewrite Hm. replace (- (k * S)) with ((- k) * S) by lia.
    rewrite Z.div_mul by lia. lia.
  - rewrite <- (Z.div_unique (- m) S (- (k + 1)) ((k + 1) * S - m)); [lia| |lia].
    left. lia.
Qed.

Lemma round_half_even_nearest n d :
  0 < d -> 2 * Z.abs (round_half_even n d * d - n) <= d.
Proof.
  intros Hd. unfold round_half_even.
  pose proof (Z.div_mod n d ltac:(lia)) as Hn.
  pose proof (Z.mod_pos_bound n d Hd) as Hr.
  destruct (Z.compare_spec (2 * (n mod d)) d) as [Hc|Hc|Hc];
    [destruct (Z.even (n / d))|..]; nia.
Qed.

(** The float of a quotient of positive integers is a multiple of
    [2 ^ e] within half a unit [2 ^ e] of the quotient. *)
Lemma truediv_nearest a b m e :
  0 < a -> 0 < b -> truediv a b = Ok (Float m e) ->
  min_exp <= e /\
  2 * Z.abs (m * (b * pow2 e) - a * pow2 (- e)) <= b * pow2 e.
Proof.
  intros Ha Hb. unfold truediv.
  destruct (Z.eqb_spec b 0); [lia|]. destruct (Z.eqb_spec a 0); [lia|].
  rewrite !Z.abs_eq, !Z.sgn_pos by lia.
  destruct (huge <=? _); [done|]. intros [= <- <-].
  split; [lia|]. rewrite !Z.mul_1_l.
  apply round_half_even_nearest.
  pose proof (pow2_pos (Z.max min_exp (quot_log2 a b - (mant_bits - 1)))).
  nia.
Qed.

(** The only failures of a division. *)
Lemma truediv_raises a b e :
  truediv a b = Raise e -> e = ZeroDivisionError \/ e = OverflowError.
Proof.
  unfold truediv. destruct (b =? 0); [intros [= <-]; by left|].
  destruct (a =? 0); [done|].
  destruct (huge <=? _); [intros [= <-]; by right|done].
Qed.


Lemma round_half_even_le n d : round_half_even n d <= n / d + 1.
Proof.
  unfold round_half_even.
  destruct (2 * (n mod d) ?= d); [destruct (Z.even (n / d))|..]; lia.
Qed.

(** A quotient of at most one never overflows: the progress value of a
    report is always a float. *)
Lemma truediv_le_one a b :
  0 <= a <= b -> 0 < b -> exists x, truediv a b = Ok x.
Proof.
  intros [Ha Hab] Hb. unfold truediv.
  destruct (Z.eqb_spec b 0); [lia|].
  destruct (Z.eqb_spec a 0); [eauto|].
  rewrite !Z.abs_eq by lia.
  destruct (quot_log2_spec a b) as [HL1 HL2]; [lia|lia|].
  set (L := quot_log2 a b) in *. clearbody L.
  assert (HL : L <= 0).
  { destruct (Z.le_gt_cases L 0); [done|]. exfalso.
    rewrite (pow2_neg (- L)), (pow2_nonneg L) in HL1 by lia.
    assert (2 ^ 1 <= 2 ^ L) by (apply Z.pow_le_mono_r; lia). nia. }
  rewrite (pow2_neg L), (pow2_nonneg (- L)) in HL2 by lia.
  change (mant_bits - 1) with 52. unfold min_exp.
  set (e := Z.max (-1074) (L - 52)).
  assert (He : -1074 <= e <= -52 /\ L - 52 <= e) by lia. clearbody e.
  rewrite (pow2_neg e), (pow2_nonneg (- e)) by lia. rewrite !Z.mul_1_r.
  assert (Hm : round_half_even (a * 2 ^ (- e)) b <= 2 ^ 53).
  { pose proof (round_half_even_le (a * 2 ^ (- e)) b).
    assert (a * 2 ^ (- e) / b < 2 ^ 53); [|lia].
    apply Z.div_lt_upper_bound; [lia|].
    assert (0 < 2 ^ (- L)) by (apply Z.pow_pos_nonneg; lia).
    destruct (Z.le_gt_cases (- e) (- L)) as [Hc|Hc].
    - assert (2 ^ (- e) <= 2 ^ (- L)) by (apply Z.pow_le_mono_r; lia).
      assert (1 <= 2 ^ 53) by (vm_compute; discriminate). nia.
    - assert (E : 2 ^ (- e) = 2 ^ (- L) * 2 ^ (L - e)).
      { rewrite <- Z.pow_add_r by lia. f_equal. lia. }
      assert (2 ^ (L - e) <= 2 ^ 52) by (apply Z.pow_le_mono_r; lia).
      assert (0 < 2 ^ (L - e)) by (apply Z.pow_pos_nonneg; lia).
      change (2 ^ 53) with (2 * 2 ^ 52). rewrite E. nia. }
  destruct (Z.leb_spec huge (round_half_even (a * 2 ^ (- e)) b)) as [H|H];
    [|eauto].
  exfalso. unfold huge in H.
  assert (2 ^ 53 < 2 ^ 1024) by (vm_compute; reflexivity). lia.
Qed.

End PyNumFacts.

(** ** Strings *)

Module PyStrFacts.
Import PyStr.

Lemma app_nil_l s : "" +:+ s = s.
Proof. reflexivity. Qed.

Lemma app_cons a s t : String a s +:+ t = String a (s +:+ t).
Proof. reflexivity. Qed.

Lemma app_nil_r s : s +:+ "" = s.
Proof. induction s as [|a s IH]; [done|]. by rewrite app_cons, IH. Qed.

Lemma app_assoc s t u : (s +:+ t) +:+ u = s +:+ t +:+ u.
Proof. induction s as [|a s IH]; [done|]. by rewrite !app_cons, IH. Qed.

Lemma length_app s t :
  String.length (s +:+ t) = (String.length s + String.length t)%nat.
Proof. induction s as [|a s IH]; [done|]. rewrite app_cons. simpl. lia. Qed.

Lemma app_eq_nil s t : s +:+ t = "" -> s = "" /\ t = "".
Proof. destruct s; [done|]. rewrite app_cons. discriminate. Qed.

Lemma contains_app c s t :
  contains c (s +:+ t) = contains c s || contains c t.
Proof.
  induction s as [|a s IH]; [done|].
  rewrite app_cons. simpl. rewrite IH. by rewrite orb_assoc.
Qed.

(** *** [rsplit] cuts at the last occurrence *)

Lemma rsplit_spec c s :
  match rsplit c s with
  | Some (h, t) => s = h +:+ String c t /\ contains c t = false
  | None => contains c s = false
  end.
Proof.
  induction s as [|a s IH]; [done|].
  simpl. destruct (rsplit c s) as [[h t]|].
  - destruct IH as [-> Ht]. by rewrite app_cons.
  - rewrite IH. destruct (Ascii.eqb_spec a c) as [->|]; [|done].
    by rewrite app_nil_l.
Qed.

Lemma rsplit_free c s : contains c s = false -> rsplit c s = None.
Proof.
  induction s as [|a s IH]; [done|].
  simpl. intros [Ha Hs]%orb_false_iff. by rewrite (IH Hs), Ha.
Qed.

Lemma rsplit_app c h t :
  contains c t = false -> rsplit c (h +:+ String c t) = Some (h, t).
Proof.
  intros Ht. induction h as [|a h IH].
  - rewrite app_nil_l. simpl. by rewrite (rsplit_free _ _ Ht), Ascii.eqb_refl.
  - rewrite app_cons. simpl. by rewrite IH.
Qed.

(** *** Suffixes *)

Lemma endswith_refl s : endswith s s = true.
Proof. destruct s; cbn [endswith]; by rewrite String.eqb_refl. Qed.

Lemma endswith_app p suf : endswith (p +:+ suf) suf = true.
Proof.
  induction p as [|a p IH]; [apply endswith_refl|].
  rewrite app_cons. cbn [endswith]. rewrite IH. apply orb_true_r.
Qed.

Lemma endswith_iff s suf : endswith s suf = true <-> exists p, s = p +:+ suf.
Proof.
  split.
  - induction s as [|a s IH]; cbn [endswith].
    + rewrite orb_false_r. intros ->%String.eqb_eq. by exists "".
    + intros [->%String.eqb_eq|H]%orb_true_iff; [by exists ""|].
      destruct (IH H) as [p ->]. by exists (String a p).
  - intros [p ->]. apply endswith_app.
Qed.

Lemma endswith_char_contains c s :
  endswith s (String c "") = true -> contains c s = true.
Proof.
  intros [p ->]%endswith_iff. rewrite contains_app. simpl.
  rewrite Ascii.eqb_refl. by rewrite orb_true_r.
Qed.

Lemma endswith_app_free c p t :
  contains c t = false -> t <> "" -> endswith (p +:+ t) (String c "") = false.
Proof.
  intros Ht Hne. destruct (endswith (p +:+ t) (String c "")) eqn:E; [|done].
  apply endswith_iff in E as [q E]. exfalso.
  assert (exists t', t = t' +:+ String c "") as [t' ->].
  { clear Ht. revert q E. induction p as [|a p IH]; intros q E.
    - rewrite app_nil_l in E. eauto.
    - destruct q as [|b q].
      + rewrite app_nil_l, app_cons in E. injection E as _ E.
        by apply app_eq_nil in E as [_ ->].
      + rewrite !app_cons in E. injection E as _ E. eauto. }
  rewrite contains_app in Ht. simpl in Ht. rewrite Ascii.eqb_refl in Ht.
  by rewrite orb_true_r in Ht.
Qed.

Lemma all_char_endswith c s :
  all_char c s = true -> s <> "" -> endswith s (String c "") = true.
Proof.
  induction s as [|a s IH]; [done|].
  cbn [all_char endswith]. intros [->%Ascii.eqb_eq Hs]%andb_true_iff _.
  destruct s as [|b s]; [by rewrite String.eqb_refl|].
  rewrite IH by done. apply orb_true_r.
Qed.

Lemma all_char_app c s t :
  all_char c (s +:+ t) = all_char c s && all_char c t.
Proof.
  induction s as [|a s IH]; [done|].
  rewrite app_cons. simpl. rewrite IH. by rewrite andb_assoc.
Qed.

(** *** Stripping *)

Lemma rstrip_app_char c s : rstrip c (s +:+ String c "") = rstrip c s.
Proof.
  induction s as [|a s IH].
  - rewrite app_nil_l. simpl. by rewrite Ascii.eqb_refl.
  - rewrite app_cons. simpl. by rewrite IH.
Qed.

Lemma rstrip_id c s : endswith s (String c "") = false -> rstrip c s = s.
Proof.
  induction s as [|a s IH]; [done|].
  cbn [endswith rstrip]. intros [H1 H2]%orb_false_iff. rewrite (IH H2).
  destruct s as [|b s]; [|done].
  destruct (Ascii.eqb_spec a c) as [->|]; [|done].
  by rewrite String.eqb_refl in H1.
Qed.

Lemma startswith_free s :
  contains "/" s = false -> startswith s "/" = false.
Proof.
  destruct s as [|a s]; [done|]. cbn [contains startswith].
  intros [-> _]%orb_false_iff. done.
Qed.

End PyStrFacts.

(** ** Paths *)

Module OsPathFacts.
Import PyStr PyStrFacts OsPath Layout.

Lemma head_basename p : p = head p +:+ basename p.
Proof.
  unfold head, basename. pose proof (rsplit_spec sep p) as H.
  destruct (rsplit sep p) as [[h t]|]; [|done].
  destruct H as [-> _]. by rewrite app_assoc.
Qed.

Lemma basename_free p : contains sep (basename p) = false.
Proof.
  unfold basename. pose proof (rsplit_spec sep p) as H.
  destruct (rsplit sep p) as [[h t]|]; [|done]. by destruct H.
Qed.

(** A slash-free text behind a slash is the last component. *)
Lemma head_app h t :
  contains sep t = false ->
  head ((h +:+ "/") +:+ t) = h +:+ "/" /\ basename ((h +:+ "/") +:+ t) = t.
Proof.
  intros Ht. unfold head, basename.
  rewrite app_assoc. change ("/" +:+ t) with (String sep t).
  by rewrite (rsplit_app _ _ _ Ht).
Qed.

Lemma head_free t :
  contains sep t = false -> head t = "" /\ basename t = t.
Proof. intros Ht. unfold head, basename. by rewrite (rsplit_free _ _ Ht). Qed.

Lemma basename_idem p : basename (basename p) = basename p.
Proof. apply head_free, basename_free. Qed.

Lemma rstrip_no_trailing c s : endswith (rstrip c s) (String c "") = false.
Proof.
  induction s as [|a s IH]; [done|].
  cbn [rstrip]. destruct (rstrip c s) as [|b r].
  - destruct (Ascii.eqb_spec a c) as [->|Hne]; [done|].
    cbn [endswith]. rewrite orb_false_r.
    apply String.eqb_neq. congruence.
  - cbn [endswith] in *. rewrite IH, orb_false_r.
    apply String.eqb_neq. congruence.
Qed.

Lemma dirname_tidy p : tidy (dirname p).
Proof.
  unfold dirname, tidy.
  destruct (String.eqb_spec (head p) "") as [->|Hne]; [by left|].
  destruct (all_char sep (head p)) eqn:E; [by right; left|].
  right; right. apply rstrip_no_trailing.
Qed.

Lemma join_free a b :
  contains sep b = false ->
  join a b =
    if String.eqb a "" || endswith a "/" then a +:+ b else a +:+ "/" +:+ b.
Proof. intros Hb. unfold join. by rewrite (startswith_free _ Hb). Qed.

(** Joining a slash-free name onto a directory name and taking the path
    apart again gives back both. *)
Lemma dirname_join a b :
  tidy a -> contains sep b = false ->
  dirname (join a b) = a /\ basename (join a b) = b.
Proof.
  intros Ha Hb. rewrite (join_free _ _ Hb). unfold dirname.
  destruct (String.eqb_spec a "") as [->|Hne].
  - cbn [orb]. rewrite app_nil_l.
    destruct (head_free _ Hb) as [-> ->]. done.
  - cbn [orb]. destruct (endswith a "/") eqn:E.
    + destruct Ha as [->|[Ha|Ha]]; [done| |congruence].
      apply endswith_iff in E as [h ->].
      destruct (head_app h b Hb) as [-> ->]. split; [|done].
      rewrite Ha. by destruct (String.eqb_spec (h +:+ "/") "").
    + rewrite <- app_assoc. destruct (head_app a b Hb) as [-> ->].
      split; [|done].
      assert (Hall : all_char sep (a +:+ "/") = false).
      { rewrite all_char_app. apply andb_false_iff. left.
        destruct (all_char sep a) eqn:Ea; [|done].
        pose proof (all_char_endswith _ _ Ea Hne) as E'.
        unfold sep in E'. congruence. }
      rewrite Hall.
      destruct (String.eqb_spec (a +:+ "/") "") as [E0|_].
      { by apply app_eq_nil in E0 as [_ ?]. }
      cbn [negb andb]. change "/" with (String sep "").
      rewrite rstrip_app_char. by apply rstrip_id.
Qed.

(** *** [splitext] *)

Lemma lstrip_dot_free c s :
  contains c s = false -> lstrip c (String c s) = s.
Proof.
  intros Hs. cbn [lstrip]. rewrite Ascii.eqb_refl.
  destruct s as [|a s]; [done|].
  cbn [contains lstrip] in *. apply orb_false_iff in Hs as [-> _]. done.
Qed.

(** The extension of a bare file name is empty or one dot followed by
    dot-free text; stem and extension make up the name. *)
Lemma splitext_name b :
  contains sep b = false ->
  let (stem, ext) := splitext b in
  b = stem +:+ ext /\
  contains sep stem = false /\
  contains sep (lstrip extsep ext) = false /\
  (ext = "" \/
   ext = String extsep (lstrip extsep ext) /\
   contains extsep (lstrip extsep ext) = false).
Proof.
  intros Hb. unfold splitext.
  destruct (head_free _ Hb) as [Hh Hbn]. rewrite Hh, Hbn.
  pose proof (rsplit_spec extsep b) as H.
  destruct (rsplit extsep b) as [[pre post]|].
  - destruct H as [-> Hpost].
    rewrite contains_app in Hb. apply orb_false_iff in Hb as [Hpre Hb].
    cbn [contains] in Hb. apply orb_false_iff in Hb as [_ Hb].
    destruct (all_char extsep pre).
    + rewrite app_nil_r. repeat split; try done.
      * by rewrite contains_app, Hpre; cbn [contains]; rewrite Hb.
      * by left.
    + rewrite app_nil_l, (lstrip_dot_free _ _ Hpost).
      repeat split; try done. by right.
  - rewrite app_nil_r. repeat split; try done. by left.
Qed.

Lemma splitext_ext p : (splitext p).2 = (splitext (basename p)).2.
Proof.
  unfold splitext. rewrite basename_idem.
  destruct (rsplit extsep (basename p)) as [[pre post]|]; [|done].
  by destruct (all_char extsep pre).
Qed.

End OsPathFacts.

(** ** Fragment names *)

Module FormatFacts.
Import PyStr PyStrFacts.

Lemma digits_free (d : Decimal.uint) :
  contains "/" (NilEmpty.string_of_uint d) = false.
Proof. induction d; simpl; auto. Qed.

Lemma digits_nonempty (d : Decimal.uint) :
  d <> Decimal.Nil -> NilEmpty.string_of_uint d <> "".
Proof. by destruct d. Qed.

Lemma str_free n : contains "/" (str n) = false.
Proof.
  unfold str. destruct (Z.to_int n) as [d|d]; simpl.
  - destruct d; try apply digits_free. done.
  - destruct d; try apply digits_free. done.
Qed.

(** A decimal text shorter than two characters stands for one digit. *)
Lemma short_digits (d : Decimal.int) :
  (String.length (NilZero.string_of_int d) < 2)%nat ->
  exists u, d = Decimal.Pos u /\ 0 <= Z.of_uint u < 10 /\
    NilEmpty.uint_of_string (NilZero.string_of_int d) = Some (Decimal.unorm u) /\
    String.length (NilZero.string_of_int d) = 1%nat.
Proof.
  destruct d as [u|u]; simpl; intros H.
  - exists u. split; [done|].
    destruct u as [|u|u|u|u|u|u|u|u|u|u]; simpl in H |- *;
      try (destruct u; simpl in H; try lia; repeat split; done).
    repeat split; done.
  - destruct u as [|u|u|u|u|u|u|u|u|u|u]; simpl in H; try lia;
      destruct u; simpl in H; lia.
Qed.

Lemma parse_int_str n : parse_int (str n) = Some n.
Proof.
  unfold parse_int, str. rewrite NilZero.isi.
  - simpl. by rewrite DecimalZ.of_to.
  - destruct n; simpl; try done. intros [= E].
    by apply DecimalPos.Unsigned.to_uint_nonnil in E.
  - destruct n; simpl; try done. intros [= E].
    by apply DecimalPos.Unsigned.to_uint_nonnil in E.
Qed.

(** The name of a fragment reads back as its index: nothing is cut off. *)
Lemma parse_int_format_02 n : parse_int (format_02 n) = Some n.
Proof.
  unfold format_02.
  destruct (Nat.ltb_spec (String.length (str n)) 2) as [H|H];
    [|apply parse_int_str].
  unfold str in *. destruct (short_digits _ H) as (u & Hu & Hr & Hp & Hl).
  unfold parse_int. rewrite app_cons, app_nil_l.
  cbn [NilZero.int_of_string]. change (Ascii.eqb "0" "-") with false.
  cbv iota. unfold NilZero.uint_of_string. cbn [NilEmpty.uint_of_string].
  rewrite Hp. simpl. f_equal.
  pose proof (DecimalZ.of_to n) as E. rewrite Hu in E. simpl in E.
  rewrite <- E. unfold Z.of_uint. f_equal.
  change (Pos.of_uint (Decimal.D0 (Decimal.unorm u)))
    with (Pos.of_uint (Decimal.unorm u)).
  apply DecimalPos.Unsigned.of_uint_norm.
Qed.

Lemma format_02_inj n m : format_02 n = format_02 m -> n = m.
Proof.
  intros E. pose proof (parse_int_format_02 n) as Hn.
  rewrite E, parse_int_format_02 in Hn. congruence.
Qed.

Lemma format_02_length n : (2 <= String.length (format_02 n))%nat.
Proof.
  unfold format_02.
  destruct (Nat.ltb_spec (String.length (str n)) 2) as [H|H]; [|done].
  unfold str in *. destruct (short_digits _ H) as (u & _ & _ & _ & Hl).
  rewrite length_app, Hl. simpl. lia.
Qed.

Lemma format_02_free n : contains "/" (format_02 n) = false.
Proof.
  unfold format_02. destruct (String.length (str n) <? 2)%nat.
  - rewrite contains_app, str_free. reflexivity.
  - apply str_free.
Qed.

Lemma format_02_nonempty n : format_02 n <> "".
Proof.
  pose proof (format_02_length n) as H. intros E. rewrite E in H.
  simpl in H. lia.
Qed.



End FormatFacts.

(** ** Layout of the output *)

Module LayoutFacts.
Import PyStr PyStrFacts OsPath OsPathFacts FormatFacts Layout.

Lemma split_dir_of_eq p : split_dir_of p = join (dirname p) (split_name p).
Proof. unfold split_dir_of, split_name, stem_of, ext_of. by rewrite splitext_ext. Qed.

Lemma split_name_free p : contains sep (split_name p) = false.
Proof.
  unfold split_name, stem_of, ext_of.
  pose proof (splitext_name (basename p) (basename_free p)) as H.
  destruct (splitext (basename p)) as [stem ext].
  destruct H as (_ & Hs & He & _). cbn [fst snd].
  rewrite !contains_app, Hs. unfold extsep in He. rewrite He. reflexivity.
Qed.

Lemma split_name_length p :
  (String.length (basename p) + 6 <= String.length (split_name p))%nat.
Proof.
  unfold split_name, stem_of, ext_of.
  pose proof (splitext_name (basename p) (basename_free p)) as H.
  destruct (splitext (basename p)) as [stem ext].
  destruct H as (Hb & _ & _ & He). cbn [fst snd].
  rewrite Hb at 1. rewrite !length_app. unfold extsep in He.
  destruct He as [->|[He _]].
  - simpl. lia.
  - rewrite He at 1. simpl. lia.
Qed.

Lemma split_name_nonempty p : split_name p <> "".
Proof.
  pose proof (split_name_length p) as H. intros E. rewrite E in H.
  simpl in H. lia.
Qed.

(** The split directory lies in the directory of the input and carries
    the name [<stem>.split.<ext>]. *)
Lemma split_dir_parts p :
  dirname (split_dir_of p) = dirname p /\
  basename (split_dir_of p) = split_name p.
Proof.
  rewrite split_dir_of_eq.
  apply dirname_join; [apply dirname_tidy|apply split_name_free].
Qed.

Lemma split_dir_tidy p : tidy (split_dir_of p).
Proof.
  right; right. rewrite split_dir_of_eq, (join_free _ _ (split_name_free p)).
  destruct (String.eqb (dirname p) "" || endswith (dirname p) "/").
  - apply endswith_app_free; [apply split_name_free|apply split_name_nonempty].
  - rewrite <- app_assoc.
    apply endswith_app_free; [apply split_name_free|apply split_name_nonempty].
Qed.

(** Fragment [i] lies in the split directory under its formatted index. *)
Lemma split_path_parts p i :
  dirname (split_path_of (split_dir_of p) i) = split_dir_of p /\
  basename (split_path_of (split_dir_of p) i) = format_02 i.
Proof.
  apply dirname_join; [apply split_dir_tidy|apply format_02_free].
Qed.

Lemma length_join a b :
  contains sep b = false ->
  (String.length a + String.length b <= String.length (join a b))%nat.
Proof.
  intros Hb. rewrite (join_free _ _ Hb).
  destruct (String.eqb a "" || endswith a "/"); rewrite !length_app; lia.
Qed.

(** *** No two of the paths involved coincide *)

Lemma split_dir_fresh p : split_dir_of p <> p.
Proof.
  intros E. destruct (split_dir_parts p) as [_ Hb]. rewrite E in Hb.
  pose proof (split_name_length p) as H. rewrite <- Hb in H. lia.
Qed.

Lemma split_path_not_dir p i : split_path_of (split_dir_of p) i <> split_dir_of p.
Proof.
  intros E. unfold split_path_of in E.
  pose proof (length_join (split_dir_of p) _ (format_02_free i)) as H.
  pose proof (format_02_length i). rewrite E in H. lia.
Qed.

Lemma split_path_fresh p i : split_path_of (split_dir_of p) i <> p.
Proof.
  intros E. destruct (split_path_parts p i) as [Hd _]. rewrite E in Hd.
  pose proof (length_join (dirname p) _ (split_name_free p)) as H.
  rewrite <- split_dir_of_eq, <- Hd in H.
  pose proof (split_name_length p). lia.
Qed.

Lemma split_path_inj p i j :
  split_path_of (split_dir_of p) i = split_path_of (split_dir_of p) j -> i = j.
Proof.
  intros E. apply format_02_inj.
  destruct (split_path_parts p i) as [_ <-].
  destruct (split_path_parts p j) as [_ <-]. by rewrite E.
Qed.

End LayoutFacts.

(** ** The copy loop of one fragment *)

Module CopyFacts.
Import PyNum PyNumFacts Runtime Chunks.

Lemma set_fs_id w : set_fs (fs w) w = w.
Proof. by destruct w. Qed.

Lemma contents_file (m : gmap string node) path data :
  m !! path = Some (File data) -> contents m path = data.
Proof. intros H. unfold contents. by rewrite H. Qed.

Lemma ceil_div_nonpos x b : 0 < b -> x <= 0 -> ceil_div x b <= 0.
Proof.
  intros Hb Hx. unfold ceil_div.
  assert ((x + b - 1) / b < 1); [|lia].
  apply Z.div_lt_upper_bound; lia.
Qed.

Lemma ceil_div_step x b : 0 < b -> ceil_div x b = 1 + ceil_div (x - b) b.
Proof.
  intros Hb. unfold ceil_div.
  replace (x + b - 1) with ((x - b + b - 1) + 1 * b) by lia.
  rewrite Z.div_add by lia. lia.
Qed.

Lemma ceil_div_pos x b : 0 < b -> 0 < x -> 0 < ceil_div x b.
Proof.
  intros Hb Hx. unfold ceil_div.
  apply Z.div_str_pos. lia.
Qed.

Lemma ceil_div_bounds x b :
  0 < b -> x <= b * ceil_div x b < x + b.
Proof.
  intros Hb. unfold ceil_div.
  pose proof (Z.div_mod (x + b - 1) b ltac:(lia)).
  pose proof (Z.mod_pos_bound (x + b - 1) b Hb). lia.
Qed.

Lemma fragment_span_done max buf bw :
  0 < buf -> max <= bw -> fragment_span max buf bw = 0.
Proof.
  intros Hb H. unfold fragment_span.
  pose proof (ceil_div_nonpos (max - bw) buf Hb ltac:(lia)). lia.
Qed.

Lemma fragment_span_step max buf bw :
  0 < buf -> bw < max ->
  fragment_span max buf bw = buf + fragment_span max buf (bw + buf).
Proof.
  intros Hb H. unfold fragment_span.
  rewrite (ceil_div_step (max - bw) buf Hb).
  replace (max - (bw + buf)) with (max - bw - buf) by lia.
  pose proof (ceil_div_pos (max - bw) buf Hb ltac:(lia)) as Hp.
  rewrite (ceil_div_step (max - bw) buf Hb) in Hp. lia.
Qed.

Lemma fragment_span_nonneg max buf bw :
  0 < buf -> 0 <= fragment_span max buf bw.
Proof. intros Hb. unfold fragment_span. lia. Qed.

(** A fragment takes at least [max_split_size] bytes from a long enough
    input, and less than one read more. *)
Lemma fragment_span_bounds max buf :
  0 < buf -> 0 < max ->
  max <= fragment_span max buf 0 < max + buf.
Proof.
  intros Hb Hm. unfold fragment_span. rewrite Z.sub_0_r.
  pose proof (ceil_div_pos max buf Hb Hm).
  pose proof (ceil_div_bounds max buf Hb). lia.
Qed.

(** With a buffer size that divides [max_split_size] a fragment stops
    exactly at [max_split_size]. *)
Lemma fragment_span_divides max buf :
  0 < buf -> 0 < max -> (buf | max) -> fragment_span max buf 0 = max.
Proof.
  intros Hb Hm [q ->]. unfold fragment_span, ceil_div. rewrite Z.sub_0_r.
  replace (q * buf + buf - 1) with ((buf - 1) + q * buf) by lia.
  rewrite Z.div_add by lia. rewrite Z.div_small by lia. nia.
Qed.

Lemma taken_none max buf bw avail :
  0 < buf -> avail = 0%nat \/ max <= bw -> taken max buf bw avail = 0%nat.
Proof.
  intros Hb H. unfold taken.
  pose proof (fragment_span_nonneg max buf bw Hb).
  destruct H as [->|H]; [lia|].
  rewrite (fragment_span_done _ _ _ Hb H). lia.
Qed.

Lemma taken_read max buf bw avail :
  0 < buf -> bw < max ->
  let l := Nat.min (Z.to_nat buf) avail in
  taken max buf bw avail =
    (l + taken max buf (bw + Z.of_nat l) (avail - l))%nat.
Proof.
  intros Hb H l. unfold taken.
  rewrite (fragment_span_step _ _ _ Hb H).
  pose proof (fragment_span_nonneg max buf (bw + buf) Hb).
  pose proof (fragment_span_nonneg max buf (bw + Z.of_nat l) Hb).
  destruct (Nat.le_gt_cases (Z.to_nat buf) avail) as [Hl|Hl].
  - assert (El : Z.of_nat l = buf) by lia. rewrite El. lia.
  - assert (l = avail) as -> by lia. lia.
Qed.

Lemma taken_le max buf bw avail : (taken max buf bw avail <= avail)%nat.
Proof. unfold taken. lia. Qed.

Section CopyLoop.

Variables (max_split_size buf_size : Z) (infile outfile : string).
Variable data : list byte.
Hypothesis buf_pos : 0 < buf_size.
Hypothesis no_alias : infile <> outfile.

(** The loop of one fragment appends to [outfile] the next
    [taken ... (length data - pos)] bytes of the input and advances the
    position and the byte count by as much; the budget of one step per
    remaining byte, plus one, is never used up. *)
Lemma copy_loop_run fuel :
  forall w pos bytes_written total out,
  fs w !! infile = Some (File data) ->
  fs w !! outfile = Some (File out) ->
  (length data - pos < fuel)%nat ->
  let c := taken max_split_size buf_size bytes_written (length data - pos) in
  copy_loop max_split_size fuel infile pos outfile buf_size bytes_written
    total w =
  (Ok ((pos + c)%nat, total + Z.of_nat c),
   set_fs (<[outfile := File (out ++ take c (drop pos data))]> (fs w)) w).
Proof.
  induction fuel as [|fuel IH]; intros w pos bw total out Hin Hout Hfuel c;
    [lia|].
  assert (Hstop : c = 0%nat ->
    (Ok (pos, total), w) =
    (Ok ((pos + c)%nat, total + Z.of_nat c),
     set_fs (<[outfile := File (out ++ take c (drop pos data))]> (fs w)) w)).
  { intros ->. rewrite Nat.add_0_r, Z.add_0_r, take_0, app_nil_r.
    by rewrite (insert_id _ _ _ Hout), set_fs_id. }
  cbn [copy_loop]. destruct (Z.ltb_spec bw max_split_size) as [Hbw|Hbw].
  2:{ apply Hstop, taken_none; auto. }
  unfold bind at 1. unfold file_read at 1. cbv beta zeta.
  rewrite (contents_file _ _ _ Hin).
  destruct (Z.ltb_spec buf_size 0) as [?|_]; [lia|].
  pose proof (taken_read max_split_size buf_size bw (length data - pos)
                buf_pos Hbw) as Hc.
  cbv zeta in Hc. fold c in Hc.
  assert (Hlen : length (take (Z.to_nat buf_size) (drop pos data)) =
                 Nat.min (Z.to_nat buf_size) (length data - pos))
    by (by rewrite length_take, length_drop).
  destruct (take (Z.to_nat buf_size) (drop pos data)) as [|b chunk] eqn:E.
  { apply Hstop, taken_none; auto. left. simpl in Hlen. lia. }
  set (l := Nat.min (Z.to_nat buf_size) (length data - pos)) in *.
  unfold bind at 1. unfold file_write at 1. cbv beta zeta.
  rewrite (contents_file _ _ _ Hout). unfold len. rewrite Hlen.
  rewrite IH with (out := out ++ b :: chunk).
  - replace (length data - (pos + l))%nat with (length data - pos - l)%nat
      by lia.
    cbn [fs set_fs]. rewrite insert_insert_eq. f_equal.
    + f_equal. f_equal; lia.
    + unfold set_fs. cbn. f_equal. f_equal. f_equal.
      rewrite <- app_assoc. f_equal.
      rewrite Hc. rewrite <- take_take_drop. rewrite drop_drop. f_equal.
      rewrite <- E. unfold l.
      destruct (Nat.le_gt_cases (Z.to_nat buf_size) (length data - pos)).
      * by rewrite Nat.min_l.
      * rewrite Nat.min_r by lia.
        rewrite !take_ge; [done|rewrite length_drop; lia..].
  - cbn [fs set_fs]. by rewrite lookup_insert_ne.
  - cbn [fs set_fs]. by rewrite lookup_insert_eq.
  - simpl in Hlen. lia.
Qed.

End CopyLoop.

End CopyFacts.

(** ** The loop over the fragments *)

Module SplitFacts.
Import PyNum PyNumFacts Runtime Chunks CopyFacts.

Section SplitLoop.

Variables (max_split_size buf_size : Z) (data : list byte).
Variables (filepath filename split_dir : string).
Variables (filesize num_splits start_time : Z).
Hypothesis buf_pos : 0 < buf_size.
Hypothesis filesize_pos : 0 < filesize.
Hypothesis no_alias : forall i, split_path_of split_dir i <> filepath.

(** [n] turns of the loop write [n] fragments and print [n] lines, and
    read the clock once per line; the input stays as it is. *)
Lemma split_loop_run n :
  forall split pos total w,
  fs w !! filepath = Some (File data) ->
  (forall i, split <= i < split + Z.of_nat n ->
     fs w !! split_path_of split_dir i <> Some Dir) ->
  0 <= total -> total + Z.of_nat (length data - pos) <= filesize ->
  split_loop max_split_size n split filepath filename split_dir filesize
    buf_size num_splits start_time pos total w =
  (Ok tt,
   World
     (fragments_written max_split_size buf_size data split_dir n split pos
        (fs w))
     (stdout w ++
      reports_printed max_split_size buf_size data filename filesize
        num_splits start_time (clock w) n split pos total (clock_reads w))
     (clock w) (clock_reads w + n)).
Proof.
  induction n as [|n IH]; intros split pos total w Hin Hdir Htot Hsz.
  { cbn. rewrite app_nil_r, Nat.add_0_r. by destruct w. }
  cbn [split_loop fragments_written reports_printed].
  set (path := split_path_of split_dir split).
  set (c := taken max_split_size buf_size 0 (length data - pos)).
  assert (Hc : (c <= length data - pos)%nat) by apply taken_le.
  unfold bind at 1. unfold open_wb at 1.
  assert (Hw : (match fs w !! path with
                | Some Dir => (Raise IsADirectoryError, w)
                | _ => (Ok tt, set_fs (<[path := File []]> (fs w)) w)
                end) = (Ok tt, set_fs (<[path := File []]> (fs w)) w)).
  { specialize (Hdir split ltac:(lia)). fold path in Hdir.
    destruct (fs w !! path) as [[|]|]; done. }
  rewrite Hw. clear Hw.
  set (w1 := set_fs (<[path := File []]> (fs w)) w).
  assert (Hin1 : fs w1 !! filepath = Some (File data)).
  { cbn. rewrite lookup_insert_ne; [done|apply no_alias]. }
  unfold bind at 1. unfold bytes_left at 1.
  rewrite (contents_file _ _ _ Hin1).
  unfold bind at 1.
  rewrite (copy_loop_run max_split_size buf_size filepath path data buf_pos
             (not_eq_sym (no_alias split)) _ w1 pos 0 total [] Hin1);
    [|cbn; by rewrite lookup_insert_eq|lia].
  fold c. rewrite app_nil_l.
  unfold format_elapsed_time. unfold bind at 1. unfold bind at 1.
  unfold time_time at 1. unfold ret at 1.
  destruct (truediv_le_one (total + Z.of_nat c) filesize) as [x Hx];
    [lia|done|].
  unfold bind at 1. unfold lift at 1. rewrite Hx.
  unfold bind at 1. unfold print at 1.
  cbn [fs stdout clock clock_reads set_fs w1].
  rewrite insert_insert_eq.
  rewrite IH.
  - cbn [fs stdout clock clock_reads]. unfold progress_of. rewrite Hx.
    f_equal. f_equal; [by rewrite <- app_assoc|lia].
  - cbn [fs]. rewrite lookup_insert_ne; [done|apply no_alias].
  - intros i Hi. cbn [fs].
    destruct (decide (path = split_path_of split_dir i)) as [<-|Hne].
    + by rewrite lookup_insert_eq.
    + rewrite lookup_insert_ne by done. apply Hdir. lia.
  - lia.
  - replace (length data - (pos + c))%nat with (length data - pos - c)%nat
      by lia. lia.
Qed.

End SplitLoop.

Import LayoutFacts.

(** What a call does when nothing in its way fails: the split directory
    is there, the fragments are written from the input, one line is
    printed per fragment, and the path of the directory is returned. *)
Lemma split_file_at_run max_split_size filepath filesize buf_size w data x :
  0 < buf_size -> 0 <= filesize ->
  truediv filesize max_split_size = Ok x ->
  fs w !! filepath = Some (File data) ->
  Z.of_nat (length data) <= filesize ->
  (forall d, fs w !! split_dir_of filepath <> Some (File d)) ->
  (forall i, 0 <= i < math_ceil x ->
     fs w !! split_path_of (split_dir_of filepath) i <> Some Dir) ->
  split_file_at max_split_size filepath filesize buf_size w =
  (Ok (split_dir_of filepath),
   World
     (fragments_written max_split_size buf_size data (split_dir_of filepath)
        (Z.to_nat (math_ceil x)) 0 0
        (<[split_dir_of filepath := Dir]> (fs w)))
     (stdout w ++
      reports_printed max_split_size buf_size data (basename filepath)
        filesize (math_ceil x) (clock w (clock_reads w)) (clock w)
        (Z.to_nat (math_ceil x)) 0 0 0 (S (clock_reads w)))
     (clock w) (S (clock_reads w) + Z.to_nat (math_ceil x))).
Proof.
  intros Hbuf Hsz Hx Hin Hlen Hdir Hfrag.
  unfold split_file_at, num_splits_at. unfold bind at 1. unfold lift at 1.
  rewrite Hx.
  unfold bind at 1. unfold os_makedirs at 1.
  set (D := split_dir_of filepath) in *.
  set (w1 := set_fs (<[D := Dir]> (fs w)) w).
  assert (Hmk : (match fs w !! D with
                 | Some (File _) => (Raise FileExistsError, w)
                 | Some Dir => (Ok tt, w)
                 | None => (Ok tt, w1)
                 end) = (Ok tt, w1)).
  { unfold w1. destruct (fs w !! D) as [[d|]|] eqn:E; [by destruct (Hdir d)| |done].
    by rewrite (insert_id _ _ _ E), set_fs_id. }
  rewrite Hmk. clear Hmk.
  assert (Hin1 : fs w1 !! filepath = Some (File data)).
  { cbn. rewrite lookup_insert_ne; [done|apply split_dir_fresh]. }
  unfold bind at 1. unfold time_time at 1.
  unfold bind at 1. unfold open_rb at 1. cbn [fs]. cbn [fs] in Hin1.
  rewrite Hin1.
  unfold bind at 1.
  destruct (Z.eq_dec filesize 0) as [->|Hne].
  { assert (x = Float 0 0) as ->.
    { unfold truediv in Hx. destruct (max_split_size =? 0); [done|].
      cbn in Hx. congruence. }
    cbn. by rewrite app_nil_r, Nat.add_0_r. }
  rewrite (split_loop_run max_split_size buf_size data filepath
             (basename filepath) D filesize (math_ceil x)
             (clock w (clock_reads w)) Hbuf ltac:(lia)
             (split_path_fresh filepath)); cbn [fs stdout clock clock_reads].
  - done.
  - done.
  - intros i Hi. unfold w1. cbn [fs set_fs].
    rewrite lookup_insert_ne by (apply not_eq_sym, split_path_not_dir).
    apply Hfrag. lia.
  - lia.
  - rewrite Nat.sub_0_r. lia.
Qed.

End SplitFacts.

(** ** The fragments and lines of a run in closed form *)

Module RunFacts.
Import PyNum PyNumFacts Runtime Chunks CopyFacts.

Lemma taken_stride max buf avail :
  0 < buf -> taken max buf 0 avail = Nat.min avail (stride max buf).
Proof.
  intros Hb. unfold taken, stride.
  pose proof (fragment_span_nonneg max buf 0 Hb). lia.
Qed.

Lemma take_min {A} (l : list A) T : take (Nat.min (length l) T) l = take T l.
Proof.
  destruct (Nat.le_gt_cases T (length l)).
  - by rewrite Nat.min_r.
  - rewrite Nat.min_l by lia. by rewrite !take_ge by lia.
Qed.

Lemma drop_min {A} (l : list A) pos T :
  drop (pos + Nat.min (length l - pos) T) l = drop (pos + T) l.
Proof.
  destruct (Nat.le_gt_cases T (length l - pos)).
  - by rewrite Nat.min_r.
  - rewrite Nat.min_l by lia. by rewrite !drop_ge by lia.
Qed.

Lemma concat_chunks T data n :
  concat (map (chunk T data) (seq 0 n)) = take (n * T) data.
Proof.
  induction n as [|n IH]; [done|].
  rewrite seq_S, map_app, concat_app, IH. cbn [map concat].
  rewrite app_nil_r. unfold chunk. rewrite take_take_drop. f_equal. lia.
Qed.

Section Closed.

Variables (max_split_size buf_size : Z) (data : list byte).
Variables (split_dir filename : string) (filesize num_splits start_time : Z).
Variable clock : nat -> Z.
Hypothesis buf_pos : 0 < buf_size.
Hypothesis path_inj :
  forall i j, split_path_of split_dir i = split_path_of split_dir j -> i = j.

Local Abbreviation T := (stride max_split_size buf_size).
Local Abbreviation written :=
  (fragments_written max_split_size buf_size data split_dir).
Local Abbreviation printed :=
  (reports_printed max_split_size buf_size data filename filesize num_splits
     start_time clock).

(** Paths other than those of the [n] fragments keep what they hold. *)
Lemma fragments_written_frame n :
  forall split pos m key,
  (forall j, (j < n)%nat -> key <> split_path_of split_dir (split + Z.of_nat j)) ->
  written n split pos m !! key = m !! key.
Proof.
  induction n as [|n IH]; intros split pos m key Hkey; [done|].
  cbn [fragments_written]. rewrite IH.
  - rewrite lookup_insert_ne; [done|].
    specialize (Hkey 0%nat ltac:(lia)). rewrite Z.add_0_r in Hkey. done.
  - intros j Hj. specialize (Hkey (S j) ltac:(lia)).
    by replace (split + 1 + Z.of_nat j) with (split + Z.of_nat (S j)) by lia.
Qed.

(** Fragment [j] holds the [j]-th stretch of [T] bytes. *)
Lemma fragments_written_lookup n :
  forall split pos m j, (j < n)%nat ->
  written n split pos m !! split_path_of split_dir (split + Z.of_nat j) =
    Some (File (chunk T (drop pos data) j)).
Proof.
  induction n as [|n IH]; intros split pos m j Hj; [lia|].
  cbn [fragments_written]. rewrite (taken_stride _ _ _ buf_pos).
  destruct j as [|j].
  - rewrite fragments_written_frame.
    + rewrite Z.add_0_r, lookup_insert_eq. unfold chunk.
      rewrite Nat.mul_0_l, drop_0. f_equal. f_equal.
      rewrite <- length_drop. apply take_min.
    + intros j _ E. apply path_inj in E. lia.
  - replace (split + Z.of_nat (S j)) with (split + 1 + Z.of_nat j) by lia.
    rewrite IH by lia. unfold chunk. rewrite drop_min.
    do 3 f_equal. rewrite !drop_drop. f_equal. lia.
Qed.

(** Line [j] reports fragment [j + 1] and the bytes written up to it. *)
Lemma reports_printed_lookup n :
  forall split pos total reads j, (j < n)%nat ->
  let t := total + Z.of_nat (Nat.min (length data - pos) (S j * T)) in
  printed n split pos total reads !! j =
    Some (Report (strftime_HMS ((clock (reads + j) - start_time) / 1000000))
            (split + Z.of_nat j + 1) num_splits (progress_of t filesize) t
            filesize filename (if t <? filesize then CR else LF)).
Proof.
  induction n as [|n IH]; intros split pos total reads j Hj; [lia|].
  cbn [reports_printed]. rewrite (taken_stride _ _ _ buf_pos).
  destruct j as [|j]; cbn [lookup list_lookup].
  - rewrite Z.add_0_r, Nat.add_0_r, Nat.mul_1_l. done.
  - rewrite IH by lia. cbv zeta.
    set (c := Nat.min (length data - pos) T).
    assert (E : total + Z.of_nat c +
                Z.of_nat (Nat.min (length data - (pos + c)) (S j * T)) =
                total + Z.of_nat (Nat.min (length data - pos) (S (S j) * T))).
    { unfold c. cbn [Nat.mul].
      generalize (j * T)%nat. intros k. generalize T. intros t.
      generalize (length data). intros a.
      destruct (Nat.le_gt_cases (a - pos) t).
      - rewrite !Nat.min_l by lia. lia.
      - rewrite (Nat.min_r (a - pos) t) by lia. lia. }
    rewrite E.
    replace (S reads + j)%nat with (reads + S j)%nat by lia.
    by replace (split + 1 + Z.of_nat j + 1) with (split + Z.of_nat (S j) + 1)
      by lia.
Qed.

Lemma length_reports_printed n :
  forall split pos total reads,
  length (printed n split pos total reads) = n.
Proof.
  induction n as [|n IH]; intros; [done|]. cbn [reports_printed length].
  by rewrite IH.
Qed.

(** Read back in order, the [n] fragments are the first [n * T] bytes of
    the input. *)
Lemma reassemble_written n m :
  reassemble (written n 0 0 m) split_dir n = take (n * T) data.
Proof.
  unfold reassemble. rewrite <- concat_chunks. f_equal.
  apply map_ext_in. intros i Hi%in_seq.
  unfold contents.
  rewrite <- (Z.add_0_l (Z.of_nat i)).
  rewrite fragments_written_lookup by lia. by rewrite drop_0.
Qed.

End Closed.

End RunFacts.

(** ** What a call leaves alone *)

Module FrameFacts.
Import Runtime LayoutFacts.

Lemma bind_inv {A B} (c : M A) (k : A -> M B) w r w' :
  bind c k w = (r, w') ->
  (exists a w1, c w = (Ok a, w1) /\ k a w1 = (r, w')) \/
  (exists e, c w = (Raise e, w') /\ r = Raise e) \/
  (c w = (OutOfFuel, w') /\ r = OutOfFuel).
Proof.
  unfold bind. destruct (c w) as [[a|e|] w1]; intros H.
  - left. eauto.
  - right; left. injection H as <- <-. eauto.
  - right; right. by injection H as <- <-.
Qed.

Tactic Notation "bind_cases" hyp(H) "as" ident(a) ident(w1) ident(Hc) :=
  apply bind_inv in H as [(a & w1 & Hc & H)|[(? & Hc & ?)|[Hc ?]]].






(** *** The step budget is never used up *)




End FrameFacts.

(** ** The split count beyond [2^22] fragments *)

Module CountClaims.
Import PyNum PyNumFacts Inputs.

(** C2: the split count is meant to be the exact ceiling of
    [filesize / MAX_SPLIT_SIZE] for integers of any size.  The float
    division of line 59 rounds the quotient of [2^22 * MAX_SPLIT_SIZE + 1]
    down to [2^22], so the count is one short of the ceiling [2^22 + 1]. *)
Theorem num_splits_rounds_down :
  num_splits big_filesize = Ok (2 ^ 22) /\
  ceil_div big_filesize MAX_SPLIT_SIZE = 2 ^ 22 + 1.
Proof. split; vm_compute; reflexivity. Qed.

(** The division of the standard library agrees with [truediv] on the
    sizes of interest, the one that loses the remainder among them. *)
Example truediv_agrees_with_ieee_div :
  (ieee_div 18014123631575041 4294901760,
   truediv big_filesize MAX_SPLIT_SIZE) =
    (SpecFloat.S754_finite false 4503599627370496 (-30),
     Ok (Float 4503599627370496 (-30))) /\
  (ieee_div 1 4294901760, truediv 1 MAX_SPLIT_SIZE) =
    (SpecFloat.S754_finite false 4503668347895824 (-84),
     Ok (Float 4503668347895824 (-84))) /\
  (ieee_div 12884705780 4294901760,
   truediv (3 * MAX_SPLIT_SIZE + 500) MAX_SPLIT_SIZE) =
    (SpecFloat.S754_finite false 6755399703203744 (-51),
     Ok (Float 6755399703203744 (-51))).
Proof. repeat split; vm_compute; reflexivity. Qed.

(** The count on the sizes the specification lists. *)
Example num_splits_listed :
  num_splits 0 = Ok 0 /\ num_splits 1 = Ok 1 /\
  num_splits MAX_SPLIT_SIZE = Ok 1 /\
  num_splits (MAX_SPLIT_SIZE + 1) = Ok 2 /\
  num_splits (3 * MAX_SPLIT_SIZE + 500) = Ok 4 /\
  num_splits (2 ^ 22 * MAX_SPLIT_SIZE) = Ok (2 ^ 22).
Proof. repeat split; vm_compute; reflexivity. Qed.

End CountClaims.

(** ** Outcome of a call that meets no obstacle *)

Module OutcomeFacts.
Import PyNum PyNumFacts Runtime Chunks CopyFacts SplitFacts RunFacts.
Import LayoutFacts.

Section Outcome.

Variables (max_split_size buf_size filesize : Z).
Variables (filepath : string) (data : list byte) (w : world) (x : float).
Hypothesis buf_pos : 0 < buf_size.
Hypothesis filesize_nonneg : 0 <= filesize.
Hypothesis quotient : truediv filesize max_split_size = Ok x.
Hypothesis input : fs w !! filepath = Some (File data).
Hypothesis input_size : Z.of_nat (length data) <= filesize.
Hypothesis dir_free : forall d, fs w !! split_dir_of filepath <> Some (File d).
Hypothesis names_free :
  forall i, 0 <= i < math_ceil x ->
  fs w !! split_path_of (split_dir_of filepath) i <> Some Dir.

Local Abbreviation D := (split_dir_of filepath).
Local Abbreviation n := (Z.to_nat (math_ceil x)).
Local Abbreviation T := (stride max_split_size buf_size).

Lemma split_file_at_outcome :
  exists w',
    split_file_at max_split_size filepath filesize buf_size w = (Ok D, w') /\
    fs w' !! D = Some Dir /\
    (forall j, (j < n)%nat ->
       fs w' !! split_path_of D (Z.of_nat j) = Some (File (chunk T data j))) /\
    (forall key, key <> D ->
       (forall j, (j < n)%nat -> key <> split_path_of D (Z.of_nat j)) ->
       fs w' !! key = fs w !! key) /\
    reassemble (fs w') D n = take (n * T) data /\
    length (stdout w') = (length (stdout w) + n)%nat /\
    (forall j, (j < n)%nat ->
       let t := Z.of_nat (Nat.min (length data) (S j * T)) in
       stdout w' !! (length (stdout w) + j)%nat =
         Some (Report
                 (strftime_HMS
                    ((clock w (S (clock_reads w) + j) -
                      clock w (clock_reads w)) / 1000000))
                 (Z.of_nat j + 1) (math_ceil x) (progress_of t filesize) t
                 filesize (basename filepath)
                 (if t <? filesize then CR else LF))).
Proof.
  eexists. split; [by apply (split_file_at_run _ _ _ _ _ data x)|].
  cbn [fs stdout].
  assert (Hfrag : forall j, (j < n)%nat ->
    fragments_written max_split_size buf_size data D n 0 0
      (<[D := Dir]> (fs w)) !! split_path_of D (Z.of_nat j) =
    Some (File (chunk T data j))).
  { intros j Hj. rewrite <- (Z.add_0_l (Z.of_nat j)).
    rewrite fragments_written_lookup;
      [by rewrite drop_0|done|apply split_path_inj|done]. }
  assert (Hframe : forall key,
    (forall j, (j < n)%nat -> key <> split_path_of D (Z.of_nat j)) ->
    fragments_written max_split_size buf_size data D n 0 0
      (<[D := Dir]> (fs w)) !! key = <[D := Dir]> (fs w) !! key).
  { intros key Hkey. apply fragments_written_frame. intros j Hj.
    rewrite Z.add_0_l. by apply Hkey. }
  repeat split.
  - rewrite Hframe; [apply lookup_insert_eq|].
    intros j _. apply not_eq_sym, split_path_not_dir.
  - done.
  - intros key HD Hkey. rewrite (Hframe _ Hkey). by rewrite lookup_insert_ne.
  - apply reassemble_written; [done|apply split_path_inj].
  - by rewrite length_app, length_reports_printed.
  - intros j Hj. rewrite lookup_app_r by lia.
    replace (length (stdout w) + j - length (stdout w))%nat with j by lia.
    rewrite reports_printed_lookup by done. cbv zeta.
    rewrite Nat.sub_0_r, !Z.add_0_l. done.
Qed.

End Outcome.

End OutcomeFacts.

(** ** Splitting a file of more than [2^22] fragments *)

Module BigFacts.
Import PyNum PyNumFacts Runtime Chunks CopyFacts RunFacts OutcomeFacts.
Import LayoutFacts Inputs.

Lemma big_quotient :
  truediv big_filesize MAX_SPLIT_SIZE = Ok (Float 4503599627370496 (-30)).
Proof. vm_compute. reflexivity. Qed.

Lemma stride_default : stride MAX_SPLIT_SIZE THIRTY_TWO_KB = Z.to_nat MAX_SPLIT_SIZE.
Proof.
  unfold stride. rewrite fragment_span_divides; [done|done|done|].
  exists 131070. reflexivity.
Qed.

(** The call writes [2^22] fragments and prints [2^22] lines; the last
    byte of the input reaches no fragment. *)
Lemma big_run w data :
  fs w !! "big.bin" = Some (File data) ->
  (forall key, key <> "big.bin" -> fs w !! key = None) ->
  Z.of_nat (length data) = big_filesize ->
  stdout w = [] ->
  exists w',
    split_file "big.bin" big_filesize THIRTY_TWO_KB w =
      (Ok "big.split.bin", w') /\
    (forall j : nat,
       fs w' !! split_path_of "big.split.bin" (2 ^ 22 + Z.of_nat j) = None) /\
    Z.of_nat (length (reassemble (fs w') "big.split.bin" (Z.to_nat (2 ^ 22))))
      = big_filesize - 1 /\
    length (stdout w') = Z.to_nat (2 ^ 22) /\
    exists r,
      last (stdout w') = Some r /\ rep_index r = 2 ^ 22 /\
      rep_num_splits r = 2 ^ 22 /\ rep_bytes r = big_filesize - 1 /\
      rep_filesize r = big_filesize.
Proof.
  intros Hin Hnone Hlen Hout.
  destruct (split_file_at_outcome MAX_SPLIT_SIZE THIRTY_TWO_KB big_filesize
              "big.bin" data w (Float 4503599627370496 (-30)))
    as (w' & Hrun & _ & _ & Hframe & Hre & Hlo & Hrep).
  - done.
  - done.
  - apply big_quotient.
  - done.
  - lia.
  - intros d. rewrite Hnone; [done|]. apply split_dir_fresh.
  - intros i _. rewrite Hnone; [done|]. apply split_path_fresh.
  - change (split_dir_of "big.bin") with "big.split.bin" in *.
    change (math_ceil (Float 4503599627370496 (-30))) with (2 ^ 22) in *.
    rewrite stride_default in *.
    remember (Z.to_nat (2 ^ 22)) as n eqn:En.
    remember (Z.to_nat MAX_SPLIT_SIZE) as T eqn:ET.
    assert (HnZ : Z.of_nat n = 2 ^ 22) by (rewrite En; by rewrite Z2Nat.id).
    assert (HTZ : Z.of_nat T = MAX_SPLIT_SIZE)
      by (rewrite ET; by rewrite Z2Nat.id).
    clear En ET.
    assert (HnT : Z.of_nat (n * T) = big_filesize - 1).
    { unfold big_filesize. rewrite Nat2Z.inj_mul, HnZ, HTZ. lia. }
    assert (Hl0 : length (stdout w) = 0%nat) by (by rewrite Hout).
    exists w'. split; [exact Hrun|]. split; [|split; [|split]].
    + intros j. rewrite Hframe.
      * apply Hnone. apply (split_path_fresh "big.bin").
      * apply (split_path_not_dir "big.bin").
      * intros j' Hj' E. apply (split_path_inj "big.bin") in E. lia.
    + rewrite Hre, length_take. lia.
    + rewrite Hlo, Hl0. apply Nat.add_0_l.
    + assert (Hn : (pred n < n)%nat) by lia.
      specialize (Hrep (pred n) Hn).
      rewrite Hl0, Nat.add_0_l in Hrep.
      rewrite last_lookup, Hlo, Hl0, Nat.add_0_l, Hrep.
      eexists. split; [reflexivity|].
      cbn [rep_index rep_num_splits rep_bytes rep_filesize].
      rewrite Nat.succ_pred by lia. repeat split; lia.
Qed.

Lemma big_data_length : Z.of_nat (length big_data) = big_filesize.
Proof. unfold big_data. rewrite repeat_length. by apply Z2Nat.id. Qed.

(** C1: the fragments are meant to add up to [filesize] bytes and to
    give back the input when put together in order.  For the file of
    [2^22 * MAX_SPLIT_SIZE + 1] bytes, split with the default buffer,
    the call returns after fragment [4194303]: there is no later
    fragment, the fragments hold [filesize - 1] bytes, and put together
    they are not the input. *)
Theorem split_file_drops_last_byte :
  exists w',
    split_file "big.bin" big_filesize THIRTY_TWO_KB big_world =
      (Ok "big.split.bin", w') /\
    (forall j : nat,
       fs w' !! split_path_of "big.split.bin" (2 ^ 22 + Z.of_nat j) = None) /\
    Z.of_nat (length (reassemble (fs w') "big.split.bin" (Z.to_nat (2 ^ 22))))
      = big_filesize - 1 /\
    reassemble (fs w') "big.split.bin" (Z.to_nat (2 ^ 22)) <> big_data.
Proof.
  destruct (big_run big_world big_data) as (w' & Hrun & Hno & Hlen & _).
  - apply lookup_singleton_eq.
  - intros key Hkey. by apply lookup_singleton_ne.
  - apply big_data_length.
  - reflexivity.
  - exists w'. split; [exact Hrun|]. split; [exact Hno|].
    split; [exact Hlen|].
    intros E. rewrite E, big_data_length in Hlen. lia.
Qed.

(** C8: the line printed after the last fragment is meant to report
    [filesize] bytes.  For the same file the call prints [2^22] lines,
    and the last of them reports [filesize - 1] of [filesize] bytes. *)
Theorem split_file_last_report_short :
  exists w' r,
    split_file "big.bin" big_filesize THIRTY_TWO_KB big_world =
      (Ok "big.split.bin", w') /\
    length (stdout w') = Z.to_nat (2 ^ 22) /\
    last (stdout w') = Some r /\
    rep_index r = 2 ^ 22 /\ rep_num_splits r = 2 ^ 22 /\
    rep_bytes r = big_filesize - 1 /\ rep_filesize r = big_filesize.
Proof.
  destruct (big_run big_world big_data)
    as (w' & Hrun & _ & _ & Hlines & r & Hr).
  - apply lookup_singleton_eq.
  - intros key Hkey. by apply lookup_singleton_ne.
  - apply big_data_length.
  - reflexivity.
  - exists w', r. split; [exact Hrun|]. split; [exact Hlines|]. exact Hr.
Qed.

End BigFacts.

(** ** Splitting with a buffer that does not divide the fragment size *)

Module OverFacts.
Import PyNum PyNumFacts Runtime Chunks CopyFacts RunFacts OutcomeFacts.
Import LayoutFacts Inputs.

Lemma over_quotient :
  truediv over_filesize MAX_SPLIT_SIZE = Ok (Float 4503599628419088 (-52)).
Proof. vm_compute. reflexivity. Qed.

Lemma span_one_mb : fragment_span MAX_SPLIT_SIZE ONE_MB 0 = 2 ^ 32.
Proof. vm_compute. reflexivity. Qed.

Lemma stride_one_mb : stride MAX_SPLIT_SIZE ONE_MB = Z.to_nat (2 ^ 32).
Proof. unfold stride. by rewrite span_one_mb. Qed.

(** With reads of one MiB the first fragment only stops at [2^32]
    bytes: it takes the whole input, and the second fragment stays
    empty. *)
Lemma over_run w data :
  fs w !! "in.bin" = Some (File data) ->
  (forall key, key <> "in.bin" -> fs w !! key = None) ->
  Z.of_nat (length data) = over_filesize ->
  exists w',
    split_file "in.bin" over_filesize ONE_MB w = (Ok "in.split.bin", w') /\
    fs w' !! "in.split.bin/00" = Some (File data) /\
    fs w' !! "in.split.bin/01" = Some (File []) /\
    (forall j : nat,
       fs w' !! split_path_of "in.split.bin" (2 + Z.of_nat j) = None).
Proof.
  intros Hin Hnone Hlen.
  destruct (split_file_at_outcome MAX_SPLIT_SIZE ONE_MB over_filesize
              "in.bin" data w (Float 4503599628419088 (-52)))
    as (w' & Hrun & _ & Hfrag & Hframe & _).
  - done.
  - done.
  - apply over_quotient.
  - done.
  - lia.
  - intros d. rewrite Hnone; [done|]. apply split_dir_fresh.
  - intros i _. rewrite Hnone; [done|]. apply split_path_fresh.
  - change (split_dir_of "in.bin") with "in.split.bin" in *.
    change (math_ceil (Float 4503599628419088 (-52))) with 2 in *.
    rewrite stride_one_mb in Hfrag.
    remember (Z.to_nat (2 ^ 32)) as T eqn:ET.
    assert (HTZ : Z.of_nat T = 2 ^ 32) by (rewrite ET; by rewrite Z2Nat.id).
    clear ET.
    assert (HT : (length data <= T)%nat).
    { apply Nat2Z.inj_le. rewrite HTZ, Hlen. done. }
    exists w'. split; [exact Hrun|]. split; [|split].
    + change "in.split.bin/00"
        with (split_path_of "in.split.bin" (Z.of_nat 0)).
      rewrite (Hfrag 0%nat) by (change (Z.to_nat 2) with 2%nat; lia).
      unfold chunk. rewrite Nat.mul_0_l, drop_0.
      rewrite take_ge by exact HT. reflexivity.
    + change "in.split.bin/01"
        with (split_path_of "in.split.bin" (Z.of_nat 1)).
      rewrite (Hfrag 1%nat) by (change (Z.to_nat 2) with 2%nat; lia).
      unfold chunk. rewrite Nat.mul_1_l.
      rewrite drop_ge by exact HT. rewrite take_nil. reflexivity.
    + intros j. rewrite Hframe.
      * apply Hnone. apply (split_path_fresh "in.bin").
      * apply (split_path_not_dir "in.bin").
      * intros j' Hj' E. apply (split_path_inj "in.bin") in E.
        change (Z.to_nat 2) with 2%nat in Hj'. lia.
Qed.

Lemma over_data_length : Z.of_nat (length over_data) = over_filesize.
Proof. unfold over_data. rewrite repeat_length. by apply Z2Nat.id. Qed.

(** C3: no fragment is meant to exceed [MAX_SPLIT_SIZE] bytes, and the
    last one is meant to hold the remainder.  For a file of
    [MAX_SPLIT_SIZE + 1] bytes split with [buf_size = ONE_MB], fragment
    [00] is the whole input, one byte more than [MAX_SPLIT_SIZE], and
    the last fragment [01] is empty. *)
Theorem split_file_fragment_too_long :
  exists w',
    split_file "in.bin" over_filesize ONE_MB over_world =
      (Ok "in.split.bin", w') /\
    fs w' !! "in.split.bin/00" = Some (File over_data) /\
    len over_data = MAX_SPLIT_SIZE + 1 /\
    fs w' !! "in.split.bin/01" = Some (File []) /\
    over_filesize mod MAX_SPLIT_SIZE = 1 /\
    (forall j : nat,
       fs w' !! split_path_of "in.split.bin" (2 + Z.of_nat j) = None).
Proof.
  destruct (over_run over_world over_data) as (w' & Hrun & H0 & H1 & Hno).
  - apply lookup_singleton_eq.
  - intros key Hkey. by apply lookup_singleton_ne.
  - apply over_data_length.
  - exists w'. split; [exact Hrun|]. split; [exact H0|].
    split; [apply over_data_length|]. split; [exact H1|].
    split; [reflexivity|exact Hno].
Qed.

End OverFacts.

(** ** Effects on the store around the copy *)

Module EffectClaims.
Import PyNum PyNumFacts Runtime FrameFacts LayoutFacts Inputs.







(** The failure and the directory it leaves, on the bare store. *)
Example split_file_missing_input_run :
  (split_file "gone.bin" 7 THIRTY_TWO_KB bare_world).1 =
    Raise FileNotFoundError /\
  fs (split_file "gone.bin" 7 THIRTY_TWO_KB bare_world).2 !! "gone.split.bin" =
    Some Dir.
Proof. split; vm_compute; reflexivity. Qed.

End EffectClaims.

(** ** Where the output goes *)

Module LayoutClaims.
Import PyStr PyStrFacts OsPath OsPathFacts FormatFacts Layout LayoutFacts.
Import FrameFacts.




(** The layout on some paths: with and without an extension, with a
    parent directory and without, and indices of one, two and three
    digits. *)
Example split_dir_examples :
  split_dir_of "/data/movie.mkv" = "/data/movie.split.mkv" /\
  split_dir_of "name" = "name.split." /\
  split_dir_of "a/b.tar.gz" = "a/b.tar.split.gz" /\
  split_dir_of "/x.bin" = "/x.split.bin" /\
  split_dir_of ".bashrc" = ".bashrc.split.".
Proof. repeat split; reflexivity. Qed.

Example split_path_examples :
  split_path_of "name.split." 0 = "name.split./00" /\
  split_path_of "name.split." 7 = "name.split./07" /\
  split_path_of "name.split." 42 = "name.split./42" /\
  split_path_of "name.split." 100 = "name.split./100" /\
  split_path_of "name.split." 4194303 = "name.split./4194303".
Proof. repeat split; reflexivity. Qed.

End LayoutClaims.

(** ** Collecting files *)

Module EnumFacts.
Import PyStr OsPath Listing.

Lemma collect_in_matches root extension files :
  forall collected,
  collect_in root extension files collected =
    collected ++ matches root extension files.
Proof.
  unfold matches. induction files as [|file files IH]; intros collected.
  - cbn. by rewrite app_nil_r.
  - cbn [collect_in]. rewrite IH. rewrite filter_cons.
    destruct (endswith file extension) eqn:E.
    + rewrite decide_True by done. cbn [map]. by rewrite <- app_assoc.
    + by rewrite decide_False by done.
Qed.

Lemma collect_walk_all steps extension :
  forall collected,
  collect_walk steps extension true collected =
    collected ++
    concat (map (fun s => matches s.1.1 extension s.2) steps).
Proof.
  induction steps as [|[[root dirs] files] steps IH]; intros collected.
  - cbn. by rewrite app_nil_r.
  - cbn [collect_walk negb]. rewrite IH, collect_in_matches.
    cbn [map concat fst snd]. by rewrite <- app_assoc.
Qed.


Lemma elem_of_matches p root extension files :
  p ∈ matches root extension files <->
  exists name, name ∈ files /\ endswith name extension = true /\
               p = join root name.
Proof.
  unfold matches. rewrite list_elem_of_fmap. split.
  - intros [name [-> [He Hin]%list_elem_of_filter]]. eauto.
  - intros (name & Hin & He & ->). exists name. split; [done|].
    by apply list_elem_of_filter.
Qed.



End EnumFacts.

Module EnumClaims.
Import PyStr OsPath Listing EnumFacts.


(** C4 does not hold as stated: the walk over a directory that does not
    exist yields nothing and raises nothing, so the call returns. *)
Lemma collect_files_missing_counterexample :
  sample_disk "nowhere" = None /\
  collect_files sample_disk "nowhere" ".mp4" false <> Raise FileNotFoundError.
Proof. split; [reflexivity|discriminate]. Qed.

(** C4, amended: for a directory path that does not exist
    [collect_files] returns the empty list, for every extension and both
    values of [recursive]. *)
Theorem collect_files_missing d directory extension recursive :
  d directory = None ->
  collect_files d directory extension recursive = Ok [].
Proof.
  intros H. unfold collect_files, os_walk. by rewrite H.
Qed.

Lemma collect_files_missing_witness :
  sample_disk "nowhere" = None /\
  collect_files sample_disk "nowhere" ".mp4" true = Ok [].
Proof.
  assert (H : sample_disk "nowhere" = None) by reflexivity.
  split; [exact H|].
  exact (collect_files_missing sample_disk "nowhere" ".mp4" true H).
Defined.



(** The listing of the sample directory, flat and recursive; a suffix
    is no pattern and its case matters. *)
Example collect_files_sample :
  collect_files sample_disk "top" ".mp4" false = Ok ["top/b.mp4"] /\
  collect_files sample_disk "top" ".mp4" true =
    Ok ["top/b.mp4"; "top/sub/c.mp4"] /\
  collect_files sample_disk "top" "*.mp4" true = Ok [] /\
  collect_files sample_disk "top" ".MP4" true = Ok [].
Proof. repeat split; reflexivity. Qed.

End EnumClaims.

(** ** Files of up to [2^22] fragments

    Below the size at which the float quotient loses the remainder, the
    copy does what it is meant to do. *)

Module PracticalRange.
Import PyNum PyNumFacts Runtime Chunks CopyFacts RunFacts OutcomeFacts.
Import LayoutFacts.

Section Practical.

Variables (filepath : string) (filesize buf_size : Z).
Variables (w : world) (data : list byte).
Hypothesis buf_pos : 0 < buf_size.
Hypothesis input : fs w !! filepath = Some (File data).
Hypothesis input_size : Z.of_nat (length data) = filesize.
Hypothesis in_range : filesize <= 2 ^ 22 * MAX_SPLIT_SIZE.
Hypothesis dir_free : forall d, fs w !! split_dir_of filepath <> Some (File d).
Hypothesis names_free :
  forall i, fs w !! split_path_of (split_dir_of filepath) i <> Some Dir.

Local Abbreviation D := (split_dir_of filepath).
Local Abbreviation k := (ceil_div filesize MAX_SPLIT_SIZE).

Lemma practical_quotient :
  exists x, truediv filesize MAX_SPLIT_SIZE = Ok x /\ math_ceil x = k.
Proof.
  pose proof (num_splits_exact filesize ltac:(lia)) as H.
  unfold num_splits, num_splits_at in H.
  destruct (truediv filesize MAX_SPLIT_SIZE) as [x| |]; [|done..].
  exists x. split; [done|congruence].
Qed.

Lemma practical_count : 0 <= k /\ filesize <= MAX_SPLIT_SIZE * k.
Proof.
  pose proof (ceil_div_bounds filesize MAX_SPLIT_SIZE ltac:(done)).
  split; [|lia].
  assert (0 <= filesize) by lia.
  unfold ceil_div. apply Z.div_pos; [|done].
  change MAX_SPLIT_SIZE with 4294901760. lia.
Qed.

(** The fragments put together in order are the input, [k] lines are
    printed, and the last of them reports [filesize] bytes and ends the
    line. *)
Theorem split_file_roundtrip :
  exists w',
    split_file filepath filesize buf_size w = (Ok D, w') /\
    reassemble (fs w') D (Z.to_nat k) = data /\
    (forall key, key <> D ->
       (forall j, (j < Z.to_nat k)%nat ->
          key <> split_path_of D (Z.of_nat j)) ->
       fs w' !! key = fs w !! key) /\
    length (stdout w') = (length (stdout w) + Z.to_nat k)%nat /\
    (0 < filesize ->
     exists r,
       last (stdout w') = Some r /\ rep_index r = k /\
       rep_num_splits r = k /\ rep_bytes r = filesize /\
       rep_filesize r = filesize /\ rep_end r = LF).
Proof.
  destruct practical_quotient as (x & Hx & Hk).
  destruct practical_count as [Hk0 HkM].
  destruct (split_file_at_outcome MAX_SPLIT_SIZE buf_size filesize filepath
              data w x buf_pos ltac:(lia) Hx input ltac:(lia) dir_free
              ltac:(intros; apply names_free))
    as (w' & Hrun & _ & _ & Hframe & Hre & Hlo & Hrep).
  rewrite Hk in *.
  pose proof (fragment_span_bounds MAX_SPLIT_SIZE buf_size buf_pos
                ltac:(done)) as [HT _].
  assert (HTZ : Z.of_nat (stride MAX_SPLIT_SIZE buf_size) =
                fragment_span MAX_SPLIT_SIZE buf_size 0)
    by (unfold stride; lia).
  remember (stride MAX_SPLIT_SIZE buf_size) as T eqn:ET. clear ET.
  remember (fragment_span MAX_SPLIT_SIZE buf_size 0) as S eqn:ES. clear ES.
  assert (HnZ : Z.of_nat (Z.to_nat k) = k) by (by apply Z2Nat.id).
  remember (Z.to_nat k) as n eqn:En. clear En.
  assert (Hall : (length data <= n * T)%nat).
  { apply Nat2Z.inj_le. rewrite Nat2Z.inj_mul, HnZ, HTZ, input_size. nia. }
  exists w'. split; [exact Hrun|]. split; [|split; [|split]].
  - rewrite Hre. by apply take_ge.
  - exact Hframe.
  - exact Hlo.
  - intros Hpos.
    assert (Hn : (pred n < n)%nat).
    { assert (0 < k); [|lia]. apply ceil_div_pos; done. }
    specialize (Hrep (pred n) Hn).
    rewrite Nat.succ_pred in Hrep by lia.
    rewrite Nat.min_l in Hrep by exact Hall.
    rewrite input_size in Hrep.
    rewrite last_lookup, Hlo.
    replace (pred (length (stdout w) + n)) with (length (stdout w) + pred n)%nat
      by lia.
    rewrite Hrep. eexists. split; [reflexivity|].
    cbn [rep_index rep_num_splits rep_bytes rep_filesize rep_end].
    rewrite Z.ltb_irrefl. repeat split. lia.
Qed.

(** With a buffer size that divides [MAX_SPLIT_SIZE], as the default
    does, fragment [j] holds the [j]-th stretch of [MAX_SPLIT_SIZE]
    bytes: full size before the last fragment, the rest in the last. *)
Theorem split_file_fragment_sizes :
  (buf_size | MAX_SPLIT_SIZE) ->
  exists w',
    split_file filepath filesize buf_size w = (Ok D, w') /\
    forall j, (j < Z.to_nat k)%nat ->
      exists fragment,
        fs w' !! split_path_of D (Z.of_nat j) = Some (File fragment) /\
        fragment = chunk (Z.to_nat MAX_SPLIT_SIZE) data j /\
        len fragment <= MAX_SPLIT_SIZE /\
        (Z.of_nat j < k - 1 -> len fragment = MAX_SPLIT_SIZE) /\
        (Z.of_nat j = k - 1 ->
         len fragment = filesize - (k - 1) * MAX_SPLIT_SIZE).
Proof.
  intros Hdiv.
  destruct practical_quotient as (x & Hx & Hk).
  destruct practical_count as [Hk0 HkM].
  pose proof (ceil_div_bounds filesize MAX_SPLIT_SIZE ltac:(done)) as Hkb.
  destruct (split_file_at_outcome MAX_SPLIT_SIZE buf_size filesize filepath
              data w x buf_pos ltac:(lia) Hx input ltac:(lia) dir_free
              ltac:(intros; apply names_free))
    as (w' & Hrun & _ & Hfrag & _).
  rewrite Hk in *.
  unfold stride in Hfrag.
  rewrite (fragment_span_divides MAX_SPLIT_SIZE buf_size buf_pos
             ltac:(done) Hdiv) in Hfrag.
  assert (HTZ : Z.of_nat (Z.to_nat MAX_SPLIT_SIZE) = MAX_SPLIT_SIZE)
    by (by apply Z2Nat.id).
  remember (Z.to_nat MAX_SPLIT_SIZE) as T eqn:ET. clear ET.
  assert (HnZ : Z.of_nat (Z.to_nat k) = k) by (by apply Z2Nat.id).
  remember (Z.to_nat k) as n eqn:En. clear En.
  exists w'. split; [exact Hrun|]. intros j Hj.
  eexists. split; [by apply Hfrag|]. split; [reflexivity|].
  unfold len, chunk. rewrite length_take, length_drop.
  assert (HjT : Z.of_nat (j * T) = Z.of_nat j * MAX_SPLIT_SIZE)
    by (by rewrite Nat2Z.inj_mul, HTZ).
  remember (j * T)%nat as jT eqn:EjT. clear EjT.
  assert (0 < MAX_SPLIT_SIZE) by done.
  repeat split; [lia|intros; nia|intros; nia].
Qed.

End Practical.

End PracticalRange.

(** ** Small runs *)

Module SmallRuns.
Import Runtime Inputs.

(** Eleven bytes at a threshold of four with reads of two bytes:
    fragments of four, four and three bytes. *)
Example split_eleven_by_two :
  let (r, w') := split_file_at 4 "d/a.bin" 11 2 eleven_world in
  r = Ok "d/a.split.bin" /\
  map (contents (fs w'))
    ["d/a.split.bin/00"; "d/a.split.bin/01"; "d/a.split.bin/02"] =
    [[x01; x02; x03; x04]; [x05; x06; x07; x08]; [x09; x0a; x0b]] /\
  map rep_bytes (stdout w') = [4; 8; 11] /\
  map rep_elapsed (stdout w') = ["01:01:40"; "02:03:20"; "03:05:00"] /\
  map rep_end (stdout w') = [CR; CR; LF].
Proof. vm_compute. repeat split; reflexivity. Qed.

(** The same with reads of three bytes: a fragment only stops at the
    first multiple of three from four on, so the fragments hold six,
    five and no bytes. *)
Example split_eleven_by_three :
  let (r, w') := split_file_at 4 "d/a.bin" 11 3 eleven_world in
  r = Ok "d/a.split.bin" /\
  map (contents (fs w'))
    ["d/a.split.bin/00"; "d/a.split.bin/01"; "d/a.split.bin/02"] =
    [[x01; x02; x03; x04; x05; x06]; [x07; x08; x09; x0a; x0b]; []] /\
  map rep_bytes (stdout w') = [6; 11; 11].
Proof. vm_compute. repeat split; reflexivity. Qed.

(** With the real threshold a small file goes into one fragment. *)
Example split_small :
  let (r, w') := split_file "d/a.bin" 3 THIRTY_TWO_KB small_world in
  r = Ok "d/a.split.bin" /\
  fs w' !! "d/a.split.bin" = Some Dir /\
  fs w' !! "d/a.split.bin/00" = Some (File [x01; x02; x03]) /\
  fs w' !! "d/a.split.bin/01" = None /\
  map rep_bytes (stdout w') = [3].
Proof. vm_compute. repeat split; reflexivity. Qed.

(** An elapsed time of 3661 seconds. *)
Example strftime_3661 : strftime_HMS 3661 = "01:01:01".
Proof. reflexivity. Qed.

End SmallRuns.

(** ** Floats of a division: when there is one *)

Module DivisionFacts.
Import PyNum PyNumFacts.

Lemma round_half_even_ge n d : n / d <= round_half_even n d.
Proof.
  unfold round_half_even.
  destruct (2 * (n mod d) ?= d); [destruct (Z.even (n / d))|..]; lia.
Qed.

(** A quotient of [2^1024] or more has no float. *)
Lemma truediv_overflow a b :
  0 < b -> huge * b <= a -> truediv a b = Raise OverflowError.
Proof.
  intros Hb Ha. unfold huge in Ha.
  assert (H1024 : 0 < 2 ^ 1024) by (apply Z.pow_pos_nonneg; lia).
  assert (Hapos : 0 < a) by nia.
  unfold truediv.
  destruct (Z.eqb_spec b 0); [lia|]. destruct (Z.eqb_spec a 0); [lia|].
  rewrite !Z.abs_eq by lia.
  destruct (quot_log2_spec a b Hapos Hb) as [HL1 HL2].
  set (L := quot_log2 a b) in *. clearbody L.
  assert (HL : 1024 <= L).
  { destruct (Z.le_gt_cases 1024 L); [done|]. exfalso.
    destruct (Z.le_gt_cases 0 L).
    - rewrite (pow2_neg (- L)), (pow2_nonneg L) in HL2 by lia.
      assert (2 ^ L <= 2 ^ 1023) by (apply Z.pow_le_mono_r; lia).
      change (2 ^ 1024) with (2 * 2 ^ 1023) in Ha. nia.
    - rewrite (pow2_neg L), (pow2_nonneg (- L)) in HL2 by lia.
      assert (0 < 2 ^ (- L)) by (apply Z.pow_pos_nonneg; lia).
      assert (2 <= 2 ^ 1024) by (vm_compute; discriminate). nia. }
  rewrite (pow2_neg (- L)), (pow2_nonneg L) in HL1 by lia.
  change (mant_bits - 1) with 52. unfold min_exp.
  rewrite Z.max_r by lia.
  rewrite (pow2_neg (- (L - 52))), (pow2_nonneg (L - 52)) by lia.
  rewrite Z.mul_1_r in *.
  assert (E : 2 ^ L = 2 ^ 52 * 2 ^ (L - 52))
    by (rewrite <- Z.pow_add_r by lia; f_equal; lia).
  assert (He : 0 < 2 ^ (L - 52)) by (apply Z.pow_pos_nonneg; lia).
  assert (H1024L : 2 ^ 1024 <= 2 ^ L) by (apply Z.pow_le_mono_r; lia).
  set (S := 2 ^ (L - 52)) in *. clearbody S.
  pose proof (round_half_even_ge a (b * S)) as Hm.
  assert (Hq : 2 ^ 52 <= a / (b * S)).
  { apply Z.div_le_lower_bound; nia. }
  unfold huge.
  destruct (Z.leb_spec (2 ^ 1024) (round_half_even a (b * S) * S)); [done|].
  exfalso. nia.
Qed.

(** A quotient below [2^1023] in size has one. *)
Lemma truediv_defined a b :
  b <> 0 -> Z.abs a < 2 ^ 1023 * Z.abs b -> exists x, truediv a b = Ok x.
Proof.
  intros Hb Hab. unfold truediv.
  destruct (Z.eqb_spec b 0); [lia|].
  destruct (Z.eqb_spec a 0); [eauto|].
  assert (Ha' : 0 < Z.abs a) by lia. assert (Hb' : 0 < Z.abs b) by lia.
  set (a' := Z.abs a) in *. set (b' := Z.abs b) in *. clearbody a' b'.
  destruct (quot_log2_spec a' b' Ha' Hb') as [HL1 HL2].
  set (L := quot_log2 a' b') in *. clearbody L.
  assert (HL : L <= 1022).
  { destruct (Z.le_gt_cases L 1022); [done|]. exfalso.
    rewrite (pow2_neg (- L)), (pow2_nonneg L) in HL1 by lia.
    assert (2 ^ 1023 <= 2 ^ L) by (apply Z.pow_le_mono_r; lia). nia. }
  change (mant_bits - 1) with 52. unfold min_exp.
  set (e := Z.max (-1074) (L - 52)).
  assert (He : -1074 <= e <= 970 /\ L - 52 <= e /\ (0 <= L \/ e < 0)) by lia.
  clearbody e.
  set (m := round_half_even (a' * pow2 (- e)) (b' * pow2 e)).
  assert (Hm : m * pow2 e <= 2 ^ 1023).
  { pose proof (round_half_even_le (a' * pow2 (- e)) (b' * pow2 e)) as Hle.
    fold m in Hle.
    pose proof (pow2_pos e) as Hpe. pose proof (pow2_pos (- e)) as Hpe'.
    assert (Hq : a' * pow2 (- e) / (b' * pow2 e) < 2 ^ 53).
    { apply Z.div_lt_upper_bound; [nia|].
      (* a' * 2^-e < b' * 2^e * 2^53 *)
      destruct (Z.le_gt_cases 0 L) as [HL0|HL0].
      - rewrite (pow2_neg (- L)), (pow2_nonneg L) in HL2 by lia.
        destruct (Z.le_gt_cases 0 e) as [He0|He0].
        + rewrite (pow2_neg (- e)), (pow2_nonneg e) by lia.
          assert (Hp : 2 ^ (L + 1) <= 2 ^ (e + 53))
            by (apply Z.pow_le_mono_r; lia).
          rewrite !Z.pow_add_r in Hp by lia. change (2 ^ 1) with 2 in Hp.
          assert (b' * (2 ^ L * 2) <= b' * (2 ^ e * 2 ^ 53))
            by (apply Z.mul_le_mono_nonneg_l; lia).
          lia.
        + rewrite (pow2_neg e), (pow2_nonneg (- e)) by lia.
          assert (0 < 2 ^ (- e)) by (apply Z.pow_pos_nonneg; lia).
          assert (Hp : 2 ^ (L + 1) * 2 ^ (- e) <= 2 ^ 53).
          { rewrite <- Z.pow_add_r by lia. apply Z.pow_le_mono_r; lia. }
          rewrite Z.pow_add_r in Hp by lia. change (2 ^ 1) with 2 in Hp.
          rewrite Z.mul_1_r.
          assert (a' * 2 ^ (- e) < 2 * (b' * 2 ^ L) * 2 ^ (- e))
            by (apply Z.mul_lt_mono_pos_r; lia).
          assert (b' * (2 ^ L * 2 * 2 ^ (- e)) <= b' * 2 ^ 53)
            by (apply Z.mul_le_mono_nonneg_l; lia).
          lia.
      - rewrite (pow2_neg L), (pow2_nonneg (- L)) in HL2 by lia.
        rewrite (pow2_neg e), (pow2_nonneg (- e)) by lia.
        assert (0 < 2 ^ (- e)) by (apply Z.pow_pos_nonneg; lia).
        assert (0 < 2 ^ (- L)) by (apply Z.pow_pos_nonneg; lia).
        assert (Hp : 2 ^ (1 + - e) <= 2 ^ (53 + - L))
          by (apply Z.pow_le_mono_r; lia).
        rewrite !Z.pow_add_r in Hp by lia. change (2 ^ 1) with 2 in Hp.
        rewrite Z.mul_1_r in *.
        assert (a' * 2 ^ (- L) * (2 * 2 ^ (- e)) <
                2 * b' * (2 * 2 ^ (- e))) by (apply Z.mul_lt_mono_pos_r; lia).
        assert (a' * (2 * 2 ^ (- e)) <= a' * (2 ^ 53 * 2 ^ (- L)))
          by (apply Z.mul_le_mono_nonneg_l; lia).
        nia. }
    assert (Hp : pow2 e <= 2 ^ 970).
    { unfold pow2. apply Z.pow_le_mono_r; lia. }
    assert (Hm0 : 0 <= m).
    { pose proof (round_half_even_ge (a' * pow2 (- e)) (b' * pow2 e)) as Hge.
      fold m in Hge.
      assert (0 <= a' * pow2 (- e) / (b' * pow2 e)); [|lia].
      apply Z.div_pos; nia. }
    assert (Hm : m * pow2 e <= 2 ^ 53 * 2 ^ 970)
      by (apply Z.mul_le_mono_nonneg; lia).
    by rewrite <- Z.pow_add_r in Hm by lia. }
  destruct (Z.leb_spec huge (m * pow2 e)) as [H|H]; [|eauto].
  exfalso. unfold huge in H.
  assert (2 ^ 1023 < 2 ^ 1024) by (apply Z.pow_lt_mono_r; lia). lia.
Qed.

End DivisionFacts.

(** ** How a call fails *)

Module FailureFacts.
Import PyNum PyNumFacts Runtime FrameFacts LayoutFacts DivisionFacts.

(** The loop of one fragment raises nothing: reading and appending do
    not fail in this model of the files. *)
Lemma copy_loop_no_raise max_split_size infile outfile buf_size fuel :
  forall pos bytes_written total w e,
  (copy_loop max_split_size fuel infile pos outfile buf_size bytes_written
     total w).1 <> Raise e.
Proof.
  induction fuel as [|fuel IH]; intros pos bw total w e;
    cbn [copy_loop]; destruct (bw <? max_split_size); try done.
  unfold bind at 1. unfold file_read at 1. cbv beta zeta.
  destruct (if buf_size <? 0 then _ else _) as [|b chunk]; [done|].
  unfold bind at 1. unfold file_write at 1. cbv beta zeta. apply IH.
Qed.

(** What the loop over the fragments can raise. *)
Lemma split_loop_raises max_split_size filepath filename split_dir filesize
    buf_size num_splits start_time n :
  filesize <> 0 ->
  forall split pos total w e,
  (split_loop max_split_size n split filepath filename split_dir filesize
     buf_size num_splits start_time pos total w).1 = Raise e ->
  e = IsADirectoryError \/ e = OverflowError.
Proof.
  intros Hne. induction n as [|n IH]; intros split pos total w e; [done|].
  cbn [split_loop]. unfold bind at 1.
  destruct (open_wb _ w) as [[u|e'|] w1] eqn:Ho; [| |done].
  2:{ unfold open_wb in Ho. destruct (fs w !! _) as [[|]|]; simplify_eq.
      intros [= <-]. by left. }
  unfold bind at 1. unfold bytes_left at 1. unfold bind at 1.
  pose proof (copy_loop_no_raise max_split_size filepath
                (split_path_of split_dir split) buf_size
                (S (length (contents (fs w1) filepath) - pos)) pos 0 total w1)
    as Hc.
  destruct (copy_loop _ _ _ _ _ _ _ _ w1) as [[[pos' total']|e'|] w2];
    [|by destruct (Hc e')|done].
  unfold format_elapsed_time, time_time. unfold bind at 1. unfold bind at 1.
  unfold ret at 1. unfold bind at 1. unfold lift at 1.
  destruct (truediv total' filesize) as [x|e'|] eqn:Ht; [| |done].
  2:{ destruct (truediv_raises _ _ _ Ht) as [->| ->]; intros [= <-];
        [|by right].
      unfold truediv in Ht. destruct (Z.eqb_spec filesize 0); [done|].
      destruct (total' =? 0); [done|]. by destruct (huge <=? _). }
  unfold bind at 1. unfold print at 1. apply IH.
Qed.

End FailureFacts.

Module FailureExtras.
Import PyNum PyNumFacts Runtime FrameFacts LayoutFacts DivisionFacts.
Import FailureFacts Inputs.

(** X1: whatever the arguments and the files, [split_file] raises no
    [ZeroDivisionError]: the division by [filesize] of line 101 sits
    inside the loop, which has no turn when [filesize] is [0].  An
    exception that leaves the call is an [OverflowError] (of a division)
    or comes from the files: [FileExistsError], [FileNotFoundError] or
    [IsADirectoryError]. *)
Theorem split_file_raises filepath filesize buf_size w e :
  (split_file filepath filesize buf_size w).1 = Raise e ->
  e <> ZeroDivisionError /\
  (e = OverflowError \/ e = FileExistsError \/ e = FileNotFoundError \/
   e = IsADirectoryError).
Proof.
  intros H.
  assert (He : e = OverflowError \/ e = FileExistsError \/
               e = FileNotFoundError \/ e = IsADirectoryError);
    [|split; [|exact He]; destruct He as [->|[->|[->| ->]]]; done].
  revert H. unfold split_file, split_file_at, num_splits_at.
  unfold bind at 1. unfold lift at 1.
  destruct (truediv filesize MAX_SPLIT_SIZE) as [x|e'|] eqn:Hx; [| |done].
  2:{ intros [= <-]. left.
      destruct (truediv_raises _ _ _ Hx) as [->| ->]; [|done].
      unfold truediv in Hx. change (MAX_SPLIT_SIZE =? 0) with false in Hx.
      cbv iota in Hx. destruct (filesize =? 0); [done|].
      by destruct (huge <=? _). }
  unfold bind at 1. unfold os_makedirs at 1.
  destruct (fs w !! split_dir_of filepath) as [[d|]|];
    [intros [= <-]; right; by left|..].
  all: unfold bind at 1; unfold time_time at 1; unfold bind at 1;
    unfold open_rb at 1; cbn [fs set_fs].
  all: destruct (_ !! filepath) as [[d|]|];
    [|intros [= <-]; do 3 right; done|intros [= <-]; right; right; by left].
  all: unfold bind at 1.
  all: destruct (Z.eq_dec filesize 0) as [->|Hne];
    [change (truediv 0 MAX_SPLIT_SIZE) with (Ok (Float 0 0)) in Hx;
     injection Hx as <-; done|].
  all: match goal with
       | |- context [split_loop ?m ?n ?s ?fp ?fn ?sd ?fz ?b ?ns ?st ?p ?t ?w] =>
           pose proof (split_loop_raises m fp fn sd fz b ns st n Hne s p t w)
             as Hl;
           destruct (split_loop m n s fp fn sd fz b ns st p t w)
             as [[u|e'|] w2]; [done| |done]
       end.
  all: intros [= <-]; destruct (Hl e' eq_refl) as [->| ->];
    [do 3 right; done|by left].
Qed.

Lemma split_file_raises_witness :
  (split_file "gone.bin" 7 THIRTY_TWO_KB bare_world).1 =
    Raise FileNotFoundError /\
  FileNotFoundError <> ZeroDivisionError /\
  (FileNotFoundError = OverflowError \/ FileNotFoundError = FileExistsError \/
   FileNotFoundError = FileNotFoundError \/
   FileNotFoundError = IsADirectoryError).
Proof.
  assert (H : (split_file "gone.bin" 7 THIRTY_TWO_KB bare_world).1 =
              Raise FileNotFoundError) by (vm_compute; reflexivity).
  split; [exact H|].
  exact (split_file_raises "gone.bin" 7 THIRTY_TWO_KB bare_world _ H).
Defined.

(** X2: a [filesize] of [2^1024 * MAX_SPLIT_SIZE] or more makes the
    division of line 59 fail with [OverflowError] before anything else
    is done: no directory is made, no file is opened, nothing is
    printed. *)
Theorem split_file_overflow filepath filesize buf_size w :
  2 ^ 1024 * MAX_SPLIT_SIZE <= filesize ->
  split_file filepath filesize buf_size w = (Raise OverflowError, w).
Proof.
  intros H. unfold split_file, split_file_at, num_splits_at.
  unfold bind at 1. unfold lift at 1.
  by rewrite (truediv_overflow filesize MAX_SPLIT_SIZE).
Qed.

Lemma split_file_overflow_witness :
  2 ^ 1024 * MAX_SPLIT_SIZE <= 2 ^ 1024 * MAX_SPLIT_SIZE /\
  split_file "d/a.bin" (2 ^ 1024 * MAX_SPLIT_SIZE) THIRTY_TWO_KB small_world =
    (Raise OverflowError, small_world).
Proof.
  assert (H : 2 ^ 1024 * MAX_SPLIT_SIZE <= 2 ^ 1024 * MAX_SPLIT_SIZE) by lia.
  split; [exact H|].
  exact (split_file_overflow "d/a.bin" _ THIRTY_TWO_KB small_world H).
Defined.

(** X3: when a regular file sits at the path of the split directory,
    [os.makedirs] fails with [FileExistsError] (line 69) and the call
    has changed nothing by then: no file is written, nothing is
    printed, the clock is not read; whether the input exists is not
    even looked at. *)
Theorem split_file_dir_taken filepath filesize buf_size w d :
  Z.abs filesize < 2 ^ 1023 * MAX_SPLIT_SIZE ->
  fs w !! split_dir_of filepath = Some (File d) ->
  split_file filepath filesize buf_size w = (Raise FileExistsError, w).
Proof.
  intros Hsz Hd. unfold split_file, split_file_at, num_splits_at.
  unfold bind at 1. unfold lift at 1.
  destruct (truediv_defined filesize MAX_SPLIT_SIZE) as [x ->]; [done|done|].
  unfold bind at 1. unfold os_makedirs at 1. by rewrite Hd.
Qed.

(** X4: when the input path is a directory, the call fails with
    [IsADirectoryError] at the [open] of line 77; the split directory
    has been made by then and stays, and nothing is printed. *)
Theorem split_file_input_is_dir filepath filesize buf_size w :
  Z.abs filesize < 2 ^ 1023 * MAX_SPLIT_SIZE ->
  fs w !! filepath = Some Dir ->
  (forall d, fs w !! split_dir_of filepath <> Some (File d)) ->
  exists w',
    split_file filepath filesize buf_size w = (Raise IsADirectoryError, w') /\
    fs w' = <[split_dir_of filepath := Dir]> (fs w) /\
    stdout w' = stdout w.
Proof.
  intros Hsz Hin Hd. unfold split_file, split_file_at, num_splits_at.
  unfold bind at 1. unfold lift at 1.
  destruct (truediv_defined filesize MAX_SPLIT_SIZE) as [x ->]; [done|done|].
  unfold bind at 1. unfold os_makedirs at 1.
  set (D := split_dir_of filepath) in *.
  assert (Hne : <[D := Dir]> (fs w) !! filepath = Some Dir).
  { rewrite lookup_insert_ne; [done|apply split_dir_fresh]. }
  destruct (fs w !! D) as [[d|]|] eqn:E; [by destruct (Hd d)|..].
  - unfold bind, time_time, open_rb. cbn [fs]. rewrite Hin.
    eexists. split; [reflexivity|]. cbn [fs stdout].
    by rewrite insert_id.
  - unfold bind, time_time, open_rb. cbn [fs set_fs]. rewrite Hne.
    eexists. split; [reflexivity|]. done.
Qed.

End FailureExtras.

(** ** A call that meets no obstacle, from the caller's side *)

Module CallFacts.
Import PyNum PyNumFacts PyStr OsPath Runtime Chunks CopyFacts RunFacts.
Import OutcomeFacts LayoutFacts FormatFacts DivisionFacts.

Lemma stride_span buf_size :
  0 < buf_size ->
  Z.of_nat (stride MAX_SPLIT_SIZE buf_size) =
    fragment_span MAX_SPLIT_SIZE buf_size 0.
Proof.
  intros Hb. unfold stride.
  pose proof (fragment_span_nonneg MAX_SPLIT_SIZE buf_size 0 Hb). lia.
Qed.

(** A path is the path of a fragment of the split directory, or of
    none. *)
Lemma fragment_path_dec filepath key :
  (exists i, key = split_path_of (split_dir_of filepath) i) \/
  (forall i, key <> split_path_of (split_dir_of filepath) i).
Proof.
  destruct (parse_int (basename key)) as [i|] eqn:Ep.
  - destruct (decide (key = split_path_of (split_dir_of filepath) i))
      as [->|Hi]; [left; by exists i|].
    right. intros j ->. destruct (split_path_parts filepath j) as [_ Hb].
    rewrite Hb, parse_int_format_02 in Ep. congruence.
  - right. intros j ->. destruct (split_path_parts filepath j) as [_ Hb].
    rewrite Hb, parse_int_format_02 in Ep. done.
Qed.

Section Call.

Variables (filepath : string) (filesize buf_size : Z).
Variables (w : world) (data : list byte).
Hypothesis buf_pos : 0 < buf_size.
Hypothesis size_range : 0 <= filesize < 2 ^ 1023 * MAX_SPLIT_SIZE.
Hypothesis input : fs w !! filepath = Some (File data).
Hypothesis input_size : Z.of_nat (length data) <= filesize.
Hypothesis dir_free : forall d, fs w !! split_dir_of filepath <> Some (File d).
Hypothesis names_free :
  forall i, fs w !! split_path_of (split_dir_of filepath) i <> Some Dir.

Local Abbreviation D := (split_dir_of filepath).
Local Abbreviation T := (stride MAX_SPLIT_SIZE buf_size).

Lemma split_file_quotient : exists x, truediv filesize MAX_SPLIT_SIZE = Ok x.
Proof.
  apply truediv_defined; [done|].
  rewrite Z.abs_eq by lia. change (Z.abs MAX_SPLIT_SIZE) with MAX_SPLIT_SIZE.
  lia.
Qed.

(** The outcome of a call that meets no obstacle, with the count that
    line 59 computes. *)
Lemma split_file_outcome :
  exists w' k,
    split_file filepath filesize buf_size w = (Ok D, w') /\
    num_splits filesize = Ok k /\
    fs w' !! D = Some Dir /\
    (forall j, (j < Z.to_nat k)%nat ->
       fs w' !! split_path_of D (Z.of_nat j) = Some (File (chunk T data j))) /\
    (forall key, key <> D ->
       (forall j, (j < Z.to_nat k)%nat -> key <> split_path_of D (Z.of_nat j)) ->
       fs w' !! key = fs w !! key) /\
    reassemble (fs w') D (Z.to_nat k) = take (Z.to_nat k * T) data /\
    length (stdout w') = (length (stdout w) + Z.to_nat k)%nat /\
    take (length (stdout w)) (stdout w') = stdout w /\
    (forall j, (j < Z.to_nat k)%nat ->
       let t := Z.of_nat (Nat.min (length data) (S j * T)) in
       stdout w' !! (length (stdout w) + j)%nat =
         Some (Report
                 (strftime_HMS
                    ((clock w (S (clock_reads w) + j) -
                      clock w (clock_reads w)) / 1000000))
                 (Z.of_nat j + 1) k (progress_of t filesize) t
                 filesize (basename filepath)
                 (if t <? filesize then CR else LF))).
Proof.
  destruct split_file_quotient as [x Hx].
  destruct (split_file_at_outcome MAX_SPLIT_SIZE buf_size filesize filepath
              data w x buf_pos (proj1 size_range) Hx input input_size dir_free
              ltac:(intros; apply names_free))
    as (w' & Hrun & HD & Hfrag & Hframe & Hre & Hlen & Hrep).
  exists w', (math_ceil x).
  split; [exact Hrun|].
  split; [unfold num_splits, num_splits_at; by rewrite Hx|].
  split; [exact HD|]. split; [exact Hfrag|]. split; [exact Hframe|].
  split; [exact Hre|]. split; [exact Hlen|]. split; [|exact Hrep].
  pose proof (SplitFacts.split_file_at_run MAX_SPLIT_SIZE filepath filesize
                buf_size w data x buf_pos (proj1 size_range) Hx input
                input_size dir_free ltac:(intros; apply names_free)) as Hrun'.
  rewrite Hrun in Hrun'. injection Hrun' as ->. cbn [stdout].
  by rewrite take_app_length.
Qed.

End Call.

(** The stores used below to run a call on. *)
Lemma small_dir_free :
  forall d, fs Inputs.small_world !! split_dir_of "d/a.bin" <> Some (File d).
Proof. intros d. vm_compute. discriminate. Qed.

Lemma small_names_free :
  forall i,
  fs Inputs.small_world !! split_path_of (split_dir_of "d/a.bin") i <> Some Dir.
Proof.
  intros i. unfold Inputs.small_world. cbn [fs].
  by intros [_ [=]]%lookup_singleton_Some.
Qed.

End CallFacts.

Module CallExtras.
Import PyNum PyNumFacts PyStr OsPath Runtime Chunks CopyFacts RunFacts.
Import OutcomeFacts LayoutFacts FormatFacts DivisionFacts CallFacts Inputs.

(** X6: for a [filesize] from [0] to [2^22 * MAX_SPLIT_SIZE] the count
    of line 59 is the number of fragments of [MAX_SPLIT_SIZE] bytes that
    [filesize] bytes need: [0] for [0], and otherwise the [n] with
    [(n - 1) * MAX_SPLIT_SIZE < filesize <= n * MAX_SPLIT_SIZE]; the
    float division loses nothing there. *)
Theorem num_splits_ceiling filesize :
  0 <= filesize <= 2 ^ 22 * MAX_SPLIT_SIZE ->
  exists n,
    num_splits filesize = Ok n /\ 0 <= n <= 2 ^ 22 /\
    (n - 1) * MAX_SPLIT_SIZE < filesize <= n * MAX_SPLIT_SIZE.
Proof.
  intros H. exists (ceil_div filesize MAX_SPLIT_SIZE).
  split; [by apply num_splits_exact|].
  pose proof (ceil_div_bounds filesize MAX_SPLIT_SIZE ltac:(done)) as Hb.
  revert H Hb. generalize (ceil_div filesize MAX_SPLIT_SIZE). intros n.
  change MAX_SPLIT_SIZE with 4294901760. change (2 ^ 22) with 4194304. lia.
Qed.

Lemma num_splits_ceiling_witness :
  exists n,
    num_splits (3 * MAX_SPLIT_SIZE + 500) = Ok n /\ 0 <= n <= 2 ^ 22 /\
    (n - 1) * MAX_SPLIT_SIZE < 3 * MAX_SPLIT_SIZE + 500 <= n * MAX_SPLIT_SIZE.
Proof.
  apply (num_splits_ceiling (3 * MAX_SPLIT_SIZE + 500)).
  split; vm_compute; discriminate.
Defined.

Section Call.

Variables (filepath : string) (filesize buf_size : Z).
Variables (w : world) (data : list byte).
Hypothesis buf_pos : 0 < buf_size.
Hypothesis size_range : 0 <= filesize < 2 ^ 1023 * MAX_SPLIT_SIZE.
Hypothesis input : fs w !! filepath = Some (File data).
Hypothesis input_size : Z.of_nat (length data) <= filesize.
Hypothesis dir_free : forall d, fs w !! split_dir_of filepath <> Some (File d).
Hypothesis names_free :
  forall i, fs w !! split_path_of (split_dir_of filepath) i <> Some Dir.

Local Abbreviation D := (split_dir_of filepath).
Local Abbreviation span := (fragment_span MAX_SPLIT_SIZE buf_size 0).
Local Abbreviation outcome :=
  (split_file_outcome filepath filesize buf_size w data buf_pos size_range
     input input_size dir_free names_free).

(** X7: with any [buf_size > 0], the fragments are consecutive
    stretches of the input of one common length [span], the first
    multiple of [buf_size] from [MAX_SPLIT_SIZE] on: fragment [j] holds
    the bytes from [j * span] up to [(j + 1) * span] (fewer at the end
    of the input, none beyond it).  The inner loop checks the size of a
    fragment only between whole reads, so [span] is [MAX_SPLIT_SIZE]
    only when [buf_size] divides it. *)
Theorem split_file_fragments :
  exists w' k,
    split_file filepath filesize buf_size w = (Ok D, w') /\
    num_splits filesize = Ok k /\
    MAX_SPLIT_SIZE <= span < MAX_SPLIT_SIZE + buf_size /\
    (buf_size | span) /\
    forall j, 0 <= j < k ->
      fs w' !! split_path_of D j =
        Some (File (take (Z.to_nat span) (drop (Z.to_nat (j * span)) data))).
Proof.
  destruct outcome as (w' & k & Hrun & Hk & _ & Hfrag & _).
  exists w', k. split; [exact Hrun|]. split; [exact Hk|].
  pose proof (fragment_span_nonneg MAX_SPLIT_SIZE buf_size 0 buf_pos) as H0.
  split; [apply fragment_span_bounds; [exact buf_pos|done]|].
  split.
  { exists (Z.max 0 (ceil_div (MAX_SPLIT_SIZE - 0) buf_size)).
    unfold fragment_span. lia. }
  intros j Hj. specialize (Hfrag (Z.to_nat j) ltac:(lia)).
  rewrite Z2Nat.id in Hfrag by lia. rewrite Hfrag. unfold chunk, stride.
  by rewrite Z2Nat.inj_mul by lia.
Qed.

(** X13: fragment paths with an index from the count on (or below
    zero) keep what they held before the call: a split directory that
    was used for a longer input is not cleaned, its fragments of higher
    number stay. *)
Theorem split_file_keeps_higher_fragments :
  exists w' k,
    split_file filepath filesize buf_size w = (Ok D, w') /\
    num_splits filesize = Ok k /\
    forall i, i < 0 \/ k <= i ->
      fs w' !! split_path_of D i = fs w !! split_path_of D i.
Proof.
  destruct outcome as (w' & k & Hrun & Hk & _ & _ & Hframe & _).
  exists w', k. split; [exact Hrun|]. split; [exact Hk|].
  intros i Hi. apply Hframe.
  - apply split_path_not_dir.
  - intros j Hj E. apply split_path_inj in E. lia.
Qed.

(** X11: a call appends one line per fragment to what was printed
    before, in the order of the fragments.  Line [j] (from [0]) names
    fragment [j + 1] of the count, the bytes copied so far (the input up
    to the end of fragment [j]), [filesize] and the file name of the
    input; its progress value is the float quotient of the bytes by
    [filesize]; the elapsed time is the difference between the clock
    reading taken for this line and the one of line 71; and it ends
    with a carriage return as long as the bytes are fewer than
    [filesize], with a newline otherwise. *)
Theorem split_file_lines :
  exists w' k,
    split_file filepath filesize buf_size w = (Ok D, w') /\
    num_splits filesize = Ok k /\
    length (stdout w') = (length (stdout w) + Z.to_nat k)%nat /\
    take (length (stdout w)) (stdout w') = stdout w /\
    forall j, (j < Z.to_nat k)%nat ->
      exists r,
        stdout w' !! (length (stdout w) + j)%nat = Some r /\
        rep_index r = Z.of_nat j + 1 /\ rep_num_splits r = k /\
        rep_bytes r =
          Z.min (Z.of_nat (length data)) ((Z.of_nat j + 1) * span) /\
        rep_filesize r = filesize /\ rep_filename r = basename filepath /\
        truediv (rep_bytes r) filesize = Ok (rep_progress r) /\
        rep_elapsed r =
          strftime_HMS
            ((clock w (S (clock_reads w) + j) - clock w (clock_reads w))
             / 1000000) /\
        rep_end r = (if rep_bytes r <? filesize then CR else LF).
Proof.
  destruct outcome as (w' & k & Hrun & Hk & _ & _ & _ & _ & Hlen & Hpre & Hrep).
  exists w', k. split; [exact Hrun|]. split; [exact Hk|].
  split; [exact Hlen|]. split; [exact Hpre|].
  intros j Hj. specialize (Hrep j Hj). cbv zeta in Hrep.
  pose proof (stride_span buf_size buf_pos) as HT.
  assert (Ht : Z.of_nat (Nat.min (length data)
                           (S j * stride MAX_SPLIT_SIZE buf_size)) =
               Z.min (Z.of_nat (length data)) ((Z.of_nat j + 1) * span)).
  { rewrite Nat2Z.inj_min, Nat2Z.inj_mul, HT, Nat2Z.inj_succ.
    by rewrite <- Z.add_1_r. }
  rewrite Ht in Hrep. clear Ht.
  set (t := Z.min (Z.of_nat (length data)) ((Z.of_nat j + 1) * span)) in *.
  assert (Hfs : filesize <> 0).
  { intros ->. change (num_splits 0) with (Ok (A:=Z) 0) in Hk.
    injection Hk as <-. cbn in Hj. lia. }
  pose proof (fragment_span_nonneg MAX_SPLIT_SIZE buf_size 0 buf_pos) as H0.
  destruct (truediv_le_one t filesize) as [x Hx]; [nia|lia|].
  eexists. split; [exact Hrep|].
  cbn [rep_index rep_num_splits rep_bytes rep_filesize rep_filename
       rep_progress rep_elapsed rep_end].
  split; [done|]. split; [done|]. split; [done|]. split; [done|].
  split; [done|]. split; [|done].
  unfold progress_of. by rewrite Hx.
Qed.

End Call.

Lemma practical_range filesize :
  0 <= filesize <= 2 ^ 22 * MAX_SPLIT_SIZE ->
  0 <= filesize < 2 ^ 1023 * MAX_SPLIT_SIZE.
Proof.
  intros H. split; [lia|].
  assert (2 ^ 22 * MAX_SPLIT_SIZE < 2 ^ 1023 * MAX_SPLIT_SIZE); [|lia].
  apply Z.mul_lt_mono_pos_r; [done|]. apply Z.pow_lt_mono_r; lia.
Qed.

(** X14: a second call with the same arguments, right after a call
    that returned, returns as well and leaves every file and directory
    as the first call left it: the directory is made only if it is not
    there, and each fragment is opened for writing anew (line 83), not
    appended to. *)
Theorem split_file_rerun filepath filesize buf_size w data :
  0 < buf_size ->
  0 <= filesize < 2 ^ 1023 * MAX_SPLIT_SIZE ->
  fs w !! filepath = Some (File data) ->
  Z.of_nat (length data) <= filesize ->
  (forall d, fs w !! split_dir_of filepath <> Some (File d)) ->
  (forall i, fs w !! split_path_of (split_dir_of filepath) i <> Some Dir) ->
  exists w1 w2,
    split_file filepath filesize buf_size w = (Ok (split_dir_of filepath), w1) /\
    split_file filepath filesize buf_size w1 = (Ok (split_dir_of filepath), w2) /\
    fs w2 = fs w1.
Proof.
  intros Hb Hsz Hin Hlen Hd Hn. set (D := split_dir_of filepath) in *.
  destruct (split_file_outcome filepath filesize buf_size w data Hb Hsz Hin
              Hlen Hd Hn)
    as (w1 & k & Hrun1 & Hk1 & HD1 & Hfrag1 & Hframe1 & _).
  fold D in Hrun1, HD1, Hfrag1, Hframe1.
  assert (Hin1 : fs w1 !! filepath = Some (File data)).
  { rewrite Hframe1; [done|apply not_eq_sym, split_dir_fresh|].
    intros j _. apply not_eq_sym, split_path_fresh. }
  assert (Hd1 : forall d, fs w1 !! D <> Some (File d)) by (by rewrite HD1).
  assert (Hn1 : forall i, fs w1 !! split_path_of D i <> Some Dir).
  { intros i. destruct (decide (0 <= i < k)) as [Hi|Hi].
    - specialize (Hfrag1 (Z.to_nat i) ltac:(lia)).
      rewrite Z2Nat.id in Hfrag1 by lia. by rewrite Hfrag1.
    - rewrite Hframe1; [apply Hn|apply split_path_not_dir|].
      intros j Hj E. apply split_path_inj in E. lia. }
  destruct (split_file_outcome filepath filesize buf_size w1 data Hb Hsz Hin1
              Hlen Hd1 Hn1)
    as (w2 & k2 & Hrun2 & Hk2 & HD2 & Hfrag2 & Hframe2 & _).
  fold D in Hrun2, HD2, Hfrag2, Hframe2.
  assert (k2 = k) as -> by congruence.
  exists w1, w2. split; [exact Hrun1|]. split; [exact Hrun2|].
  apply map_eq. intros key.
  destruct (decide (key = D)) as [->|HneD]; [by rewrite HD1, HD2|].
  destruct (fragment_path_dec filepath key) as [[i ->]|Hne].
  - fold D. destruct (decide (0 <= i < k)) as [Hi|Hi].
    + specialize (Hfrag1 (Z.to_nat i) ltac:(lia)).
      specialize (Hfrag2 (Z.to_nat i) ltac:(lia)).
      rewrite Z2Nat.id in Hfrag1, Hfrag2 by lia. by rewrite Hfrag1, Hfrag2.
    + apply Hframe2; [done|]. intros j Hj E. apply split_path_inj in E. lia.
  - apply Hframe2; [done|]. intros j _. apply Hne.
Qed.

Lemma split_file_rerun_witness :
  exists w1 w2,
    split_file "d/a.bin" 3 THIRTY_TWO_KB small_world =
      (Ok (split_dir_of "d/a.bin"), w1) /\
    split_file "d/a.bin" 3 THIRTY_TWO_KB w1 =
      (Ok (split_dir_of "d/a.bin"), w2) /\
    fs w2 = fs w1.
Proof.
  apply (split_file_rerun "d/a.bin" 3 THIRTY_TWO_KB small_world
           [x01; x02; x03]).
  - reflexivity.
  - split; vm_compute; [discriminate|reflexivity].
  - reflexivity.
  - vm_compute. discriminate.
  - exact small_dir_free.
  - exact small_names_free.
Defined.

End CallExtras.

Module CallWitnesses.
Import PyNum PyNumFacts PyStr OsPath Runtime Chunks CallFacts CallExtras Inputs.

Lemma split_file_fragments_witness :
  exists w' k,
    split_file "d/a.bin" 3 THIRTY_TWO_KB small_world =
      (Ok (split_dir_of "d/a.bin"), w') /\
    num_splits 3 = Ok k /\
    MAX_SPLIT_SIZE <= fragment_span MAX_SPLIT_SIZE THIRTY_TWO_KB 0
      < MAX_SPLIT_SIZE + THIRTY_TWO_KB /\
    (THIRTY_TWO_KB | fragment_span MAX_SPLIT_SIZE THIRTY_TWO_KB 0) /\
    forall j, 0 <= j < k ->
      fs w' !! split_path_of (split_dir_of "d/a.bin") j =
        Some (File (take (Z.to_nat (fragment_span MAX_SPLIT_SIZE THIRTY_TWO_KB 0))
                      (drop (Z.to_nat
                               (j * fragment_span MAX_SPLIT_SIZE THIRTY_TWO_KB 0))
                         [x01; x02; x03]))).
Proof.
  apply (split_file_fragments "d/a.bin" 3 THIRTY_TWO_KB small_world
           [x01; x02; x03]).
  - reflexivity.
  - split; vm_compute; [discriminate|reflexivity].
  - reflexivity.
  - vm_compute. discriminate.
  - exact small_dir_free.
  - exact small_names_free.
Defined.

Lemma split_file_keeps_higher_fragments_witness :
  exists w' k,
    split_file "d/a.bin" 3 THIRTY_TWO_KB small_world =
      (Ok (split_dir_of "d/a.bin"), w') /\
    num_splits 3 = Ok k /\
    forall i, i < 0 \/ k <= i ->
      fs w' !! split_path_of (split_dir_of "d/a.bin") i =
      fs small_world !! split_path_of (split_dir_of "d/a.bin") i.
Proof.
  apply (split_file_keeps_higher_fragments "d/a.bin" 3 THIRTY_TWO_KB
           small_world [x01; x02; x03]).
  - reflexivity.
  - split; vm_compute; [discriminate|reflexivity].
  - reflexivity.
  - vm_compute. discriminate.
  - exact small_dir_free.
  - exact small_names_free.
Defined.

Lemma split_file_lines_witness :
  exists w' k,
    split_file "d/a.bin" 3 THIRTY_TWO_KB small_world =
      (Ok (split_dir_of "d/a.bin"), w') /\
    num_splits 3 = Ok k /\
    length (stdout w') = (length (stdout small_world) + Z.to_nat k)%nat /\
    take (length (stdout small_world)) (stdout w') = stdout small_world /\
    forall j, (j < Z.to_nat k)%nat ->
      exists r,
        stdout w' !! (length (stdout small_world) + j)%nat = Some r /\
        rep_index r = Z.of_nat j + 1 /\ rep_num_splits r = k /\
        rep_bytes r =
          Z.min (Z.of_nat (length [x01; x02; x03]))
            ((Z.of_nat j + 1) * fragment_span MAX_SPLIT_SIZE THIRTY_TWO_KB 0) /\
        rep_filesize r = 3 /\ rep_filename r = basename "d/a.bin" /\
        truediv (rep_bytes r) 3 = Ok (rep_progress r) /\
        rep_elapsed r =
          strftime_HMS
            ((clock small_world (S (clock_reads small_world) + j) -
              clock small_world (clock_reads small_world)) / 1000000) /\
        rep_end r = (if rep_bytes r <? 3 then CR else LF).
Proof.
  apply (split_file_lines "d/a.bin" 3 THIRTY_TWO_KB small_world
           [x01; x02; x03]).
  - reflexivity.
  - split; vm_compute; [discriminate|reflexivity].
  - reflexivity.
  - vm_compute. discriminate.
  - exact small_dir_free.
  - exact small_names_free.
Defined.

End CallWitnesses.

Module PracticalExtras.
Import PyNum PyNumFacts PyStr OsPath Runtime Chunks CopyFacts RunFacts.
Import LayoutFacts CallFacts CallExtras Inputs.

(** X9: the round trip.  For a file of up to [2^22 * MAX_SPLIT_SIZE]
    bytes whose size is passed as [filesize], and any [buf_size > 0],
    the call returns, and the fragments [00], [01], ... up to the count
    of line 59, read back and put together in that order, are the input
    byte for byte. *)
Theorem split_file_reassembles filepath buf_size w data :
  0 < buf_size ->
  fs w !! filepath = Some (File data) ->
  Z.of_nat (length data) <= 2 ^ 22 * MAX_SPLIT_SIZE ->
  (forall d, fs w !! split_dir_of filepath <> Some (File d)) ->
  (forall i, fs w !! split_path_of (split_dir_of filepath) i <> Some Dir) ->
  exists w' k,
    split_file filepath (Z.of_nat (length data)) buf_size w =
      (Ok (split_dir_of filepath), w') /\
    num_splits (Z.of_nat (length data)) = Ok k /\
    reassemble (fs w') (split_dir_of filepath) (Z.to_nat k) = data.
Proof.
  intros Hb Hin Hr Hd Hn.
  destruct (PracticalRange.split_file_roundtrip filepath
              (Z.of_nat (length data)) buf_size w data Hb Hin eq_refl Hr Hd Hn)
    as (w' & Hrun & Hre & _).
  exists w', (ceil_div (Z.of_nat (length data)) MAX_SPLIT_SIZE).
  split; [exact Hrun|]. split; [apply num_splits_exact; lia|exact Hre].
Qed.

Lemma split_file_reassembles_witness :
  exists w' k,
    split_file "d/a.bin" (Z.of_nat (length [x01; x02; x03])) THIRTY_TWO_KB
      small_world = (Ok (split_dir_of "d/a.bin"), w') /\
    num_splits (Z.of_nat (length [x01; x02; x03])) = Ok k /\
    reassemble (fs w') (split_dir_of "d/a.bin") (Z.to_nat k) = [x01; x02; x03].
Proof.
  apply (split_file_reassembles "d/a.bin" THIRTY_TWO_KB small_world
           [x01; x02; x03]).
  - reflexivity.
  - reflexivity.
  - vm_compute. discriminate.
  - exact small_dir_free.
  - exact small_names_free.
Defined.

(** X8: when [buf_size] divides [MAX_SPLIT_SIZE], as the default of
    32 KiB does, and the file has up to [2^22 * MAX_SPLIT_SIZE] bytes,
    fragment [j] holds [MAX_SPLIT_SIZE] bytes or what is left of the
    input behind [j * MAX_SPLIT_SIZE], whichever is less; no fragment is
    empty. *)
Theorem split_file_sizes filepath buf_size w data :
  0 < buf_size -> (buf_size | MAX_SPLIT_SIZE) ->
  fs w !! filepath = Some (File data) ->
  Z.of_nat (length data) <= 2 ^ 22 * MAX_SPLIT_SIZE ->
  (forall d, fs w !! split_dir_of filepath <> Some (File d)) ->
  (forall i, fs w !! split_path_of (split_dir_of filepath) i <> Some Dir) ->
  exists w' k,
    split_file filepath (Z.of_nat (length data)) buf_size w =
      (Ok (split_dir_of filepath), w') /\
    num_splits (Z.of_nat (length data)) = Ok k /\
    forall j, 0 <= j < k ->
      exists fragment,
        fs w' !! split_path_of (split_dir_of filepath) j =
          Some (File fragment) /\
        Z.of_nat (length fragment) =
          Z.min MAX_SPLIT_SIZE (Z.of_nat (length data) - j * MAX_SPLIT_SIZE) /\
        0 < Z.of_nat (length fragment).
Proof.
  intros Hb Hdiv Hin Hr Hd Hn.
  destruct (PracticalRange.split_file_fragment_sizes filepath
              (Z.of_nat (length data)) buf_size w data Hb Hin eq_refl Hr Hd Hn
              Hdiv)
    as (w' & Hrun & Hfrag).
  pose proof (ceil_div_bounds (Z.of_nat (length data)) MAX_SPLIT_SIZE
                ltac:(done)) as Hk.
  pose proof (num_splits_exact (Z.of_nat (length data)) ltac:(lia)) as Hnum.
  remember (ceil_div (Z.of_nat (length data)) MAX_SPLIT_SIZE) as k eqn:Ek.
  clear Ek.
  exists w', k. split; [exact Hrun|]. split; [exact Hnum|].
  intros j Hj.
  destruct (Hfrag (Z.to_nat j) ltac:(lia))
    as (fragment & Hl & _ & Hle & Hfull & Hlast).
  rewrite Z2Nat.id in Hl, Hfull, Hlast by lia.
  exists fragment. split; [exact Hl|].
  unfold len in Hle, Hfull, Hlast.
  clear Hl Hfrag Hrun Hnum Hin Hd Hn Hr Hdiv.
  remember (Z.of_nat (length fragment)) as f eqn:Ef. clear Ef.
  remember (Z.of_nat (length data)) as l eqn:El. clear El.
  revert Hk Hle Hfull Hlast.
  change MAX_SPLIT_SIZE with 4294901760. intros Hk Hle Hfull Hlast.
  destruct (Z.lt_ge_cases j (k - 1)) as [Hc|Hc].
  - specialize (Hfull Hc). lia.
  - assert (Hjk : j = k - 1) by lia. specialize (Hlast Hjk). lia.
Qed.

Lemma split_file_sizes_witness :
  exists w' k,
    split_file "d/a.bin" (Z.of_nat (length [x01; x02; x03])) THIRTY_TWO_KB
      small_world = (Ok (split_dir_of "d/a.bin"), w') /\
    num_splits (Z.of_nat (length [x01; x02; x03])) = Ok k /\
    forall j, 0 <= j < k ->
      exists fragment,
        fs w' !! split_path_of (split_dir_of "d/a.bin") j =
          Some (File fragment) /\
        Z.of_nat (length fragment) =
          Z.min MAX_SPLIT_SIZE
            (Z.of_nat (length [x01; x02; x03]) - j * MAX_SPLIT_SIZE) /\
        0 < Z.of_nat (length fragment).
Proof.
  apply (split_file_sizes "d/a.bin" THIRTY_TWO_KB small_world [x01; x02; x03]).
  - reflexivity.
  - by exists 131070.
  - reflexivity.
  - vm_compute. discriminate.
  - exact small_dir_free.
  - exact small_names_free.
Defined.

(** X10: under the same conditions, on a file that is not empty, line
    [j] reports the bytes up to the end of fragment [j], and the line of
    the last fragment is the one line that ends with a newline: every
    line before it ends with a carriage return. *)
Theorem split_file_line_ends filepath buf_size w data :
  0 < buf_size -> (buf_size | MAX_SPLIT_SIZE) ->
  fs w !! filepath = Some (File data) ->
  0 < Z.of_nat (length data) <= 2 ^ 22 * MAX_SPLIT_SIZE ->
  (forall d, fs w !! split_dir_of filepath <> Some (File d)) ->
  (forall i, fs w !! split_path_of (split_dir_of filepath) i <> Some Dir) ->
  exists w' k,
    split_file filepath (Z.of_nat (length data)) buf_size w =
      (Ok (split_dir_of filepath), w') /\
    num_splits (Z.of_nat (length data)) = Ok k /\ 0 < k /\
    length (stdout w') = (length (stdout w) + Z.to_nat k)%nat /\
    forall j r,
      stdout w' !! (length (stdout w) + j)%nat = Some r ->
      rep_bytes r =
        Z.min (Z.of_nat (length data)) ((Z.of_nat j + 1) * MAX_SPLIT_SIZE) /\
      rep_end r = (if Z.of_nat j + 1 <? k then CR else LF).
Proof.
  intros Hb Hdiv Hin Hr Hd Hn.
  destruct (split_file_lines filepath (Z.of_nat (length data)) buf_size w data
              Hb (practical_range (Z.of_nat (length data)) ltac:(lia)) Hin
              ltac:(lia) Hd Hn)
    as (w' & k & Hrun & Hk & Hlen & _ & Hrep).
  rewrite (fragment_span_divides MAX_SPLIT_SIZE buf_size Hb ltac:(done) Hdiv)
    in Hrep.
  destruct (num_splits_ceiling (Z.of_nat (length data)) ltac:(lia))
    as (k' & Hk' & Hk0 & Hkb).
  assert (k' = k) as -> by congruence.
  exists w', k. split; [exact Hrun|]. split; [exact Hk|].
  assert (Hkpos : 0 < k).
  { revert Hr Hkb. change MAX_SPLIT_SIZE with 4294901760. lia. }
  split; [exact Hkpos|]. split; [exact Hlen|].
  intros j r Hjr.
  assert (Hj : (j < Z.to_nat k)%nat).
  { apply lookup_lt_Some in Hjr. lia. }
  destruct (Hrep j Hj) as (r' & Hjr' & _ & _ & Hbytes & _ & _ & _ & _ & Hend).
  assert (r' = r) as -> by congruence.
  split; [exact Hbytes|]. rewrite Hend, Hbytes.
  clear Hrep Hjr Hjr' Hbytes Hend Hrun Hk Hk' Hlen Hin Hd Hn Hdiv.
  remember (Z.of_nat (length data)) as l eqn:El. clear El.
  assert (HjZ : 0 <= Z.of_nat j < k) by lia.
  remember (Z.of_nat j) as i eqn:Ei. clear Ei Hj.
  revert Hr Hkb. change MAX_SPLIT_SIZE with 4294901760. intros Hr Hkb.
  destruct (Z.ltb_spec (i + 1) k) as [Hc|Hc].
  - destruct (Z.ltb_spec (Z.min l ((i + 1) * 4294901760)) l); [done|lia].
  - destruct (Z.ltb_spec (Z.min l ((i + 1) * 4294901760)) l); [lia|done].
Qed.

Lemma split_file_line_ends_witness :
  exists w' k,
    split_file "d/a.bin" (Z.of_nat (length [x01; x02; x03])) THIRTY_TWO_KB
      small_world = (Ok (split_dir_of "d/a.bin"), w') /\
    num_splits (Z.of_nat (length [x01; x02; x03])) = Ok k /\ 0 < k /\
    length (stdout w') = (length (stdout small_world) + Z.to_nat k)%nat /\
    forall j r,
      stdout w' !! (length (stdout small_world) + j)%nat = Some r ->
      rep_bytes r =
        Z.min (Z.of_nat (length [x01; x02; x03]))
          ((Z.of_nat j + 1) * MAX_SPLIT_SIZE) /\
      rep_end r = (if Z.of_nat j + 1 <? k then CR else LF).
Proof.
  apply (split_file_line_ends "d/a.bin" THIRTY_TWO_KB small_world
           [x01; x02; x03]).
  - reflexivity.
  - by exists 131070.
  - reflexivity.
  - split; vm_compute; [reflexivity|discriminate].
  - exact small_dir_free.
  - exact small_names_free.
Defined.

(** X12: [filesize] is taken on trust.  When the file holds fewer bytes
    than the [filesize] passed (at most [2^22 * MAX_SPLIT_SIZE]), the
    call still copies the whole file into the fragments, but every line
    it prints reports fewer bytes than [filesize] and ends with a
    carriage return: no line is ended by a newline. *)
Theorem split_file_short_input filepath filesize buf_size w data :
  0 < buf_size ->
  fs w !! filepath = Some (File data) ->
  Z.of_nat (length data) < filesize <= 2 ^ 22 * MAX_SPLIT_SIZE ->
  (forall d, fs w !! split_dir_of filepath <> Some (File d)) ->
  (forall i, fs w !! split_path_of (split_dir_of filepath) i <> Some Dir) ->
  exists w' k,
    split_file filepath filesize buf_size w =
      (Ok (split_dir_of filepath), w') /\
    num_splits filesize = Ok k /\
    reassemble (fs w') (split_dir_of filepath) (Z.to_nat k) = data /\
    forall r, r ∈ drop (length (stdout w)) (stdout w') ->
      rep_bytes r < filesize /\ rep_end r = CR.
Proof.
  intros Hb Hin Hr Hd Hn.
  destruct (split_file_outcome filepath filesize buf_size w data Hb
              (practical_range filesize ltac:(lia)) Hin ltac:(lia) Hd Hn)
    as (w' & k & Hrun & Hk & _ & _ & _ & Hre & Hlen & _ & Hrep).
  destruct (num_splits_ceiling filesize ltac:(lia)) as (k' & Hk' & Hk0 & Hkb).
  assert (k' = k) as -> by congruence.
  exists w', k. split; [exact Hrun|]. split; [exact Hk|]. split.
  - rewrite Hre. apply take_ge.
    pose proof (stride_span buf_size Hb) as HT.
    pose proof (fragment_span_bounds MAX_SPLIT_SIZE buf_size Hb ltac:(done))
      as [HS _].
    remember (stride MAX_SPLIT_SIZE buf_size) as T eqn:ET. clear ET.
    apply Nat2Z.inj_le. rewrite Nat2Z.inj_mul, Z2Nat.id by lia.
    assert (k * MAX_SPLIT_SIZE <= k * Z.of_nat T)
      by (apply Z.mul_le_mono_nonneg_l; lia).
    lia.
  - intros r Hin_r. apply list_elem_of_lookup in Hin_r as [j Hj].
    rewrite lookup_drop in Hj.
    assert (Hjk : (j < Z.to_nat k)%nat).
    { apply lookup_lt_Some in Hj. lia. }
    specialize (Hrep j Hjk). cbv zeta in Hrep.
    rewrite Hrep in Hj. injection Hj as <-. cbn [rep_bytes rep_end].
    match goal with
    | |- ?t < _ /\ _ => assert (Ht : t < filesize) by lia
    end.
    split; [exact Ht|]. by apply Z.ltb_lt in Ht as ->.
Qed.

Lemma split_file_short_input_witness :
  exists w' k,
    split_file "d/a.bin" 5 THIRTY_TWO_KB small_world =
      (Ok (split_dir_of "d/a.bin"), w') /\
    num_splits 5 = Ok k /\
    reassemble (fs w') (split_dir_of "d/a.bin") (Z.to_nat k) = [x01; x02; x03] /\
    forall r, r ∈ drop (length (stdout small_world)) (stdout w') ->
      rep_bytes r < 5 /\ rep_end r = CR.
Proof.
  apply (split_file_short_input "d/a.bin" 5 THIRTY_TWO_KB small_world
           [x01; x02; x03]).
  - reflexivity.
  - reflexivity.
  - split; vm_compute; [reflexivity|discriminate].
  - exact small_dir_free.
  - exact small_names_free.
Defined.

End PracticalExtras.

(** ** A directory in the way of a fragment *)

Module BlockedFacts.
Import PyNum PyNumFacts Runtime Chunks CopyFacts RunFacts LayoutFacts.

Section Blocked.

Variables (max_split_size buf_size : Z) (data : list byte).
Variables (filepath filename split_dir : string).
Variables (filesize num_splits start_time : Z).
Hypothesis buf_pos : 0 < buf_size.
Hypothesis filesize_pos : 0 < filesize.
Hypothesis no_alias : forall i, split_path_of split_dir i <> filepath.
Hypothesis path_inj :
  forall i j, split_path_of split_dir i = split_path_of split_dir j -> i = j.

(** One turn of the loop over the fragments. *)
Lemma split_loop_step n split pos total w :
  fs w !! filepath = Some (File data) ->
  fs w !! split_path_of split_dir split <> Some Dir ->
  0 <= total -> total + Z.of_nat (length data - pos) <= filesize ->
  let c := taken max_split_size buf_size 0 (length data - pos) in
  let total' := total + Z.of_nat c in
  split_loop max_split_size (S n) split filepath filename split_dir filesize
    buf_size num_splits start_time pos total w =
  split_loop max_split_size n (split + 1) filepath filename split_dir filesize
    buf_size num_splits start_time (pos + c) total'
    (World
       (<[split_path_of split_dir split := File (take c (drop pos data))]>
          (fs w))
       (stdout w ++
        [Report (strftime_HMS ((clock w (clock_reads w) - start_time) / 1000000))
           (split + 1) num_splits (progress_of total' filesize) total'
           filesize filename (if total' <? filesize then CR else LF)])
       (clock w) (S (clock_reads w))).
Proof.
  intros Hin Hdir Htot Hsz c total'. subst total'.
  cbn [split_loop].
  set (path := split_path_of split_dir split) in *.
  assert (Hc : (c <= length data - pos)%nat) by apply taken_le.
  unfold bind at 1. unfold open_wb at 1.
  assert (Hw : (match fs w !! path with
                | Some Dir => (Raise IsADirectoryError, w)
                | _ => (Ok tt, set_fs (<[path := File []]> (fs w)) w)
                end) = (Ok tt, set_fs (<[path := File []]> (fs w)) w)).
  { destruct (fs w !! path) as [[|]|]; done. }
  rewrite Hw. clear Hw.
  set (w1 := set_fs (<[path := File []]> (fs w)) w).
  assert (Hin1 : fs w1 !! filepath = Some (File data)).
  { cbn. rewrite lookup_insert_ne; [done|apply no_alias]. }
  unfold bind at 1. unfold bytes_left at 1.
  rewrite (contents_file _ _ _ Hin1).
  unfold bind at 1.
  rewrite (copy_loop_run max_split_size buf_size filepath path data buf_pos
             (not_eq_sym (no_alias split)) _ w1 pos 0 total [] Hin1);
    [|cbn; by rewrite lookup_insert_eq|lia].
  fold c. rewrite app_nil_l.
  unfold format_elapsed_time. unfold bind at 1. unfold bind at 1.
  unfold time_time at 1. unfold ret at 1.
  destruct (truediv_le_one (total + Z.of_nat c) filesize) as [x Hx];
    [lia|done|].
  unfold bind at 1. unfold lift at 1. rewrite Hx.
  unfold bind at 1. unfold print at 1.
  cbn [fs stdout clock clock_reads set_fs w1].
  rewrite insert_insert_eq.
  unfold progress_of. rewrite Hx. reflexivity.
Qed.

(** A directory at the path of fragment [split + j] stops the loop in
    its turn [j], with the fragments and lines of the turns before it
    done. *)
Lemma split_loop_blocked j :
  forall n split pos total w,
  (j < n)%nat ->
  fs w !! filepath = Some (File data) ->
  (forall i, split <= i < split + Z.of_nat j ->
     fs w !! split_path_of split_dir i <> Some Dir) ->
  fs w !! split_path_of split_dir (split + Z.of_nat j) = Some Dir ->
  0 <= total -> total + Z.of_nat (length data - pos) <= filesize ->
  split_loop max_split_size n split filepath filename split_dir filesize
    buf_size num_splits start_time pos total w =
  (Raise IsADirectoryError,
   World
     (fragments_written max_split_size buf_size data split_dir j split pos
        (fs w))
     (stdout w ++
      reports_printed max_split_size buf_size data filename filesize
        num_splits start_time (clock w) j split pos total (clock_reads w))
     (clock w) (clock_reads w + j)).
Proof.
  induction j as [|j IH]; intros n split pos total w Hj Hin Hfree Hdir Htot Hsz;
    (destruct n as [|n]; [lia|]).
  - cbn [split_loop fragments_written reports_printed].
    rewrite Z.add_0_r in Hdir.
    unfold bind at 1. unfold open_wb at 1. rewrite Hdir.
    rewrite app_nil_r, Nat.add_0_r. by destruct w.
  - rewrite split_loop_step; [|done|apply Hfree; lia|done|done].
    cbv zeta.
    set (c := taken max_split_size buf_size 0 (length data - pos)).
    assert (Hc : (c <= length data - pos)%nat) by apply taken_le.
    rewrite IH.
    + cbn [fs stdout clock clock_reads fragments_written reports_printed].
      fold c. f_equal. f_equal; [by rewrite <- app_assoc|lia].
    + lia.
    + cbn [fs]. rewrite lookup_insert_ne; [done|apply no_alias].
    + intros i Hi. cbn [fs].
      destruct (decide (split_path_of split_dir split =
                        split_path_of split_dir i)) as [<-|Hne].
      * by rewrite lookup_insert_eq.
      * rewrite lookup_insert_ne by done. apply Hfree. lia.
    + cbn [fs]. rewrite lookup_insert_ne.
      * by replace (split + 1 + Z.of_nat j) with (split + Z.of_nat (S j))
          by lia.
      * intros E. apply path_inj in E. lia.
    + lia.
    + replace (length data - (pos + c))%nat with (length data - pos - c)%nat
        by lia. lia.
Qed.

End Blocked.

End BlockedFacts.

Module ObstacleExtras.
Import PyNum PyNumFacts PyStr OsPath Runtime Chunks CopyFacts RunFacts.
Import LayoutFacts DivisionFacts CallFacts BlockedFacts FailureExtras.
Import Inputs Obstacles.

(** X5: when a directory sits at the path of fragment [j], the call
    fails there with [IsADirectoryError] (the [open] of line 83) and
    undoes nothing: the split directory and the fragments before [j]
    stay as written, each a full stretch of the input, and the [j]
    lines of these fragments have been printed. *)
Theorem split_file_fragment_blocked filepath filesize buf_size w data k j :
  0 < buf_size ->
  0 < filesize < 2 ^ 1023 * MAX_SPLIT_SIZE ->
  fs w !! filepath = Some (File data) ->
  Z.of_nat (length data) <= filesize ->
  (forall d, fs w !! split_dir_of filepath <> Some (File d)) ->
  num_splits filesize = Ok k ->
  0 <= j < k ->
  (forall i, 0 <= i < j ->
     fs w !! split_path_of (split_dir_of filepath) i <> Some Dir) ->
  fs w !! split_path_of (split_dir_of filepath) j = Some Dir ->
  exists w',
    split_file filepath filesize buf_size w = (Raise IsADirectoryError, w') /\
    fs w' !! split_dir_of filepath = Some Dir /\
    (forall i, 0 <= i < j ->
       fs w' !! split_path_of (split_dir_of filepath) i =
         Some (File (take (Z.to_nat (fragment_span MAX_SPLIT_SIZE buf_size 0))
                       (drop (Z.to_nat
                                (i * fragment_span MAX_SPLIT_SIZE buf_size 0))
                          data)))) /\
    fs w' !! split_path_of (split_dir_of filepath) j = Some Dir /\
    fs w' !! filepath = Some (File data) /\
    length (stdout w') = (length (stdout w) + Z.to_nat j)%nat.
Proof.
  intros Hb Hsz Hin Hlen Hd Hk Hj Hfree Hdir.
  set (D := split_dir_of filepath) in *.
  destruct (truediv_defined filesize MAX_SPLIT_SIZE) as [x Hx]; [done| |].
  { rewrite Z.abs_eq by lia. change (Z.abs MAX_SPLIT_SIZE) with MAX_SPLIT_SIZE.
    lia. }
  assert (Hkx : k = math_ceil x).
  { unfold num_splits, num_splits_at in Hk. rewrite Hx in Hk. congruence. }
  subst k.
  unfold split_file, split_file_at, num_splits_at. unfold bind at 1.
  unfold lift at 1. rewrite Hx.
  unfold bind at 1. unfold os_makedirs at 1. fold D.
  set (w1 := set_fs (<[D := Dir]> (fs w)) w).
  assert (Hmk : (match fs w !! D with
                 | Some (File _) => (Raise FileExistsError, w)
                 | Some Dir => (Ok tt, w)
                 | None => (Ok tt, w1)
                 end) = (Ok tt, w1)).
  { unfold w1. destruct (fs w !! D) as [[d|]|] eqn:E;
      [by destruct (Hd d)| |done].
    by rewrite (insert_id _ _ _ E), set_fs_id. }
  rewrite Hmk. clear Hmk.
  assert (Hin1 : fs w1 !! filepath = Some (File data)).
  { cbn. rewrite lookup_insert_ne; [done|apply split_dir_fresh]. }
  unfold bind at 1. unfold time_time at 1.
  unfold bind at 1. unfold open_rb at 1. cbn [fs]. cbn [fs] in Hin1.
  rewrite Hin1.
  unfold bind at 1.
  rewrite (split_loop_blocked MAX_SPLIT_SIZE buf_size data filepath
             (basename filepath) D filesize (math_ceil x)
             (clock w (clock_reads w)) Hb ltac:(lia)
             (split_path_fresh filepath) (split_path_inj filepath)
             (Z.to_nat j)); subst w1; cbn [fs stdout clock clock_reads set_fs].
  - eexists. split; [reflexivity|]. cbn [fs stdout].
    assert (Hframe : forall key,
      (forall i, (i < Z.to_nat j)%nat -> key <> split_path_of D (Z.of_nat i)) ->
      fragments_written MAX_SPLIT_SIZE buf_size data D (Z.to_nat j) 0 0
        (<[D := Dir]> (fs w)) !! key = <[D := Dir]> (fs w) !! key).
    { intros key Hkey. apply fragments_written_frame. intros i Hi.
      rewrite Z.add_0_l. by apply Hkey. }
    pose proof (fragment_span_nonneg MAX_SPLIT_SIZE buf_size 0 Hb) as H0.
    split; [|split; [|split; [|split]]].
    + rewrite Hframe; [apply lookup_insert_eq|].
      intros i _. apply not_eq_sym, split_path_not_dir.
    + intros i Hi.
      pose proof (fragments_written_lookup MAX_SPLIT_SIZE buf_size data D Hb
                    (split_path_inj filepath) (Z.to_nat j) 0 0
                    (<[D := Dir]> (fs w)) (Z.to_nat i) ltac:(lia)) as Hl.
      rewrite Z.add_0_l, Z2Nat.id in Hl by lia. rewrite Hl.
      unfold chunk, stride. rewrite drop_0.
      by rewrite Z2Nat.inj_mul by lia.
    + rewrite Hframe.
      * rewrite lookup_insert_ne; [done|]. apply not_eq_sym, split_path_not_dir.
      * intros i Hi E. apply split_path_inj in E. lia.
    + rewrite Hframe.
      * rewrite lookup_insert_ne; [done|]. apply split_dir_fresh.
      * intros i _. apply not_eq_sym, split_path_fresh.
    + by rewrite length_app, length_reports_printed.
  - lia.
  - done.
  - intros i Hi. rewrite lookup_insert_ne.
    + apply Hfree. lia.
    + apply not_eq_sym, split_path_not_dir.
  - rewrite Z.add_0_l, Z2Nat.id by lia.
    rewrite lookup_insert_ne; [done|]. apply not_eq_sym, split_path_not_dir.
  - lia.
  - rewrite Nat.sub_0_r. lia.
Qed.

Lemma split_file_fragment_blocked_witness :
  exists w',
    split_file "d/a.bin" 3 THIRTY_TWO_KB blocked_world =
      (Raise IsADirectoryError, w') /\
    fs w' !! split_dir_of "d/a.bin" = Some Dir /\
    (forall i, 0 <= i < 0 ->
       fs w' !! split_path_of (split_dir_of "d/a.bin") i =
         Some (File (take (Z.to_nat
                             (fragment_span MAX_SPLIT_SIZE THIRTY_TWO_KB 0))
                       (drop (Z.to_nat
                                (i * fragment_span MAX_SPLIT_SIZE
                                       THIRTY_TWO_KB 0))
                          [x01; x02; x03])))) /\
    fs w' !! split_path_of (split_dir_of "d/a.bin") 0 = Some Dir /\
    fs w' !! "d/a.bin" = Some (File [x01; x02; x03]) /\
    length (stdout w') = (length (stdout blocked_world) + Z.to_nat 0)%nat.
Proof.
  apply (split_file_fragment_blocked "d/a.bin" 3 THIRTY_TWO_KB blocked_world
           [x01; x02; x03] 1 0).
  - reflexivity.
  - split; vm_compute; reflexivity.
  - reflexivity.
  - vm_compute. discriminate.
  - intros d. vm_compute. discriminate.
  - reflexivity.
  - split; vm_compute; [discriminate|reflexivity].
  - intros i Hi. lia.
  - reflexivity.
Defined.

Lemma split_file_dir_taken_witness :
  split_file "d/a.bin" 3 THIRTY_TWO_KB taken_world =
    (Raise FileExistsError, taken_world).
Proof.
  apply (split_file_dir_taken "d/a.bin" 3 THIRTY_TWO_KB taken_world []).
  - vm_compute. reflexivity.
  - reflexivity.
Defined.

Lemma split_file_input_is_dir_witness :
  exists w',
    split_file "d/a.bin" 3 THIRTY_TWO_KB dir_world =
      (Raise IsADirectoryError, w') /\
    fs w' = <[split_dir_of "d/a.bin" := Dir]> (fs dir_world) /\
    stdout w' = stdout dir_world.
Proof.
  apply (split_file_input_is_dir "d/a.bin" 3 THIRTY_TWO_KB dir_world).
  - vm_compute. reflexivity.
  - reflexivity.
  - intros d. vm_compute. discriminate.
Defined.

(** The same at a threshold of four bytes with reads of two: fragment
    [00] is written, the directory at [01] stops the call, and the
    bytes from the fifth on are copied nowhere. *)
Example split_eleven_blocked :
  let (r, w') := split_file_at 4 "d/a.bin" 11 2 blocked_eleven_world in
  r = Raise IsADirectoryError /\
  fs w' !! "d/a.split.bin" = Some Dir /\
  fs w' !! "d/a.split.bin/00" = Some (File [x01; x02; x03; x04]) /\
  fs w' !! "d/a.split.bin/01" = Some Dir /\
  fs w' !! "d/a.split.bin/02" = None /\
  map rep_bytes (stdout w') = [4].
Proof. vm_compute. repeat split; reflexivity. Qed.

End ObstacleExtras.

(** ** Buffer sizes that are not positive *)

Module BufferFacts.
Import PyNum PyNumFacts OsPath Runtime Chunks CopyFacts LayoutFacts.

(** A call with an input to read and no file in the way of the split
    directory comes down to its loop over the fragments. *)
Lemma split_file_at_loop max_split_size filepath filesize buf_size w data x :
  truediv filesize max_split_size = Ok x ->
  fs w !! filepath = Some (File data) ->
  (forall d, fs w !! split_dir_of filepath <> Some (File d)) ->
  split_file_at max_split_size filepath filesize buf_size w =
  let (r, w') :=
    split_loop max_split_size (Z.to_nat (math_ceil x)) 0 filepath
      (basename filepath) (split_dir_of filepath) filesize buf_size
      (math_ceil x) (clock w (clock_reads w)) 0 0
      (World (<[split_dir_of filepath := Dir]> (fs w)) (stdout w) (clock w)
         (S (clock_reads w))) in
  (match r with
   | Ok _ => Ok (split_dir_of filepath)
   | Raise e => Raise e
   | OutOfFuel => OutOfFuel
   end, w').
Proof.
  intros Hx Hin Hdir.
  unfold split_file_at, num_splits_at. unfold bind at 1. unfold lift at 1.
  rewrite Hx.
  unfold bind at 1. unfold os_makedirs at 1.
  set (D := split_dir_of filepath) in *.
  set (w1 := set_fs (<[D := Dir]> (fs w)) w).
  assert (Hmk : (match fs w !! D with
                 | Some (File _) => (Raise FileExistsError, w)
                 | Some Dir => (Ok tt, w)
                 | None => (Ok tt, w1)
                 end) = (Ok tt, w1)).
  { unfold w1. destruct (fs w !! D) as [[d|]|] eqn:E;
      [by destruct (Hdir d)| |done].
    by rewrite (insert_id _ _ _ E), set_fs_id. }
  rewrite Hmk. clear Hmk.
  assert (Hin1 : fs w1 !! filepath = Some (File data)).
  { cbn. rewrite lookup_insert_ne; [done|apply split_dir_fresh]. }
  unfold bind at 1. unfold time_time at 1.
  unfold bind at 1. unfold open_rb at 1. cbn [fs]. cbn [fs] in Hin1.
  rewrite Hin1. subst w1. cbn [fs stdout clock clock_reads set_fs].
  unfold bind at 1.
  destruct (split_loop _ _ _ _ _ _ _ _ _ _ _ _ _) as [[u|e|] w']; done.
Qed.

Section Buffers.

Variables (max_split_size : Z) (data : list byte).
Variables (filepath filename split_dir : string).
Variables (filesize num_splits start_time : Z).
Hypothesis max_pos : 0 < max_split_size.
Hypothesis filesize_pos : 0 < filesize.
Hypothesis no_alias : forall i, split_path_of split_dir i <> filepath.
Hypothesis path_inj :
  forall i j, split_path_of split_dir i = split_path_of split_dir j -> i = j.

(** *** Reads of no byte *)

(** [read(0)] returns no byte, and the loop of a fragment stops at
    once. *)
Lemma copy_loop_zero fuel pos outfile bytes_written total w :
  copy_loop max_split_size (S fuel) filepath pos outfile 0 bytes_written
    total w = (Ok (pos, total), w).
Proof.
  cbn [copy_loop]. destruct (bytes_written <? max_split_size); [|done].
  unfold bind at 1. unfold file_read at 1. cbv beta zeta.
  change (0 <? 0) with false. cbv iota. change (Z.to_nat 0) with 0%nat.
  by rewrite take_0.
Qed.

Lemma split_loop_zero_step n split pos w :
  fs w !! split_path_of split_dir split <> Some Dir ->
  split_loop max_split_size (S n) split filepath filename split_dir filesize
    0 num_splits start_time pos 0 w =
  split_loop max_split_size n (split + 1) filepath filename split_dir filesize
    0 num_splits start_time pos 0
    (World (<[split_path_of split_dir split := File []]> (fs w))
       (stdout w ++
        [Report (strftime_HMS ((clock w (clock_reads w) - start_time) / 1000000))
           (split + 1) num_splits (Float 0 0) 0 filesize filename CR])
       (clock w) (S (clock_reads w))).
Proof.
  intros Hdir. cbn [split_loop].
  set (path := split_path_of split_dir split) in *.
  unfold bind at 1. unfold open_wb at 1.
  assert (Hw : (match fs w !! path with
                | Some Dir => (Raise IsADirectoryError, w)
                | _ => (Ok tt, set_fs (<[path := File []]> (fs w)) w)
                end) = (Ok tt, set_fs (<[path := File []]> (fs w)) w)).
  { destruct (fs w !! path) as [[|]|]; done. }
  rewrite Hw. clear Hw.
  unfold bind at 1. unfold bytes_left at 1.
  unfold bind at 1. rewrite copy_loop_zero.
  unfold format_elapsed_time. unfold bind at 1. unfold bind at 1.
  unfold time_time at 1. unfold ret at 1.
  assert (Hx : truediv 0 filesize = Ok (Float 0 0)).
  { unfold truediv. destruct (Z.eqb_spec filesize 0); [lia|done]. }
  unfold bind at 1. unfold lift at 1. rewrite Hx.
  unfold bind at 1. unfold print at 1.
  cbn [fs stdout clock clock_reads set_fs].
  destruct (Z.ltb_spec 0 filesize); [done|lia].
Qed.

Lemma split_loop_zero n :
  forall split pos w,
  (forall i, split <= i < split + Z.of_nat n ->
     fs w !! split_path_of split_dir i <> Some Dir) ->
  exists w' lines,
    split_loop max_split_size n split filepath filename split_dir filesize
      0 num_splits start_time pos 0 w = (Ok tt, w') /\
    (forall i, split <= i < split + Z.of_nat n ->
       fs w' !! split_path_of split_dir i = Some (File [])) /\
    (forall key,
       (forall i, split <= i < split + Z.of_nat n ->
          key <> split_path_of split_dir i) ->
       fs w' !! key = fs w !! key) /\
    stdout w' = stdout w ++ lines /\ length lines = n /\
    Forall (fun r => rep_bytes r = 0 /\ rep_end r = CR) lines.
Proof.
  induction n as [|n IH]; intros split pos w Hfree.
  { exists w, []. cbn [split_loop]. split; [done|].
    split; [intros i Hi; lia|]. split; [done|].
    split; [by rewrite app_nil_r|]. split; [done|constructor]. }
  rewrite split_loop_zero_step by (apply Hfree; lia).
  set (path := split_path_of split_dir split).
  destruct (IH (split + 1) pos
              (World (<[path := File []]> (fs w))
                 (stdout w ++
                  [Report (strftime_HMS
                             ((clock w (clock_reads w) - start_time) / 1000000))
                     (split + 1) num_splits (Float 0 0) 0 filesize filename CR])
                 (clock w) (S (clock_reads w))))
    as (w' & lines & Hrun & Hfrag & Hframe & Hout & Hlen & Hall).
  { intros i Hi. cbn [fs].
    rewrite lookup_insert_ne; [apply Hfree; lia|].
    intros E. apply path_inj in E. lia. }
  cbn [fs stdout] in Hframe, Hout.
  exists w', (Report (strftime_HMS
                        ((clock w (clock_reads w) - start_time) / 1000000))
                (split + 1) num_splits (Float 0 0) 0 filesize filename CR
              :: lines).
  split; [exact Hrun|]. split; [|split; [|split; [|split]]].
  - intros i Hi. destruct (Z.eq_dec i split) as [->|Hne].
    + rewrite Hframe; [apply lookup_insert_eq|].
      intros i Hi' E. apply path_inj in E. lia.
    + apply Hfrag. lia.
  - intros key Hkey. rewrite Hframe.
    + rewrite lookup_insert_ne; [done|]. apply not_eq_sym, Hkey. lia.
    + intros i Hi. apply Hkey. lia.
  - by rewrite Hout, <- app_assoc.
  - cbn [length]. by rewrite Hlen.
  - constructor; [done|exact Hall].
Qed.

(** *** Reads of everything *)

Variable buf_size : Z.
Hypothesis buf_neg : buf_size < 0.

(** [read(n)] with a negative [n] returns all that is left, so the
    loop of a fragment takes the rest of the input in one read, however
    long, and finds nothing at its second read. *)
Lemma copy_loop_all fuel pos outfile total w out :
  filepath <> outfile ->
  fs w !! filepath = Some (File data) ->
  fs w !! outfile = Some (File out) ->
  (length data - pos < fuel)%nat ->
  copy_loop max_split_size fuel filepath pos outfile buf_size 0 total w =
  (Ok ((pos + (length data - pos))%nat, total + Z.of_nat (length data - pos)),
   set_fs (<[outfile := File (out ++ drop pos data)]> (fs w)) w).
Proof.
  intros Hne Hin Hout Hfuel.
  destruct fuel as [|fuel]; [lia|].
  cbn [copy_loop]. destruct (Z.ltb_spec 0 max_split_size) as [_|?]; [|lia].
  unfold bind at 1. unfold file_read at 1. cbv beta zeta.
  rewrite (contents_file _ _ _ Hin).
  destruct (Z.ltb_spec buf_size 0) as [_|?]; [|lia].
  pose proof (length_drop data pos) as Hlen.
  destruct (drop pos data) as [|b rest] eqn:E.
  { cbn [length] in Hlen. rewrite <- Hlen. unfold ret.
    rewrite Nat.add_0_r, Z.add_0_r, app_nil_r.
    by rewrite (insert_id _ _ _ Hout), set_fs_id. }
  unfold bind at 1. unfold file_write at 1. cbv beta zeta.
  rewrite (contents_file _ _ _ Hout).
  destruct fuel as [|fuel]; [cbn [length] in Hlen; lia|].
  cbn [copy_loop].
  assert (Hrest : drop (pos + length (b :: rest)) data = []).
  { apply drop_ge. lia. }
  destruct (0 + len (b :: rest) <? max_split_size).
  - unfold bind at 1. unfold file_read at 1. cbv beta zeta.
    cbn [fs set_fs]. unfold contents at 1.
    rewrite lookup_insert_ne by done. fold (contents (fs w) filepath).
    rewrite (contents_file _ _ _ Hin).
    destruct (Z.ltb_spec buf_size 0) as [_|?]; [|lia].
    rewrite Hrest. unfold ret, len. by rewrite Hlen.
  - unfold ret, len. by rewrite Hlen.
Qed.

Lemma split_loop_all_step n split pos total w :
  fs w !! filepath = Some (File data) ->
  fs w !! split_path_of split_dir split <> Some Dir ->
  0 <= total -> total + Z.of_nat (length data - pos) <= filesize ->
  let total' := total + Z.of_nat (length data - pos) in
  split_loop max_split_size (S n) split filepath filename split_dir filesize
    buf_size num_splits start_time pos total w =
  split_loop max_split_size n (split + 1) filepath filename split_dir filesize
    buf_size num_splits start_time (pos + (length data - pos)) total'
    (World (<[split_path_of split_dir split := File (drop pos data)]> (fs w))
       (stdout w ++
        [Report (strftime_HMS ((clock w (clock_reads w) - start_time) / 1000000))
           (split + 1) num_splits (progress_of total' filesize) total'
           filesize filename (if total' <? filesize then CR else LF)])
       (clock w) (S (clock_reads w))).
Proof.
  intros Hin Hdir Htot Hsz total'. subst total'.
  cbn [split_loop].
  set (path := split_path_of split_dir split) in *.
  unfold bind at 1. unfold open_wb at 1.
  assert (Hw : (match fs w !! path with
                | Some Dir => (Raise IsADirectoryError, w)
                | _ => (Ok tt, set_fs (<[path := File []]> (fs w)) w)
                end) = (Ok tt, set_fs (<[path := File []]> (fs w)) w)).
  { destruct (fs w !! path) as [[|]|]; done. }
  rewrite Hw. clear Hw.
  set (w1 := set_fs (<[path := File []]> (fs w)) w).
  assert (Hin1 : fs w1 !! filepath = Some (File data)).
  { cbn. rewrite lookup_insert_ne; [done|apply no_alias]. }
  unfold bind at 1. unfold bytes_left at 1.
  rewrite (contents_file _ _ _ Hin1).
  unfold bind at 1.
  rewrite (copy_loop_all _ pos path total w1 []
             (not_eq_sym (no_alias split)) Hin1);
    [|cbn; by rewrite lookup_insert_eq|lia].
  rewrite app_nil_l.
  unfold format_elapsed_time. unfold bind at 1. unfold bind at 1.
  unfold time_time at 1. unfold ret at 1.
  destruct (truediv_le_one (total + Z.of_nat (length data - pos)) filesize)
    as [x Hx]; [lia|done|].
  unfold bind at 1. unfold lift at 1. rewrite Hx.
  unfold bind at 1. unfold print at 1.
  cbn [fs stdout clock clock_reads set_fs w1].
  rewrite insert_insert_eq.
  unfold progress_of. rewrite Hx. reflexivity.
Qed.

Lemma split_loop_all n :
  forall split pos total w,
  fs w !! filepath = Some (File data) ->
  (forall i, split <= i < split + Z.of_nat n ->
     fs w !! split_path_of split_dir i <> Some Dir) ->
  0 <= total -> total + Z.of_nat (length data - pos) <= filesize ->
  exists w' lines,
    split_loop max_split_size n split filepath filename split_dir filesize
      buf_size num_splits start_time pos total w = (Ok tt, w') /\
    (forall i, split <= i < split + Z.of_nat n ->
       fs w' !! split_path_of split_dir i =
         Some (File (if decide (i = split) then drop pos data else []))) /\
    (forall key,
       (forall i, split <= i < split + Z.of_nat n ->
          key <> split_path_of split_dir i) ->
       fs w' !! key = fs w !! key) /\
    stdout w' = stdout w ++ lines /\ length lines = n /\
    Forall (fun r =>
              rep_bytes r = total + Z.of_nat (length data - pos) /\
              rep_end r = (if rep_bytes r <? filesize then CR else LF)) lines.
Proof.
  induction n as [|n IH]; intros split pos total w Hin Hfree Htot Hsz.
  { exists w, []. cbn [split_loop]. split; [done|].
    split; [intros i Hi; lia|]. split; [done|].
    split; [by rewrite app_nil_r|]. split; [done|constructor]. }
  rewrite split_loop_all_step; [|done|apply Hfree; lia|done|done].
  cbv zeta.
  set (path := split_path_of split_dir split).
  set (total' := total + Z.of_nat (length data - pos)).
  set (line := Report _ _ _ _ _ _ _ _).
  destruct (IH (split + 1) (pos + (length data - pos))%nat total'
              (World (<[path := File (drop pos data)]> (fs w))
                 (stdout w ++ [line]) (clock w) (S (clock_reads w))))
    as (w' & lines & Hrun & Hfrag & Hframe & Hout & Hlen & Hall).
  { cbn [fs]. rewrite lookup_insert_ne; [done|apply no_alias]. }
  { intros i Hi. cbn [fs].
    rewrite lookup_insert_ne; [apply Hfree; lia|].
    intros E. apply path_inj in E. lia. }
  { unfold total'. lia. }
  { unfold total'. lia. }
  cbn [fs stdout] in Hframe, Hout.
  assert (Hend : (length data - (pos + (length data - pos)) = 0)%nat) by lia.
  rewrite Hend, Z.add_0_r in Hall.
  exists w', (line :: lines).
  split; [exact Hrun|]. split; [|split; [|split; [|split]]].
  - intros i Hi. destruct (decide (i = split)) as [->|Hne].
    + rewrite Hframe; [apply lookup_insert_eq|].
      intros i Hi' E. apply path_inj in E. lia.
    + rewrite Hfrag by lia.
      destruct (decide (i = split + 1)); [|done].
      do 2 f_equal. apply drop_ge. lia.
  - intros key Hkey. rewrite Hframe.
    + rewrite lookup_insert_ne; [done|]. apply not_eq_sym, Hkey. lia.
    + intros i Hi. apply Hkey. lia.
  - by rewrite Hout, <- app_assoc.
  - cbn [length]. by rewrite Hlen.
  - constructor; [done|exact Hall].
Qed.

End Buffers.

End BufferFacts.

Module BufferExtras.
Import PyNum PyNumFacts PyStr OsPath Runtime Chunks CopyFacts.
Import LayoutFacts DivisionFacts CallFacts BufferFacts Inputs.

(** X15: with [buf_size = 0] every read returns no byte, so the call
    copies nothing and still returns as if all went well: each of the
    fragments it counts is created empty, and each line reports [0]
    bytes and ends with a carriage return. *)
Theorem split_file_zero_buffer filepath filesize w data :
  0 < filesize < 2 ^ 1023 * MAX_SPLIT_SIZE ->
  fs w !! filepath = Some (File data) ->
  (forall d, fs w !! split_dir_of filepath <> Some (File d)) ->
  (forall i, fs w !! split_path_of (split_dir_of filepath) i <> Some Dir) ->
  exists w' k,
    split_file filepath filesize 0 w = (Ok (split_dir_of filepath), w') /\
    num_splits filesize = Ok k /\
    (forall j, 0 <= j < k ->
       fs w' !! split_path_of (split_dir_of filepath) j = Some (File [])) /\
    length (stdout w') = (length (stdout w) + Z.to_nat k)%nat /\
    forall r, r ∈ drop (length (stdout w)) (stdout w') ->
      rep_bytes r = 0 /\ rep_end r = CR.
Proof.
  intros Hsz Hin Hd Hn. set (D := split_dir_of filepath) in *.
  destruct (truediv_defined filesize MAX_SPLIT_SIZE) as [x Hx]; [done| |].
  { rewrite Z.abs_eq by lia. change (Z.abs MAX_SPLIT_SIZE) with MAX_SPLIT_SIZE.
    lia. }
  unfold split_file.
  rewrite (split_file_at_loop _ _ _ _ _ data x Hx Hin Hd). fold D.
  destruct (split_loop_zero MAX_SPLIT_SIZE filepath (basename filepath) D
              filesize (math_ceil x) (clock w (clock_reads w)) ltac:(lia)
              (split_path_inj filepath) (Z.to_nat (math_ceil x)) 0 0%nat
              (World (<[D := Dir]> (fs w)) (stdout w) (clock w)
                 (S (clock_reads w))))
    as (w' & lines & Hrun & Hfrag & _ & Hout & Hlen & Hall).
  { intros i Hi. cbn [fs]. rewrite lookup_insert_ne; [apply Hn|].
    apply not_eq_sym, split_path_not_dir. }
  rewrite Hrun. cbn [stdout] in Hout.
  exists w', (math_ceil x). split; [done|].
  split; [unfold num_splits, num_splits_at; by rewrite Hx|].
  split; [intros j Hj; apply Hfrag; lia|].
  split; [by rewrite Hout, length_app, Hlen|].
  intros r Hr. rewrite Hout, drop_app_length in Hr.
  by apply (proj1 (Forall_forall _ _) Hall).
Qed.

Lemma split_file_zero_buffer_witness :
  exists w' k,
    split_file "d/a.bin" 3 0 small_world = (Ok (split_dir_of "d/a.bin"), w') /\
    num_splits 3 = Ok k /\
    (forall j, 0 <= j < k ->
       fs w' !! split_path_of (split_dir_of "d/a.bin") j = Some (File [])) /\
    length (stdout w') = (length (stdout small_world) + Z.to_nat k)%nat /\
    forall r, r ∈ drop (length (stdout small_world)) (stdout w') ->
      rep_bytes r = 0 /\ rep_end r = CR.
Proof.
  apply (split_file_zero_buffer "d/a.bin" 3 small_world [x01; x02; x03]).
  - split; vm_compute; reflexivity.
  - reflexivity.
  - exact small_dir_free.
  - exact small_names_free.
Defined.

(** X16: with a negative [buf_size] the first read returns the whole
    input, so fragment [00] is a copy of the input, longer than
    [MAX_SPLIT_SIZE] if the input is, and every further fragment is
    created empty; all lines report the size of the input. *)
Theorem split_file_negative_buffer filepath filesize buf_size w data :
  buf_size < 0 ->
  0 < filesize < 2 ^ 1023 * MAX_SPLIT_SIZE ->
  fs w !! filepath = Some (File data) ->
  Z.of_nat (length data) <= filesize ->
  (forall d, fs w !! split_dir_of filepath <> Some (File d)) ->
  (forall i, fs w !! split_path_of (split_dir_of filepath) i <> Some Dir) ->
  exists w' k,
    split_file filepath filesize buf_size w =
      (Ok (split_dir_of filepath), w') /\
    num_splits filesize = Ok k /\
    (0 < k -> fs w' !! split_path_of (split_dir_of filepath) 0 =
              Some (File data)) /\
    (forall j, 0 < j < k ->
       fs w' !! split_path_of (split_dir_of filepath) j = Some (File [])) /\
    length (stdout w') = (length (stdout w) + Z.to_nat k)%nat /\
    forall r, r ∈ drop (length (stdout w)) (stdout w') ->
      rep_bytes r = Z.of_nat (length data).
Proof.
  intros Hb Hsz Hin Hlen Hd Hn. set (D := split_dir_of filepath) in *.
  destruct (truediv_defined filesize MAX_SPLIT_SIZE) as [x Hx]; [done| |].
  { rewrite Z.abs_eq by lia. change (Z.abs MAX_SPLIT_SIZE) with MAX_SPLIT_SIZE.
    lia. }
  unfold split_file.
  rewrite (split_file_at_loop _ _ _ _ _ data x Hx Hin Hd). fold D.
  destruct (split_loop_all MAX_SPLIT_SIZE data filepath (basename filepath) D
              filesize (math_ceil x) (clock w (clock_reads w)) ltac:(done)
              ltac:(lia) (split_path_fresh filepath) (split_path_inj filepath)
              buf_size Hb (Z.to_nat (math_ceil x)) 0 0%nat 0
              (World (<[D := Dir]> (fs w)) (stdout w) (clock w)
                 (S (clock_reads w))))
    as (w' & lines & Hrun & Hfrag & _ & Hout & Hlen' & Hall).
  { cbn [fs]. rewrite lookup_insert_ne; [done|apply split_dir_fresh]. }
  { intros i Hi. cbn [fs]. rewrite lookup_insert_ne; [apply Hn|].
    apply not_eq_sym, split_path_not_dir. }
  { lia. }
  { rewrite Nat.sub_0_r. lia. }
  rewrite Hrun. cbn [stdout] in Hout.
  exists w', (math_ceil x). split; [done|].
  split; [unfold num_splits, num_splits_at; by rewrite Hx|].
  split; [|split; [|split]].
  - intros Hk. rewrite Hfrag by lia. by rewrite decide_True, drop_0.
  - intros j Hj. rewrite Hfrag by lia. by rewrite decide_False by lia.
  - by rewrite Hout, length_app, Hlen'.
  - intros r Hr. rewrite Hout, drop_app_length in Hr.
    destruct (proj1 (Forall_forall _ _) Hall r Hr) as [Hbytes _].
    rewrite Hbytes, Nat.sub_0_r. lia.
Qed.

Lemma split_file_negative_buffer_witness :
  exists w' k,
    split_file "d/a.bin" 3 (-1) small_world =
      (Ok (split_dir_of "d/a.bin"), w') /\
    num_splits 3 = Ok k /\
    (0 < k -> fs w' !! split_path_of (split_dir_of "d/a.bin") 0 =
              Some (File [x01; x02; x03])) /\
    (forall j, 0 < j < k ->
       fs w' !! split_path_of (split_dir_of "d/a.bin") j = Some (File [])) /\
    length (stdout w') = (length (stdout small_world) + Z.to_nat k)%nat /\
    forall r, r ∈ drop (length (stdout small_world)) (stdout w') ->
      rep_bytes r = Z.of_nat (length [x01; x02; x03]).
Proof.
  apply (split_file_negative_buffer "d/a.bin" 3 (-1) small_world
           [x01; x02; x03]).
  - reflexivity.
  - split; vm_compute; reflexivity.
  - reflexivity.
  - vm_compute. discriminate.
  - exact small_dir_free.
  - exact small_names_free.
Defined.

(** Eleven bytes at a threshold of four: reads of no byte leave three
    empty fragments, reads of everything put all bytes into the
    first. *)
Example split_eleven_by_zero :
  let (r, w') := split_file_at 4 "d/a.bin" 11 0 eleven_world in
  r = Ok "d/a.split.bin" /\
  map (contents (fs w'))
    ["d/a.split.bin/00"; "d/a.split.bin/01"; "d/a.split.bin/02"] =
    [[]; []; []] /\
  map rep_bytes (stdout w') = [0; 0; 0].
Proof. vm_compute. repeat split; reflexivity. Qed.

Example split_eleven_by_all :
  let (r, w') := split_file_at 4 "d/a.bin" 11 (-1) eleven_world in
  r = Ok "d/a.split.bin" /\
  map (contents (fs w'))
    ["d/a.split.bin/00"; "d/a.split.bin/01"; "d/a.split.bin/02"] =
    [[x01; x02; x03; x04; x05; x06; x07; x08; x09; x0a; x0b]; []; []] /\
  map rep_bytes (stdout w') = [11; 11; 11].
Proof. vm_compute. repeat split; reflexivity. Qed.

End BufferExtras.

Module PathExtras.
Import PyStr PyStrFacts OsPath OsPathFacts Layout LayoutFacts.

Lemma all_char_free c s : contains c s = false -> s <> "" -> all_char c s = false.
Proof.
  destruct s as [|a s]; [done|]. cbn [contains all_char].
  intros [-> _]%orb_false_iff _. done.
Qed.

(** The head and the last component of a path with a dot put behind
    it. *)
Lemma head_app_dot p :
  head (p +:+ ".") = head p /\ basename (p +:+ ".") = basename p +:+ ".".
Proof.
  pose proof (rsplit_spec sep p) as H.
  destruct (rsplit sep p) as [[h t]|] eqn:E.
  - destruct H as [Hp Ht].
    assert (Hh : head p = h +:+ "/") by (unfold head; by rewrite E).
    assert (Hb : basename p = t) by (unfold basename; by rewrite E).
    rewrite Hh, Hb.
    assert (Hp' : p +:+ "." = (h +:+ "/") +:+ (t +:+ ".")).
    { rewrite Hp at 1. change (String sep t) with ("/" +:+ t).
      by rewrite !app_assoc. }
    rewrite Hp'. apply head_app. by rewrite contains_app, Ht.
  - assert (Hh : head p = "") by (unfold head; by rewrite E).
    assert (Hb : basename p = p) by (unfold basename; by rewrite E).
    rewrite Hh, Hb. apply head_free. by rewrite contains_app, H.
Qed.

(** X17: the paths a call writes to never collide: for every input
    path, the split directory is not the input, no fragment path is
    the input or the split directory, and fragments of different number
    have different paths. *)
Theorem split_paths_distinct filepath :
  split_dir_of filepath <> filepath /\
  (forall i, split_path_of (split_dir_of filepath) i <> filepath) /\
  (forall i, split_path_of (split_dir_of filepath) i <> split_dir_of filepath) /\
  (forall i j,
     split_path_of (split_dir_of filepath) i =
     split_path_of (split_dir_of filepath) j -> i = j).
Proof.
  split; [apply split_dir_fresh|]. split; [apply split_path_fresh|].
  split; [apply split_path_not_dir|apply split_path_inj].
Qed.

(** X24: two inputs can share one split directory.  When the file name
    of [filepath] is not empty and has no dot, the path with a dot
    behind it is another path with the same split directory: the dot
    is taken for an empty extension, and the name of the directory ends
    in [.split.] for both. *)
Theorem split_dir_shared filepath :
  basename filepath <> "" ->
  contains "." (basename filepath) = false ->
  filepath +:+ "." <> filepath /\
  split_dir_of (filepath +:+ ".") = split_dir_of filepath /\
  basename (split_dir_of filepath) = basename filepath +:+ ".split.".
Proof.
  intros Hne Hdot. set (b := basename filepath) in *.
  split.
  { intros E. apply (f_equal String.length) in E.
    rewrite length_app in E. cbn in E. lia. }
  destruct (head_app_dot filepath) as [Hh Hb]. fold b in Hb.
  assert (Hsep : contains sep b = false) by apply basename_free.
  assert (Hsep' : contains sep (b +:+ ".") = false).
  { by rewrite contains_app, Hsep. }
  assert (Hall : all_char extsep b = false) by (by apply all_char_free).
  assert (Hr : rsplit extsep (b +:+ ".") = Some (b, "")).
  { change "." with (String extsep ""). by apply rsplit_app. }
  assert (Hr0 : rsplit extsep b = None) by (by apply rsplit_free).
  assert (E1 : splitext filepath = (filepath, "")).
  { unfold splitext. fold b. by rewrite Hr0. }
  assert (E2 : splitext b = (b, "")).
  { unfold splitext. rewrite (proj2 (head_free _ Hsep)). by rewrite Hr0. }
  assert (E3 : (splitext (filepath +:+ ".")).2 = ".").
  { unfold splitext. rewrite Hb, Hr, Hall. done. }
  assert (E4 : splitext (b +:+ ".") = (b, ".")).
  { unfold splitext. destruct (head_free _ Hsep') as [-> ->].
    rewrite Hr, Hall. by rewrite app_nil_l. }
  assert (Hdir : split_dir_of filepath = join (dirname filepath) (b +:+ ".split.")).
  { unfold split_dir_of. fold b. rewrite E1, E2. done. }
  split.
  - rewrite Hdir. unfold split_dir_of. rewrite Hb, E3, E4.
    unfold dirname. rewrite Hh. done.
  - rewrite Hdir. apply dirname_join; [apply dirname_tidy|].
    by rewrite contains_app, Hsep.
Qed.

Lemma split_dir_shared_witness :
  "d/x" +:+ "." <> "d/x" /\
  split_dir_of ("d/x" +:+ ".") = split_dir_of "d/x" /\
  basename (split_dir_of "d/x") = basename "d/x" +:+ ".split.".
Proof.
  apply (split_dir_shared "d/x").
  - discriminate.
  - reflexivity.
Defined.

End PathExtras.

(** ** The elapsed time *)

Module ElapsedExtras.
Import PyStr PyStrFacts FormatFacts Runtime.

Lemma format_02_two n :
  0 <= n < 100 -> String.length (format_02 n) = 2%nat.
Proof.
  intros Hn.
  assert (H : forallb (fun k => Nat.eqb (String.length (format_02 (Z.of_nat k))) 2)
                (seq 0 100) = true) by (vm_compute; reflexivity).
  rewrite forallb_forall in H. specialize (H (Z.to_nat n)).
  rewrite Z2Nat.id in H by lia. apply Nat.eqb_eq, H, in_seq. lia.
Qed.

Lemma app_inj_length (a a' x x' : string) :
  String.length a = String.length a' ->
  a +:+ x = a' +:+ x' -> a = a' /\ x = x'.
Proof.
  revert a'. induction a as [|c a IH]; intros [|c' a'] Hlen E; try done.
  rewrite !app_cons in E. injection E as -> E. cbn in Hlen.
  destruct (IH a' ltac:(lia) E) as [-> ->]. done.
Qed.

Lemma strftime_HMS_period s : strftime_HMS (s + 86400) = strftime_HMS s.
Proof.
  unfold strftime_HMS.
  assert (E1 : (s + 86400) / 3600 mod 24 = s / 3600 mod 24).
  { replace (s + 86400) with (s + 24 * 3600) by lia.
    rewrite Z.div_add by lia.
    replace (s / 3600 + 24) with (s / 3600 + 1 * 24) by lia.
    apply Z_mod_plus_full. }
  assert (E2 : (s + 86400) / 60 mod 60 = s / 60 mod 60).
  { replace (s + 86400) with (s + 1440 * 60) by lia.
    rewrite Z.div_add by lia.
    replace (s / 60 + 1440) with (s / 60 + 24 * 60) by lia.
    apply Z_mod_plus_full. }
  assert (E3 : (s + 86400) mod 60 = s mod 60).
  { replace (s + 86400) with (s + 1440 * 60) by lia.
    apply Z_mod_plus_full. }
  by rewrite E1, E2, E3.
Qed.

(** X18: the text of the elapsed time wraps around after a day: a
    start time [86400] seconds earlier gives the same text, so hours
    from [24] on are never shown. *)
Theorem format_elapsed_time_wraps start_time w :
  format_elapsed_time (start_time - 86400 * 1000000) w =
  format_elapsed_time start_time w.
Proof.
  unfold format_elapsed_time, bind, time_time, ret. do 2 f_equal.
  replace (clock w (clock_reads w) - (start_time - 86400 * 1000000))
    with (clock w (clock_reads w) - start_time + 86400 * 1000000) by lia.
  rewrite Z.div_add by lia. apply strftime_HMS_period.
Qed.

(** X19: the text has eight characters, and within a day it tells the
    seconds apart: two elapsed times from [0] to [86399] seconds with
    the same text are the same. *)
Theorem strftime_HMS_faithful s t :
  0 <= s < 86400 -> 0 <= t < 86400 ->
  strftime_HMS s = strftime_HMS t ->
  s = t /\ String.length (strftime_HMS s) = 8%nat.
Proof.
  intros Hs Ht E.
  assert (Hf : forall u,
    String.length (format_02 (u / 3600 mod 24)) = 2%nat /\
    String.length (format_02 (u / 60 mod 60)) = 2%nat /\
    String.length (format_02 (u mod 60)) = 2%nat).
  { intros u.
    pose proof (Z.mod_pos_bound (u / 3600) 24 ltac:(lia)).
    pose proof (Z.mod_pos_bound (u / 60) 60 ltac:(lia)).
    pose proof (Z.mod_pos_bound u 60 ltac:(lia)).
    split; [|split]; apply format_02_two; lia. }
  destruct (Hf s) as (Hs1 & Hs2 & Hs3). destruct (Hf t) as (Ht1 & Ht2 & Ht3).
  split.
  - unfold strftime_HMS in E.
    apply app_inj_length in E as [E1 E]; [|congruence].
    apply (app_inj_length ":" ":") in E as [_ E]; [|done].
    apply app_inj_length in E as [E2 E]; [|congruence].
    apply (app_inj_length ":" ":") in E as [_ E3]; [|done].
    apply format_02_inj in E1, E2, E3.
    clear Hf Hs1 Hs2 Hs3 Ht1 Ht2 Ht3.
    rewrite (Z.div_mod s 60), (Z.div_mod t 60) by lia. rewrite E3.
    rewrite (Z.div_mod (s / 60) 60), (Z.div_mod (t / 60) 60) by lia.
    rewrite E2.
    assert (Hh : s / 60 / 60 = t / 60 / 60).
    { rewrite !Z.div_div by lia. change (60 * 60) with 3600.
      rewrite <- (Z.mod_small (s / 3600) 24), <- (Z.mod_small (t / 3600) 24).
      - exact E1.
      - split; [apply Z.div_pos; lia|apply Z.div_lt_upper_bound; lia].
      - split; [apply Z.div_pos; lia|apply Z.div_lt_upper_bound; lia]. }
    by rewrite Hh.
  - unfold strftime_HMS. rewrite !length_app, Hs1, Hs2, Hs3. done.
Qed.

Lemma strftime_HMS_faithful_witness :
  3661 = 3661 /\ String.length (strftime_HMS 3661) = 8%nat.
Proof.
  apply (strftime_HMS_faithful 3661 3661).
  - lia.
  - lia.
  - reflexivity.
Defined.

End ElapsedExtras.

(** ** More on the collected files *)

Module CollectExtras.
Import PyStr OsPath Listing EnumFacts.

Lemma join_suffix a b : exists p, join a b = p +:+ b.
Proof.
  unfold join. destruct (startswith b "/"); [by exists ""|].
  destruct (String.eqb a "" || endswith a "/"); [by exists a|].
  exists (a +:+ "/"). by rewrite PyStrFacts.app_assoc.
Qed.

Lemma matches_suffix root extension files p :
  p ∈ matches root extension files -> endswith p extension = true.
Proof.
  intros (name & _ & He & ->)%elem_of_matches.
  apply PyStrFacts.endswith_iff in He as [q ->].
  destruct (join_suffix root (q +:+ extension)) as [r ->].
  rewrite <- PyStrFacts.app_assoc. apply PyStrFacts.endswith_app.
Qed.

Lemma collect_walk_suffix steps extension recursive :
  forall collected,
  (forall p, p ∈ collected -> endswith p extension = true) ->
  forall p, p ∈ collect_walk steps extension recursive collected ->
  endswith p extension = true.
Proof.
  induction steps as [|[[root dirs] files] steps IH]; intros collected Hc;
    [done|].
  cbn [collect_walk]. rewrite collect_in_matches.
  assert (Hc' : forall p, p ∈ collected ++ matches root extension files ->
                endswith p extension = true).
  { intros p [Hp|Hp]%elem_of_app; [by apply Hc|by eapply matches_suffix]. }
  destruct (negb recursive); [exact Hc'|by apply IH].
Qed.

(** X20: every path that [collect_files] returns ends with
    [extension], whatever the directory holds and with or without
    [recursive]: the name of a directory on the way does not count,
    only the end of the path. *)
Theorem collect_files_suffix d directory extension recursive :
  exists found,
    collect_files d directory extension recursive = Ok found /\
    forall p, p ∈ found -> endswith p extension = true.
Proof.
  eexists. split; [reflexivity|].
  apply collect_walk_suffix. by intros p ?%not_elem_of_nil.
Qed.

(** X21: the files of the directory itself come first: the result
    with [recursive] starts with the result without it, in the same
    order, and the files of the subdirectories follow. *)
Theorem collect_files_flat_first d directory extension :
  exists flat deeper,
    collect_files d directory extension false = Ok flat /\
    collect_files d directory extension true = Ok (flat ++ deeper).
Proof.
  unfold collect_files.
  destruct (os_walk d directory) as [|[[root dirs] files] steps].
  - by exists [], [].
  - cbn [collect_walk negb]. rewrite collect_walk_all. eauto.
Qed.

(** X22: an empty [extension] selects every file: without
    [recursive] the call returns the path of each file of the
    directory, in listing order. *)
Theorem collect_files_no_extension d directory entries :
  d directory = Some (DirNode entries) ->
  collect_files d directory "" false =
    Ok (map (join directory) (files_of entries)).
Proof.
  intros Hd. unfold collect_files, os_walk. rewrite Hd.
  cbn [walk_tree collect_walk negb]. rewrite collect_in_matches.
  rewrite app_nil_l. unfold matches. do 2 f_equal.
  induction (files_of entries) as [|file files IH]; [done|].
  rewrite filter_cons, decide_True, IH; [done|].
  rewrite <- (PyStrFacts.app_nil_r file) at 1. apply PyStrFacts.endswith_app.
Qed.

Lemma collect_files_no_extension_witness :
  collect_files sample_disk "top" "" false =
    Ok (map (join "top")
          (files_of [("a.txt", FileNode); ("b.mp4", FileNode);
                     ("sub", DirNode [("c.mp4", FileNode)])])).
Proof.
  apply (collect_files_no_extension sample_disk "top").
  reflexivity.
Defined.

End CollectExtras.
